(** * PDFLux front end: client-side logic of the dashboard, the document
    manager, the AI chat and the theme switch

    The development embeds the handlers of [App], [Dashboard],
    [DocumentManager] and [AIChat] as Rocq functions and proves the
    properties the specification states about them.

    Conventions of the embedding.
    - A JavaScript string is a sequence of UTF-16 code units; the model keeps
      the code units below 256 (Rocq's [ascii]), on which [toLowerCase],
      [trim] and [includes] are written as ECMAScript defines them.
    - Integers held in JavaScript numbers (sizes, time values, counters) are
      [Z]; fractional numbers (temperature, processing time, a random draw)
      are [Q]: every finite double is a rational.
    - A handler runs in the monad [Eff]: it threads the component state,
      appends the side effects it performs (requests, toasts, console
      output, browser calls) to a trace, and may throw.  What the outside
      world answers (the settled request, the clock, a random draw, the
      answer to a confirmation) is an argument of the handler.  A handler
      is run to its end; for [sendMessage], whose transcript other handlers
      can change while the request is pending, the two turns are also
      given on their own. *)

From Stdlib Require Import ZArith QArith Qround List String Ascii.
From Stdlib Require Import Sorting Permutation Lia DecimalString DecimalN DecimalPos.
From stdpp Require Import base strings gmap.

Import ListNotations.
Local Open Scope string_scope.
Local Open Scope Z_scope.

(* ===================================================================== *)
(** ** Built-ins of the language that the handlers call *)
(* ===================================================================== *)

Module JS.

(** Code unit of a character. *)
Definition code (c : ascii) : N := N_of_ascii c.

(** [String.prototype.toLowerCase] on the code units below 256: the
    letters A-Z and the Latin-1 capitals U+00C0-U+00DE (without the
    multiplication sign U+00D7) move up by 32, nothing else changes. *)
Definition lower_char (c : ascii) : ascii :=
  let n := code c in
  if ((65 <=? n) && (n <=? 90))%N then ascii_of_N (n + 32)
  else if ((192 <=? n) && (n <=? 222) && negb (n =? 215))%N then ascii_of_N (n + 32)
  else c.

Fixpoint toLowerCase (s : string) : string :=
  match s with
  | EmptyString => EmptyString
  | String c s' => String (lower_char c) (toLowerCase s')
  end.

(** [String.prototype.includes]: [searchString] occurs in [s] at some
    position. *)
Fixpoint includes (s searchString : string) : bool :=
  String.prefix searchString s ||
  match s with
  | EmptyString => false
  | String _ s' => includes s' searchString
  end.

(** White space and line terminators stripped by [trim], below 256:
    TAB, LF, VT, FF, CR, SP and NBSP. *)
Definition isWhiteSpace (c : ascii) : bool :=
  let n := code c in
  ((9 <=? n) && (n <=? 13) || (n =? 32) || (n =? 160))%N.

Fixpoint trimStart (s : string) : string :=
  match s with
  | EmptyString => EmptyString
  | String c s' => if isWhiteSpace c then trimStart s' else s
  end.

(** [trimEnd] drops the trailing white space: a white-space character is
    kept only when something is kept after it. *)
Fixpoint trimEnd (s : string) : string :=
  match s with
  | EmptyString => EmptyString
  | String c s' =>
      match trimEnd s' with
      | EmptyString => if isWhiteSpace c then EmptyString else String c EmptyString
      | t => String c t
      end
  end.

Definition trim (s : string) : string := trimEnd (trimStart s).

(** Truthiness of a string: only the empty string is falsy. *)
Definition truthy (s : string) : bool :=
  match s with EmptyString => false | _ => true end.

(** [a || b] on strings where [b] may be [undefined]. *)
Definition or_else (a : option string) (b : string) : string :=
  match a with
  | Some s => if truthy s then s else b
  | None => b
  end.

(** [a || b] where [a] is a boolean and [b] a boolean or [undefined]
    ([None]), and the truthiness of the value it yields. *)
Definition lor (a : bool) (b : option bool) : option bool :=
  if a then Some true else b.

Definition ToBoolean (v : option bool) : bool :=
  match v with Some b => b | None => false end.

(** [s.charAt(0)] and [s.slice(1)]. *)
Definition charAt0 (s : string) : string :=
  match s with EmptyString => EmptyString | String c _ => String c EmptyString end.

Definition slice1 (s : string) : string :=
  match s with EmptyString => EmptyString | String _ s' => s' end.

(** [l[i]] followed by string concatenation: a missing element, and an
    index that is [NaN] ([None]), read as "undefined". *)
Definition element (l : list string) (i : option Z) : string :=
  match i with
  | Some n =>
      match (if n <? 0 then None else nth_error l (Z.to_nat n)) with
      | Some x => x
      | None => "undefined"
      end
  | None => "undefined"
  end.

(** [Math.floor(Math.log(x) / Math.log(1024))] for an integer [x]:
    the logarithm of a negative number is [NaN] ([None]); for [x >= 1]
    it is the largest [i] with [1024 ^ i <= x], the floor of the exact
    quotient of the two logarithms.  ([x = 0] gives [-Infinity]; no caller
    passes it.)  The other operations of [formatBytes] are exact on the
    integers a number holds: the division by a power of two, and [toFixed],
    which rounds the exact value. *)
Definition floor_log1024 (x : Z) : option Z :=
  if x <=? 0 then None else Some (Z.log2 x / 10).

(** [Array.prototype.sort(comparefn)].  For a consistent comparator the
    standard fixes the result: the stable sorted arrangement.  The model
    is the stable insertion sort; [comparefn a b <= 0] keeps [a] before
    [b]. *)
Section Sort.
Context {A : Type} (comparefn : A -> A -> Z).

Fixpoint insert (x : A) (l : list A) : list A :=
  match l with
  | [] => [x]
  | y :: l' => if comparefn x y <=? 0 then x :: y :: l' else y :: insert x l'
  end.

Fixpoint sort (l : list A) : list A :=
  match l with
  | [] => []
  | x :: l' => insert x (sort l')
  end.
End Sort.

(** [Array.prototype.slice(0, n)]. *)
Definition slice0 {A : Type} (n : nat) (l : list A) : list A := firstn n l.

(** [Array.prototype.reduce] with an initial value. *)
Definition reduce {A B : Type} (f : B -> A -> B) (init : B) (l : list A) : B :=
  fold_left f l init.

(** Decimal numeral of a non-negative integer. *)
Definition digits (n : Z) : string := NilZero.string_of_uint (N.to_uint (Z.to_N n)).

(** Hundredths [h >= 0] printed as [Number.prototype.toFixed(2)] prints
    the number [h / 100]: always two decimals. *)
Definition fixed2 (h : Z) : string :=
  digits (h / 100) ++ "." ++ digits (h mod 100 / 10) ++ digits (h mod 10).

(** Hundredths printed as the number [h / 100] converts to a string,
    which is what [parseFloat(x.toFixed(2)) + ' '] yields: trailing
    zeros of the fraction are dropped. *)
Definition shortest2 (h : Z) : string :=
  if h mod 100 =? 0 then digits (h / 100)
  else if h mod 10 =? 0 then digits (h / 100) ++ "." ++ digits (h mod 100 / 10)
  else fixed2 h.

(** The integer [n] for which [n / 100 - x] is closest to zero, the
    larger one on a tie ([toFixed], step 10.a). *)
Definition nearest_hundredth (x : Q) : Z := Qfloor (x * 100 + (1 # 2))%Q.

(** [x.toFixed(2)] for a finite number [x]. *)
Definition toFixed2 (x : Q) : string :=
  if Qle_bool 0 x then fixed2 (nearest_hundredth x)
  else
    (* the sign is printed first, then the magnitude: -0.001 gives "-0.00" *)
    "-" ++ fixed2 (nearest_hundredth (- x)).

End JS.

(* ===================================================================== *)
(** ** Records exchanged with the backend *)
(* ===================================================================== *)

(** A document record as [GET /api/documents] returns it.  [description]
    is optional: the handlers read it through [?.]. *)
Module Doc.
Record t := make {
  id : string;
  filename : string;
  size : Z;
  page_count : Z;
  upload_date : string;
  description : option string
}.
End Doc.

(** An entry of [GET /api/ai/providers]. *)
Module Provider.
Record t := make {
  name : string;
  available_models : list string;
  status : string
}.
End Provider.

(** A file handed over by the drop zone. *)
Module File.
Record t := make {
  name : string;
  type : string;
  size : Z
}.
End File.

(** A thrown value as the [catch] blocks read it:
    [error.response?.data?.detail] (present on a rejected request whose
    response names a detail) and [error.message]. *)
Module Exn.
Record t := make {
  detail : option string;
  message : string
}.

(** [error.response?.data?.detail || error.message] *)
Definition text (e : t) : string := JS.or_else (detail e) (message e).
End Exn.

(** Body of [POST /api/ai/tasks].  A property whose value is [undefined]
    is left out of the serialised object: [None]. *)
Module TaskRequest.
Record t := make {
  document_id : string;
  task_type : string;
  additional_instructions : option string;
  model_provider : string;
  model_name : string
}.
End TaskRequest.

Module TaskResponse.
Record t := make {
  result : string;
  processing_time : Q
}.
End TaskResponse.

(** A message of the chat transcript.  The optional properties are absent
    ([None], [false]) on the messages that do not set them. *)
Module Msg.
Record t := make {
  role : string;
  content : string;
  timestamp : string;
  model_used : option string;
  processing_time : option Q;
  isError : bool
}.
End Msg.

(** A transcript entry as it is posted: role, content and timestamp. *)
Module Turn.
Record t := make {
  role : string;
  content : string;
  timestamp : string
}.

Definition of_msg (msg : Msg.t) : t :=
  make (Msg.role msg) (Msg.content msg) (Msg.timestamp msg).
End Turn.

(** Body of [POST /api/ai/chat]; [document_id] is set only when a document
    is selected. *)
Module ChatRequest.
Record t := make {
  messages : list Turn.t;
  model_provider : string;
  model_name : string;
  temperature : Q;
  document_id : option string
}.

Definition set_document_id (r : t) (d : string) : t :=
  make (messages r) (model_provider r) (model_name r) (temperature r) (Some d).
End ChatRequest.

(** [response.data] of the chat endpoint: [message.content],
    [message.timestamp], [model_used], [processing_time]. *)
Module ChatResponse.
Record t := make {
  message_content : string;
  message_timestamp : string;
  model_used : string;
  processing_time : Q
}.
End ChatResponse.

(** What [handleKeyPress] reads of a keyboard event. *)
Module KeyboardEvent.
Record t := make {
  key : string;
  shiftKey : bool
}.
End KeyboardEvent.

(* ===================================================================== *)
(** ** The host: what the browser and the build provide *)
(* ===================================================================== *)

(** [BACKEND_URL] comes from the build environment.  [localeCompare] is the
    collation of the browser's locale, [toUpperCase] the Unicode upper-casing
    (it leaves the code units below 256: sharp s, micro sign, y with
    diaeresis), and [Date_time s] the time value, in milliseconds, of
    [new Date(s)] for the ISO-8601 timestamps the backend serialises. *)
Class Host := {
  BACKEND_URL : string;
  localeCompare : string -> string -> Z;
  toUpperCase : string -> string;
  Date_time : string -> Z
}.

(** ECMAScript requires a collation to be a consistent comparator: the
    relation "not after" is total and transitive. *)
Class ConsistentCollation `{Host} : Prop := {
  localeCompare_flip : forall a b, Z.sgn (localeCompare b a) = - Z.sgn (localeCompare a b);
  localeCompare_trans : forall a b c,
      localeCompare a b <= 0 -> localeCompare b c <= 0 -> localeCompare a c <= 0
}.

Definition API `{Host} : string := BACKEND_URL ++ "/api".

(** The double-quote character and the line feed, for messages and markup
    that contain them. *)
Definition dq : string := String (ascii_of_nat 34) EmptyString.
Definition nl : string := String (ascii_of_nat 10) EmptyString.

(* ===================================================================== *)
(** ** Effects of a handler *)
(* ===================================================================== *)

Inductive body :=
| NoBody
| FormData (field : string) (file : File.t)
| TaskBody (r : TaskRequest.t)
| ChatBody (r : ChatRequest.t).

Inductive event :=
| Request (method url : string) (data : body)
| ToastError (msg : string)
| ToastSuccess (msg : string)
| ConsoleError (label : string)
| WindowConfirm (msg : string)
| WindowOpen (url target : string)
| DocumentWrite (html : string)
| SaveAs (filename : string)
| Focus.

(** The settled promise of a request. *)
Inductive reply (A : Type) :=
| Fulfilled (data : A)
| Rejected (error : Exn.t).
Arguments Fulfilled {A} data.
Arguments Rejected {A} error.

Inductive completion (A : Type) :=
| Normal (a : A)
| Throw (error : Exn.t).
Arguments Normal {A} a.
Arguments Throw {A} error.

(** A computation over the component state [S]: completion, final state
    and the trace of effects, oldest first. *)
Definition Eff (S A : Type) : Type := S -> completion A * S * list event.

Module Eff.
Local Open Scope list_scope.

Section Ops.
Context {S : Type}.

Definition ret {A} (a : A) : Eff S A := fun s => (Normal a, s, []).

Definition bind {A B} (m : Eff S A) (k : A -> Eff S B) : Eff S B :=
  fun s =>
    match m s with
    | (Normal a, s1, t1) =>
        match k a s1 with
        | (c, s2, t2) => (c, s2, t1 ++ t2)
        end
    | (Throw e, s1, t1) => (Throw e, s1, t1)
    end.

(** The state as the handler's closure sees it. *)
Definition get : Eff S S := fun s => (Normal s, s, []).

(** A state setter, also in its functional form [set(prev => ...)]. *)
Definition modify (f : S -> S) : Eff S unit := fun s => (Normal tt, f s, []).

Definition emit (e : event) : Eff S unit := fun s => (Normal tt, s, [e]).

Definition throw {A} (e : Exn.t) : Eff S A := fun s => (Throw e, s, []).

(** [try { m } catch (error) { h error }] *)
Definition try_catch {A} (m : Eff S A) (h : Exn.t -> Eff S A) : Eff S A :=
  fun s =>
    match m s with
    | (Normal a, s1, t1) => (Normal a, s1, t1)
    | (Throw e, s1, t1) =>
        match h e s1 with
        | (c, s2, t2) => (c, s2, t1 ++ t2)
        end
    end.

(** [try { m } finally { f }]: [f] runs on both completions and the
    completion of [m] stands unless [f] throws. *)
Definition finally {A} (m : Eff S A) (f : Eff S unit) : Eff S A :=
  fun s =>
    match m s with
    | (c, s1, t1) =>
        match f s1 with
        | (Normal _, s2, t2) => (c, s2, t1 ++ t2)
        | (Throw e, s2, t2) => (Throw e, s2, t1 ++ t2)
        end
    end.

(** [await axios.<method>(url, data)] settled by [r]. *)
Definition axios {A} (method url : string) (data : body) (r : reply A) : Eff S A :=
  bind (emit (Request method url data))
       (fun _ => match r with
                 | Fulfilled a => ret a
                 | Rejected e => throw e
                 end).

Definition final_state {A} (r : completion A * S * list event) : S := snd (fst r).
Definition trace {A} (r : completion A * S * list event) : list event := snd r.
Definition outcome {A} (r : completion A * S * list event) : completion A := fst (fst r).
End Ops.
End Eff.

#[global] Instance Eff_ret {S} : MRet (Eff S) := @Eff.ret S.
#[global] Instance Eff_bind {S} : MBind (Eff S) := fun A B k m => Eff.bind m k.

(* ===================================================================== *)
(** ** App: the theme switch *)
(* ===================================================================== *)

Module App.

(** The component state [darkMode] together with the two browser stores
    the handlers touch: local storage and the class list of the root
    element. *)
Record state := make {
  darkMode : bool;
  localStorage : gmap string string;
  classList : gset string
}.

Definition setDarkMode (b : bool) : Eff state unit :=
  Eff.modify (fun s => make b (localStorage s) (classList s)).
Definition localStorage_setItem (k v : string) : Eff state unit :=
  Eff.modify (fun s => make (darkMode s) (<[k := v]> (localStorage s)) (classList s)).
Definition classList_add (c : string) : Eff state unit :=
  Eff.modify (fun s => make (darkMode s) (localStorage s) ({[c]} ∪ classList s)).
Definition classList_remove (c : string) : Eff state unit :=
  Eff.modify (fun s => make (darkMode s) (localStorage s) (classList s ∖ {[c]})).

(** [localStorage.getItem(k)]: [None] is [null]. *)
Definition localStorage_getItem (k : string) : Eff state (option string) :=
  s ← Eff.get; mret (localStorage s !! k).

(** [!savedTheme]: [null] and the empty string are falsy. *)
Definition falsy (v : option string) : bool :=
  match v with
  | None => true
  | Some s => negb (JS.truthy s)
  end.

(** [savedTheme === 'dark'] *)
Definition is_dark (v : option string) : bool :=
  match v with
  | Some s => String.eqb s "dark"
  | None => false
  end.

(** A freshly loaded page: [useState(false)], no class on the root
    element, and the local storage the browser kept. *)
Definition initial (storage : gmap string string) : state := make false storage ∅.

(** The mount effect; [prefers_dark] is
    [window.matchMedia('(prefers-color-scheme: dark)').matches]. *)
Definition mount (prefers_dark : bool) : Eff state unit :=
  savedTheme ← localStorage_getItem "pdflux-theme";
  if is_dark savedTheme || (falsy savedTheme && prefers_dark) then
    setDarkMode true;;
    classList_add "dark"
  else mret tt.

Definition toggleDarkMode : Eff state unit :=
  s ← Eff.get;
  setDarkMode (negb (darkMode s));;
  if negb (darkMode s) then
    classList_add "dark";;
    localStorage_setItem "pdflux-theme" "dark"
  else
    classList_remove "dark";;
    localStorage_setItem "pdflux-theme" "light".

(** Loading the page over [storage] and running the mount effect. *)
Definition load (storage : gmap string string) (prefers_dark : bool) : state :=
  Eff.final_state (mount prefers_dark (initial storage)).

(** The mode the page is in after a reload that keeps the local storage. *)
Definition reload (s : state) (prefers_dark : bool) : state :=
  load (localStorage s) prefers_dark.

(** The states of the running page: a load, then any number of toggles. *)
Inductive reachable : state -> Prop :=
| reachable_load storage prefers_dark :
    reachable (load storage prefers_dark)
| reachable_toggle s :
    reachable s -> reachable (Eff.final_state (toggleDarkMode s)).

End App.

(* ===================================================================== *)
(** ** Formatting shared by the three views *)
(* ===================================================================== *)

(** [formatBytes] is defined, with the same body, in [Dashboard],
    [DocumentManager] and [AIChat]. *)
Definition sizes : list string := ["Bytes"; "KB"; "MB"; "GB"].

Definition formatBytes (bytes : Z) : string :=
  if bytes =? 0 then "0 Bytes"
  else
    let k := 1024 in
    let i := JS.floor_log1024 bytes in
    match i with
    | Some n =>
        JS.shortest2 (JS.nearest_hundredth (inject_Z bytes / inject_Z (k ^ n)))
        ++ " " ++ JS.element sizes i
    | None =>
        (* NaN propagates through Math.pow, the division, toFixed and
           parseFloat *)
        "NaN" ++ " " ++ JS.element sizes i
    end.

(* ===================================================================== *)
(** ** DocumentManager *)
(* ===================================================================== *)

Module DocumentManager.

Record state := make {
  documents : list Doc.t;
  loading : bool;
  uploading : bool;
  searchTerm : string;
  selectedDocument : option Doc.t;
  viewMode : string;
  sortBy : string;
  aiProviders : list Provider.t;
  aiTaskDialogOpen : bool;
  aiTaskType : string;
  aiTaskInstructions : string;
  aiTaskProvider : string;
  aiTaskModel : string;
  aiTaskLoading : bool
}.

(** The [useState] defaults. *)
Definition initial : state :=
  make [] true false "" None "grid" "upload_date" [] false "summarize" ""
       "openai" "gpt-4o-mini" false.

Definition setDocuments (v : list Doc.t) : Eff state unit :=
  Eff.modify (fun s =>
    make v (loading s) (uploading s) (searchTerm s) (selectedDocument s)
         (viewMode s) (sortBy s) (aiProviders s) (aiTaskDialogOpen s)
         (aiTaskType s) (aiTaskInstructions s) (aiTaskProvider s)
         (aiTaskModel s) (aiTaskLoading s)).
Definition setLoading (v : bool) : Eff state unit :=
  Eff.modify (fun s =>
    make (documents s) v (uploading s) (searchTerm s) (selectedDocument s)
         (viewMode s) (sortBy s) (aiProviders s) (aiTaskDialogOpen s)
         (aiTaskType s) (aiTaskInstructions s) (aiTaskProvider s)
         (aiTaskModel s) (aiTaskLoading s)).
Definition setUploading (v : bool) : Eff state unit :=
  Eff.modify (fun s =>
    make (documents s) (loading s) v (searchTerm s) (selectedDocument s)
         (viewMode s) (sortBy s) (aiProviders s) (aiTaskDialogOpen s)
         (aiTaskType s) (aiTaskInstructions s) (aiTaskProvider s)
         (aiTaskModel s) (aiTaskLoading s)).
Definition setAiProviders (v : list Provider.t) : Eff state unit :=
  Eff.modify (fun s =>
    make (documents s) (loading s) (uploading s) (searchTerm s)
         (selectedDocument s) (viewMode s) (sortBy s) v (aiTaskDialogOpen s)
         (aiTaskType s) (aiTaskInstructions s) (aiTaskProvider s)
         (aiTaskModel s) (aiTaskLoading s)).
Definition setAiTaskDialogOpen (v : bool) : Eff state unit :=
  Eff.modify (fun s =>
    make (documents s) (loading s) (uploading s) (searchTerm s)
         (selectedDocument s) (viewMode s) (sortBy s) (aiProviders s) v
         (aiTaskType s) (aiTaskInstructions s) (aiTaskProvider s)
         (aiTaskModel s) (aiTaskLoading s)).
Definition setAiTaskInstructions (v : string) : Eff state unit :=
  Eff.modify (fun s =>
    make (documents s) (loading s) (uploading s) (searchTerm s)
         (selectedDocument s) (viewMode s) (sortBy s) (aiProviders s)
         (aiTaskDialogOpen s) (aiTaskType s) v (aiTaskProvider s)
         (aiTaskModel s) (aiTaskLoading s)).
Definition setAiTaskLoading (v : bool) : Eff state unit :=
  Eff.modify (fun s =>
    make (documents s) (loading s) (uploading s) (searchTerm s)
         (selectedDocument s) (viewMode s) (sortBy s) (aiProviders s)
         (aiTaskDialogOpen s) (aiTaskType s) (aiTaskInstructions s)
         (aiTaskProvider s) (aiTaskModel s) v).

(** The caption of the upload zone. *)
Definition uploadCaption : string := "Supported format: PDF (Max size: 50MB)".

(** The options of the two [Select] controls, in the order of the
    markup. *)
Definition sortBy_options : list string := ["upload_date"; "filename"; "size"].


Section WithHost.
Context `{Host}.

Definition fetchDocuments (r : reply (list Doc.t)) : Eff state unit :=
  Eff.finally
    (Eff.try_catch
       (response ← Eff.axios "GET" (API ++ "/documents") NoBody r;
        setDocuments response)
       (fun error =>
          Eff.emit (ConsoleError "Failed to fetch documents:");;
          Eff.emit (ToastError "Failed to load documents")))
    (setLoading false).

Definition fetchAiProviders (r : reply (list Provider.t)) : Eff state unit :=
  Eff.try_catch
    (response ← Eff.axios "GET" (API ++ "/ai/providers") NoBody r;
     setAiProviders response)
    (fun error => Eff.emit (ConsoleError "Failed to fetch AI providers:")).

(** The mount effect starts both fetches. *)
Definition mount (docs : reply (list Doc.t)) (provs : reply (list Provider.t))
  : Eff state unit :=
  fetchDocuments docs;;
  fetchAiProviders provs.

(** [onDrop(acceptedFiles)]; [uploaded] settles the upload and [listed]
    the document fetch started after a successful upload. *)
Definition onDrop (acceptedFiles : list File.t)
    (uploaded : reply unit) (listed : reply (list Doc.t)) : Eff state unit :=
  match head acceptedFiles with
  | None => mret tt
  | Some file =>
      if negb (String.eqb (File.type file) "application/pdf") then
        Eff.emit (ToastError "Only PDF files are supported")
      else
        setUploading true;;
        Eff.finally
          (Eff.try_catch
             (response ← Eff.axios "POST" (API ++ "/documents/upload")
                           (FormData "file" file) uploaded;
              Eff.emit (ToastSuccess ("Successfully uploaded " ++ File.name file));;
              fetchDocuments listed)
             (fun error =>
                Eff.emit (ConsoleError "Upload error:");;
                Eff.emit (ToastError ("Upload failed: " ++ Exn.text error))))
          (setUploading false)
  end.

Definition downloadDocument (docId filename : string) (r : reply string)
  : Eff state unit :=
  Eff.try_catch
    (response ← Eff.axios "GET" (API ++ "/documents/" ++ docId ++ "/download") NoBody r;
     Eff.emit (SaveAs filename);;
     Eff.emit (ToastSuccess "Download started"))
    (fun error =>
       Eff.emit (ConsoleError "Download error:");;
       Eff.emit (ToastError "Download failed")).

(** [confirmed] is the answer to [window.confirm]. *)
Definition deleteDocument (docId filename : string) (confirmed : bool)
    (r : reply unit) (listed : reply (list Doc.t)) : Eff state unit :=
  Eff.emit (WindowConfirm
              ("Are you sure you want to delete " ++ dq ++ filename ++ dq ++ "?"));;
  if negb confirmed then mret tt
  else
    Eff.try_catch
      (Eff.axios "DELETE" (API ++ "/documents/" ++ docId) NoBody r;;
       Eff.emit (ToastSuccess "Document deleted successfully");;
       fetchDocuments listed)
      (fun error =>
         Eff.emit (ConsoleError "Delete error:");;
         Eff.emit (ToastError "Failed to delete document")).

(** The page written into the result tab. *)
Definition resultPage (taskType : string) (doc : Doc.t) (data : TaskResponse.t)
  : string :=
  String.concat nl
    [ "";
      "        <html>";
      "          <head><title>AI Task Result</title></head>";
      "          <body style=" ++ dq ++ "font-family: Arial, sans-serif; margin: 20px;" ++ dq ++ ">";
      "            <h2>" ++ toUpperCase (JS.charAt0 taskType) ++ JS.slice1 taskType ++ " Result</h2>";
      "            <h3>Document: " ++ Doc.filename doc ++ "</h3>";
      "            <div style=" ++ dq ++ "white-space: pre-wrap; background: #f5f5f5; padding: 20px; border-radius: 8px;" ++ dq ++ ">";
      "              " ++ TaskResponse.result data;
      "            </div>";
      "            <p><small>Processing time: "
        ++ JS.toFixed2 (TaskResponse.processing_time data) ++ "s</small></p>";
      "          </body>";
      "        </html>";
      "      " ].

(** [window.open('', '_blank')]: the browser returns the new tab, or
    [null] when it blocks the pop-up, and then
    [resultWindow.document] throws a [TypeError]. *)
Definition window_open_write (opened : bool) (html : string) : Eff state unit :=
  Eff.emit (WindowOpen "" "_blank");;
  if opened then Eff.emit (DocumentWrite html)
  else Eff.throw (Exn.make None "Cannot read properties of null (reading 'document')").

Definition performAiTask (r : reply TaskResponse.t) (opened : bool)
  : Eff state unit :=
  s ← Eff.get;
  match selectedDocument s with
  | None => mret tt
  | Some doc =>
      setAiTaskLoading true;;
      Eff.finally
        (Eff.try_catch
           (response ← Eff.axios "POST" (API ++ "/ai/tasks")
               (TaskBody
                  (TaskRequest.make
                     (Doc.id doc)
                     (aiTaskType s)
                     (if JS.truthy (aiTaskInstructions s)
                      then Some (aiTaskInstructions s) else None)
                     (aiTaskProvider s)
                     (aiTaskModel s))) r;
            Eff.emit (ToastSuccess (aiTaskType s ++ " completed successfully!"));;
            window_open_write opened (resultPage (aiTaskType s) doc response);;
            setAiTaskDialogOpen false;;
            setAiTaskInstructions "")
           (fun error =>
              Eff.emit (ConsoleError "AI task error:");;
              Eff.emit (ToastError ("AI task failed: " ++ Exn.text error))))
        (setAiTaskLoading false)
  end.

(** The predicate of [documents.filter(...)]. *)
Definition matches (searchTerm : string) (doc : Doc.t) : bool :=
  JS.ToBoolean
    (JS.lor
       (JS.includes (JS.toLowerCase (Doc.filename doc)) (JS.toLowerCase searchTerm))
       (option_map
          (fun d => JS.includes (JS.toLowerCase d) (JS.toLowerCase searchTerm))
          (Doc.description doc))).

(** The comparator of [.sort(...)]; [switch] compares with [===]. *)
Definition compareDocuments (sortBy : string) (a b : Doc.t) : Z :=
  if String.eqb sortBy "filename" then
    localeCompare (Doc.filename a) (Doc.filename b)
  else if String.eqb sortBy "size" then
    Doc.size b - Doc.size a
  else
    Date_time (Doc.upload_date b) - Date_time (Doc.upload_date a).

(** [filteredDocuments] is computed at every render from the three
    state variables it reads. *)
Definition filteredDocuments (documents : list Doc.t) (searchTerm sortBy : string)
  : list Doc.t :=
  JS.sort (compareDocuments sortBy)
          (List.filter (matches searchTerm) documents).

(** The cards of the list shown for a state. *)
Definition shown (s : state) : list Doc.t :=
  filteredDocuments (documents s) (searchTerm s) (sortBy s).

Definition setSelectedDocument (v : option Doc.t) : Eff state unit :=
  Eff.modify (fun s =>
    make (documents s) (loading s) (uploading s) (searchTerm s) v
         (viewMode s) (sortBy s) (aiProviders s) (aiTaskDialogOpen s)
         (aiTaskType s) (aiTaskInstructions s) (aiTaskProvider s)
         (aiTaskModel s) (aiTaskLoading s)).

(** [onAiTask] of the card of [doc]: select the document and open the
    dialog. *)
Definition onAiTask (doc : Doc.t) : Eff state unit :=
  setSelectedDocument (Some doc);;
  setAiTaskDialogOpen true.

(** The items of the model selector of the dialog:
    [aiProviders.find(p => p.name === aiTaskProvider)?.available_models
     .map(...) || []]. *)
Definition modelOptions (s : state) : list string :=
  match find (fun p => String.eqb (Provider.name p) (aiTaskProvider s)) (aiProviders s) with
  | Some p => Provider.available_models p
  | None => []
  end.

(** What the component returns.  While [loading] is set it returns the
    skeleton and nothing else.  Otherwise it returns the page: the search
    and sort controls are rendered when there is a document, and in the
    place of the document list stands the empty state, with its title, its
    hint and whether it offers the upload button, or the cards. *)
Definition searchBarShown (s : state) : bool :=
  if loading s then false else (0 <? length (documents s))%nat.

Inductive display :=
| Skeleton
| EmptyState (title hint : string) (uploadButton : bool)
| Cards (docs : list Doc.t).

Definition documentsDisplay (s : state) : display :=
  if loading s then Skeleton
  else if (length (shown s) =? 0)%nat then
    EmptyState
      (if (length (documents s) =? 0)%nat
       then "No documents yet" else "No documents match your search")
      (if (length (documents s) =? 0)%nat
       then "Upload your first PDF document to get started"
       else "Try adjusting your search terms or filters")
      (length (documents s) =? 0)%nat
  else Cards (shown s).

(** The handlers of the document manager, each with what the outside
    world answers to it. *)
Inductive action :=
| Refresh (r : reply (list Doc.t))
| FetchProviders (r : reply (list Provider.t))
| Drop (acceptedFiles : list File.t) (uploaded : reply unit) (listed : reply (list Doc.t))
| Download (docId filename : string) (r : reply string)
| Delete (docId filename : string) (confirmed : bool)
    (r : reply unit) (listed : reply (list Doc.t))
| OpenTask (doc : Doc.t)
| RunTask (r : reply TaskResponse.t) (opened : bool).

Definition perform (a : action) : Eff state unit :=
  match a with
  | Refresh r => fetchDocuments r
  | FetchProviders r => fetchAiProviders r
  | Drop acceptedFiles uploaded listed => onDrop acceptedFiles uploaded listed
  | Download docId filename r => downloadDocument docId filename r
  | Delete docId filename confirmed r listed =>
      deleteDocument docId filename confirmed r listed
  | OpenTask doc => onAiTask doc
  | RunTask r opened => performAiTask r opened
  end.

End WithHost.
End DocumentManager.

(* ===================================================================== *)
(** ** Dashboard *)
(* ===================================================================== *)

Module Dashboard.

Record stats_t := Stats {
  totalDocuments : Z;
  totalChats : Z;
  aiTasks : Z;
  storageUsed : Z
}.

Record state := make {
  stats : stats_t;
  recentDocuments : list Doc.t;
  loading : bool
}.

Definition initial : state := make (Stats 0 0 0 0) [] true.

Definition setStats (v : stats_t) : Eff state unit :=
  Eff.modify (fun s => make v (recentDocuments s) (loading s)).
Definition setRecentDocuments (v : list Doc.t) : Eff state unit :=
  Eff.modify (fun s => make (stats s) v (loading s)).
Definition setLoading (v : bool) : Eff state unit :=
  Eff.modify (fun s => make (stats s) (recentDocuments s) v).

Section WithHost.
Context `{Host}.

(** [random1] and [random2] are the values of the two calls of
    [Math.random()], in the order of evaluation. *)
Definition fetchDashboardData (r : reply (list Doc.t)) (random1 random2 : Q)
  : Eff state unit :=
  Eff.finally
    (Eff.try_catch
       (documents ← Eff.axios "GET" (API ++ "/documents") NoBody r;
        setStats
          (Stats
             (Z.of_nat (length documents))
             (Qfloor (random1 * 50))
             (Qfloor (random2 * 100))
             (JS.reduce (fun total doc => total + Doc.size doc) 0 documents));;
        setRecentDocuments (JS.slice0 5 documents))
       (fun error =>
          Eff.emit (ConsoleError "Failed to fetch dashboard data:");;
          Eff.emit (ToastError "Failed to load dashboard data")))
    (setLoading false).

(** [useEffect(() => { fetchDashboardData(); }, [])] *)
Definition mount (r : reply (list Doc.t)) (random1 random2 : Q) : Eff state unit :=
  fetchDashboardData r random1 random2.

(** The four cards, as title and displayed value; numbers are shown
    through [toLocaleString], whose digits grouping is the locale's, so
    the value is kept as a number. *)
Inductive card_value :=
| Count (n : Z)
| Text (s : string).

Definition cards (s : state) : list (string * card_value) :=
  [ ("Total Documents", Count (totalDocuments (stats s)));
    ("AI Conversations", Count (totalChats (stats s)));
    ("AI Tasks Completed", Count (aiTasks (stats s)));
    ("Storage Used", Text (formatBytes (storageUsed (stats s)))) ].

(** The rows of the "Recent Documents" card; the card is rendered when
    there is at least one. *)
Definition recentRows (s : state) : list Doc.t := recentDocuments s.

End WithHost.
End Dashboard.

(* ===================================================================== *)
(** ** AIChat *)
(* ===================================================================== *)

Module AIChat.

Record state := make {
  messages : list Msg.t;
  inputMessage : string;
  isLoading : bool;
  selectedDocument : option Doc.t;
  documents : list Doc.t;
  aiProviders : list Provider.t;
  currentProvider : string;
  currentModel : string;
  temperature : Q;
  settingsOpen : bool;
  documentSelectorOpen : bool
}.

Definition initial : state :=
  make [] "" false None [] [] "openai" "gpt-4o-mini" (7 # 10) false false.

Definition setMessages (f : list Msg.t -> list Msg.t) : Eff state unit :=
  Eff.modify (fun s =>
    make (f (messages s)) (inputMessage s) (isLoading s) (selectedDocument s)
         (documents s) (aiProviders s) (currentProvider s) (currentModel s)
         (temperature s) (settingsOpen s) (documentSelectorOpen s)).
Definition setInputMessage (v : string) : Eff state unit :=
  Eff.modify (fun s =>
    make (messages s) v (isLoading s) (selectedDocument s)
         (documents s) (aiProviders s) (currentProvider s) (currentModel s)
         (temperature s) (settingsOpen s) (documentSelectorOpen s)).
Definition setIsLoading (v : bool) : Eff state unit :=
  Eff.modify (fun s =>
    make (messages s) (inputMessage s) v (selectedDocument s)
         (documents s) (aiProviders s) (currentProvider s) (currentModel s)
         (temperature s) (settingsOpen s) (documentSelectorOpen s)).
Definition setSelectedDocument (v : option Doc.t) : Eff state unit :=
  Eff.modify (fun s =>
    make (messages s) (inputMessage s) (isLoading s) v
         (documents s) (aiProviders s) (currentProvider s) (currentModel s)
         (temperature s) (settingsOpen s) (documentSelectorOpen s)).
Definition setDocuments (v : list Doc.t) : Eff state unit :=
  Eff.modify (fun s =>
    make (messages s) (inputMessage s) (isLoading s) (selectedDocument s)
         v (aiProviders s) (currentProvider s) (currentModel s)
         (temperature s) (settingsOpen s) (documentSelectorOpen s)).
Definition setAiProviders (v : list Provider.t) : Eff state unit :=
  Eff.modify (fun s =>
    make (messages s) (inputMessage s) (isLoading s) (selectedDocument s)
         (documents s) v (currentProvider s) (currentModel s)
         (temperature s) (settingsOpen s) (documentSelectorOpen s)).
Definition setCurrentProvider (v : string) : Eff state unit :=
  Eff.modify (fun s =>
    make (messages s) (inputMessage s) (isLoading s) (selectedDocument s)
         (documents s) (aiProviders s) v (currentModel s)
         (temperature s) (settingsOpen s) (documentSelectorOpen s)).
Definition setCurrentModel (v : string) : Eff state unit :=
  Eff.modify (fun s =>
    make (messages s) (inputMessage s) (isLoading s) (selectedDocument s)
         (documents s) (aiProviders s) (currentProvider s) v
         (temperature s) (settingsOpen s) (documentSelectorOpen s)).
Definition setTemperature (v : Q) : Eff state unit :=
  Eff.modify (fun s =>
    make (messages s) (inputMessage s) (isLoading s) (selectedDocument s)
         (documents s) (aiProviders s) (currentProvider s) (currentModel s)
         v (settingsOpen s) (documentSelectorOpen s)).
Definition setSettingsOpen (v : bool) : Eff state unit :=
  Eff.modify (fun s =>
    make (messages s) (inputMessage s) (isLoading s) (selectedDocument s)
         (documents s) (aiProviders s) (currentProvider s) (currentModel s)
         (temperature s) v (documentSelectorOpen s)).

(** The text of the welcome message, line by line. *)
Definition welcomeContent : string :=
  String.concat nl
    [ "Welcome to PDFLux AI Chat! 🤖";
      "";
      "I'm your AI assistant specialized in PDF document analysis and management. Here's what I can help you with:";
      "";
      "📄 **Document Analysis**";
      "• Summarize documents";
      "• Extract key information";
      "• Answer questions about content";
      "• Compare documents";
      "";
      "🔧 **PDF Operations**";
      "• Suggest optimizations";
      "• Recommend compression strategies";
      "• Security and permissions advice";
      "";
      "💡 **Smart Assistance**";
      "• Explain complex content";
      "• Translate text";
      "• Rewrite for clarity";
      "";
      "Select a document from the sidebar to chat about it, or ask me general questions about PDF management!" ].

(** [now] stands for [new Date().toISOString()] at the time of the call. *)
Definition welcomeMessage (now : string) : Msg.t :=
  Msg.make "assistant" welcomeContent now None None false.

Definition initializeChat (now : string) : Eff state unit :=
  setMessages (fun _ => [welcomeMessage now]).

Section WithHost.
Context `{Host}.

Definition fetchDocuments (r : reply (list Doc.t)) : Eff state unit :=
  Eff.try_catch
    (response ← Eff.axios "GET" (API ++ "/documents") NoBody r;
     setDocuments response)
    (fun error =>
       Eff.emit (ConsoleError "Failed to fetch documents:");;
       Eff.emit (ToastError "Failed to load documents")).

Definition fetchAiProviders (r : reply (list Provider.t)) : Eff state unit :=
  Eff.try_catch
    (response ← Eff.axios "GET" (API ++ "/ai/providers") NoBody r;
     setAiProviders response)
    (fun error => Eff.emit (ConsoleError "Failed to fetch AI providers:")).

(** The mount effect. *)
Definition mount (docs : reply (list Doc.t)) (provs : reply (list Provider.t))
    (now : string) : Eff state unit :=
  fetchDocuments docs;;
  fetchAiProviders provs;;
  initializeChat now.

(** The objects [sendMessage] builds, as functions of what they close
    over.  [now] and [later] stand for [new Date().toISOString()] when the
    handler starts and in the [catch] block. *)
Definition userMessage (inputMessage now : string) : Msg.t :=
  Msg.make "user" (JS.trim inputMessage) now None None false.

Definition chatRequest (s : state) (newMessages : list Msg.t) : ChatRequest.t :=
  let chatRequest :=
    ChatRequest.make (map Turn.of_msg newMessages)
      (currentProvider s) (currentModel s) (temperature s) None in
  match selectedDocument s with
  | Some doc => ChatRequest.set_document_id chatRequest (Doc.id doc)
  | None => chatRequest
  end.

Definition assistantMessage (data : ChatResponse.t) : Msg.t :=
  Msg.make "assistant"
    (ChatResponse.message_content data)
    (ChatResponse.message_timestamp data)
    (Some (ChatResponse.model_used data))
    (Some (ChatResponse.processing_time data))
    false.

Definition errorMessage (error : Exn.t) (later : string) : Msg.t :=
  Msg.make "assistant"
    ("Sorry, I encountered an error: " ++ Exn.text error
     ++ ". Please try again or check your settings.")
    later None None true.

(** [sendMessage]; [r] settles the request. *)
Definition sendMessage (now : string) (r : reply ChatResponse.t) (later : string)
  : Eff state unit :=
  s ← Eff.get;
  if negb (JS.truthy (JS.trim (inputMessage s))) || isLoading s then mret tt
  else
    let newMessages := (messages s ++ [userMessage (inputMessage s) now])%list in
    setMessages (fun _ => newMessages);;
    setInputMessage "";;
    setIsLoading true;;
    Eff.finally
      (Eff.try_catch
         (response ← Eff.axios "POST" (API ++ "/ai/chat")
                       (ChatBody (chatRequest s newMessages)) r;
          setMessages (fun prev => (prev ++ [assistantMessage response])%list))
         (fun error =>
            Eff.emit (ConsoleError "Chat error:");;
            setMessages (fun prev => (prev ++ [errorMessage error later])%list);;
            Eff.emit (ToastError "Chat request failed")))
      (setIsLoading false;;
       Eff.emit Focus).

(** The two turns of [sendMessage] in the event loop: what runs when the
    handler is called, up to the [await], and what runs once the request has
    settled.  Other handlers may run in between.  [sendMessage_begin]
    answers whether a request was issued. *)
Definition sendMessage_begin (now : string) : Eff state bool :=
  s ← Eff.get;
  if negb (JS.truthy (JS.trim (inputMessage s))) || isLoading s then mret false
  else
    let newMessages := (messages s ++ [userMessage (inputMessage s) now])%list in
    setMessages (fun _ => newMessages);;
    setInputMessage "";;
    setIsLoading true;;
    Eff.emit (Request "POST" (API ++ "/ai/chat") (ChatBody (chatRequest s newMessages)));;
    mret true.

Definition sendMessage_settle (r : reply ChatResponse.t) (later : string)
  : Eff state unit :=
  Eff.finally
    (Eff.try_catch
       (response ← match r with
                   | Fulfilled data => mret data
                   | Rejected error => Eff.throw error
                   end;
        setMessages (fun prev => (prev ++ [assistantMessage response])%list))
       (fun error =>
          Eff.emit (ConsoleError "Chat error:");;
          setMessages (fun prev => (prev ++ [errorMessage error later])%list);;
          Eff.emit (ToastError "Chat request failed")))
    (setIsLoading false;;
     Eff.emit Focus).

(** [confirmed] is the answer to [window.confirm]; it is asked only
    when the transcript has more than one message. *)
Definition clearChat (confirmed : bool) (now : string) : Eff state unit :=
  s ← Eff.get;
  if (length (messages s) <=? 1)%nat then mret tt
  else
    Eff.emit (WindowConfirm "Are you sure you want to clear the chat history?");;
    if confirmed then
      initializeChat now;;
      setSelectedDocument None;;
      Eff.emit (ToastSuccess "Chat cleared")
    else mret tt.

(** What happens to a mounted chat, one turn of the event loop at a time;
    every constructor is one handler or one control.  [Send] is a whole
    [sendMessage] with nothing in between its two turns, [Begin] and
    [Settle] are the two turns on their own. *)
Inductive action :=
| Send (now : string) (r : reply ChatResponse.t) (later : string)
| Begin (now : string)
| Settle (r : reply ChatResponse.t) (later : string)
| Clear (confirmed : bool) (now : string)
| Type_ (text : string)
| SelectDocument (d : option Doc.t)
| SelectProvider (p : string)
| SelectModel (m : string)
| SetTemperature (t : Q)
| OpenSettings (b : bool)
| RefreshDocuments (r : reply (list Doc.t)).

Definition perform (a : action) : Eff state unit :=
  match a with
  | Send now r later => sendMessage now r later
  | Begin now => sendMessage_begin now;; mret tt
  | Settle r later => sendMessage_settle r later
  | Clear confirmed now => clearChat confirmed now
  | Type_ text => setInputMessage text
  | SelectDocument d => setSelectedDocument d
  | SelectProvider p => setCurrentProvider p
  | SelectModel m => setCurrentModel m
  | SetTemperature t => setTemperature t
  | OpenSettings b => setSettingsOpen b
  | RefreshDocuments r => fetchDocuments r
  end.

Definition step (s : state) (a : action) : state := Eff.final_state (perform a s).

(** The states of a mounted chat: the mount effect, then any actions. *)
Inductive reachable : state -> Prop :=
| reachable_mount docs provs now :
    reachable (Eff.final_state (mount docs provs now initial))
| reachable_step s a :
    reachable s -> reachable (step s a).

(** The actions that are whole handlers: every request they start is
    settled before the next action. *)
Definition whole (a : action) : bool :=
  match a with
  | Begin _ | Settle _ _ => false
  | _ => true
  end.

(** The second turn of [sendMessage], and a confirmed [clearChat]. *)
Definition settles (a : action) : bool :=
  match a with
  | Settle _ _ => true
  | _ => false
  end.

Definition clears (a : action) : bool :=
  match a with
  | Clear true _ => true
  | _ => false
  end.

(** The states of a chat in which no request is pending between two
    actions. *)
Inductive settled : state -> Prop :=
| settled_mount docs provs now :
    settled (Eff.final_state (mount docs provs now initial))
| settled_step s a :
    settled s -> whole a = true -> settled (step s a).

(** [getAvailableModels]: the models of the first provider named
    [currentProvider]; an array is truthy, so [|| []] applies only when no
    provider is found. *)
Definition getAvailableModels (s : state) : list string :=
  match find (fun p => String.eqb (Provider.name p) (currentProvider s)) (aiProviders s) with
  | Some provider => Provider.available_models provider
  | None => []
  end.

(** [handleKeyPress]; the result tells whether [e.preventDefault()] was
    called. *)
Definition handleKeyPress (e : KeyboardEvent.t)
    (now : string) (r : reply ChatResponse.t) (later : string) : Eff state bool :=
  if String.eqb (KeyboardEvent.key e) "Enter" && negb (KeyboardEvent.shiftKey e) then
    sendMessage now r later;;
    mret true
  else mret false.

(** The send button is rendered when [inputMessage.trim()] is truthy and
    is disabled while loading; the clear button is disabled when
    [messages.length <= 1]. *)
Definition sendButtonShown (s : state) : bool := JS.truthy (JS.trim (inputMessage s)).
Definition sendButtonDisabled (s : state) : bool := isLoading s.
Definition clearButtonDisabled (s : state) : bool := (length (messages s) <=? 1)%nat.

End WithHost.

(** [MessageBubble]: the avatar and colours follow [isUser], then
    [isError]. *)
Inductive bubble := UserBubble | ErrorBubble | BotBubble.

Definition MessageBubble (message : Msg.t) : bubble :=
  let isUser := String.eqb (Msg.role message) "user" in
  let isError := Msg.isError message in
  if isUser then UserBubble else if isError then ErrorBubble else BotBubble.

(** The two optional items under a bubble.
    [message.model_used && <Badge>...] shows the badge for a non-empty
    model name.  [message.processing_time && <span>...toFixed(2)s</span>]
    shows the span for a number other than zero; for zero the expression
    is the number 0 itself, which is rendered as the text 0. *)
Definition modelBadge (message : Msg.t) : option string :=
  match Msg.model_used message with
  | Some m => if JS.truthy m then Some m else None
  | None => None
  end.

Definition processingLabel (message : Msg.t) : option string :=
  match Msg.processing_time message with
  | Some t => if Qeq_bool t 0 then Some "0" else Some (JS.toFixed2 t ++ "s")
  | None => None
  end.

End AIChat.

(* ===================================================================== *)
(** ** A concrete host, for running the handlers on examples *)
(* ===================================================================== *)

Module Demo.

(** Collation by code units. *)
Definition codeUnitCompare (a b : string) : Z :=
  match String.compare a b with
  | Lt => -1
  | Eq => 0
  | Gt => 1
  end.

Definition upper_char (c : ascii) : ascii :=
  let n := JS.code c in
  if ((97 <=? n) && (n <=? 122))%N then ascii_of_N (n - 32) else c.

Fixpoint asciiUpper (s : string) : string :=
  match s with
  | EmptyString => EmptyString
  | String c s' => String (upper_char c) (asciiUpper s')
  end.

(** The digits of a timestamp read as one number: it orders the
    timestamps of one format, [YYYY-MM-DDTHH:MM:SSZ], as their time
    values do. *)
Fixpoint digits_value (acc : Z) (s : string) : Z :=
  match s with
  | EmptyString => acc
  | String c s' =>
      let n := JS.code c in
      if ((48 <=? n) && (n <=? 57))%N
      then digits_value (acc * 10 + Z.of_N (n - 48)) s'
      else digits_value acc s'
  end.

Definition host : Host := {|
  BACKEND_URL := "http://localhost:8001";
  localeCompare := codeUnitCompare;
  toUpperCase := asciiUpper;
  Date_time := digits_value 0
|}.

Definition report : Doc.t :=
  Doc.make "d1" "Report.pdf" 2048 3 "2024-03-01T09:00:00Z" (Some "Quarterly figures").
Definition invoice : Doc.t :=
  Doc.make "d2" "invoice.pdf" 512 1 "2024-05-20T17:30:00Z" None.
Definition thesis : Doc.t :=
  Doc.make "d3" "Thesis.pdf" 1048576 120 "2023-11-11T08:15:00Z" (Some "").

Definition library : list Doc.t := [report; invoice; thesis].

Definition offline : Exn.t := Exn.make None "Network Error".
Definition refused : Exn.t := Exn.make (Some "Quota exceeded") "Request failed with status code 429".

Definition answer : ChatResponse.t :=
  ChatResponse.make "It covers the first quarter." "2024-06-01T12:00:02.000Z" "gpt-4o-mini"
    (173 # 100).

(** A chat with the welcome message, a typed question and a request in
    flight. *)
Definition waiting : AIChat.state :=
  AIChat.make [AIChat.welcomeMessage "2024-06-01T11:59:00.000Z"] "What is this about?"
    true None library [] "openai" "gpt-4o-mini" (7 # 10) false false.

Definition paper : File.t := File.make "paper.pdf" "application/pdf" (200 * 1024 * 1024).
Definition photo : File.t := File.make "photo.png" "image/png" 1024.

End Demo.

(* ===================================================================== *)
(** ** Vocabulary of the specification *)
(* ===================================================================== *)

(** [a] may stand before [b] for a comparator. *)
Definition not_after {A : Type} (comparefn : A -> A -> Z) (a b : A) : Prop :=
  comparefn a b <= 0.

(** [t] occurs in [s]. *)
Definition substring_of (t s : string) : Prop :=
  exists before after, s = before ++ t ++ after.

(** [t] occurs in [s] when the case of the letters is ignored. *)
Definition ci_substring_of (t s : string) : Prop :=
  substring_of (JS.toLowerCase t) (JS.toLowerCase s).

(** A string of decimal digits. *)
Fixpoint is_digits (s : string) : bool :=
  match s with
  | EmptyString => true
  | String c s' => ((48 <=? JS.code c) && (JS.code c <=? 57))%N && is_digits s'
  end.

(** A decimal numeral with at most two decimal places. *)
Definition numeral (s : string) : Prop :=
  exists int, int <> "" /\ is_digits int = true /\
    (s = int \/
     exists frac, is_digits frac = true /\ (1 <= String.length frac <= 2)%nat /\
                  s = int ++ "." ++ frac).

(** The number a string of digits denotes. *)
Definition digits_value (s : string) : option Z :=
  option_map (fun d => Z.of_N (N.of_uint d)) (NilZero.uint_of_string s).

(** The string up to its first point, and what follows the point. *)
Fixpoint split_point (s : string) : string * option string :=
  match s with
  | EmptyString => (EmptyString, None)
  | String c s' =>
      if Ascii.eqb c "."%char then (EmptyString, Some s')
      else let (int, frac) := split_point s' in (String c int, frac)
  end.

(** The value, in hundredths, of a numeral with at most two decimals. *)
Definition hundredths_of (s : string) : option Z :=
  match split_point s with
  | (int, None) => option_map (Z.mul 100) (digits_value int)
  | (int, Some frac) =>
      match digits_value int, digits_value frac, String.length frac with
      | Some i, Some f, 1%nat => Some (100 * i + 10 * f)
      | Some i, Some f, 2%nat => Some (100 * i + f)
      | _, _, _ => None
      end
  end.

(** A well-formed size: a numeral, a space and one of the four units. *)
Definition well_formed_size (s : string) : Prop :=
  exists num unit, numeral num /\ In unit sizes /\ s = num ++ " " ++ unit.

(** [h] hundredths is the quotient [b / p] rounded to the nearest
    hundredth, upwards on a tie. *)
Definition rounds_to_hundredths (b p h : Z) : Prop :=
  2 * h * p <= 200 * b + p < 2 * (h + 1) * p.

(** The requests and the error toasts of a trace. *)
Definition is_request (e : event) : bool :=
  match e with Request _ _ _ => true | _ => false end.

Definition is_error_toast (e : event) : bool :=
  match e with ToastError _ => true | _ => false end.

Definition requests (t : list event) : list event := List.filter is_request t.

Definition error_toasts (t : list event) : list event := List.filter is_error_toast t.

(** The sum of the sizes of a list of documents. *)
Definition total_size (documents : list Doc.t) : Z :=
  fold_right Z.add 0 (map Doc.size documents).

(** A transcript that opens with the welcome message of the assistant. *)
Definition opens_with_welcome (transcript : list Msg.t) : Prop :=
  exists now rest, transcript = AIChat.welcomeMessage now :: rest.

(** The message the second turn of [sendMessage] appends: the answer of
    a fulfilled request, the error message of a failed one. *)
Definition replyMessage (r : reply ChatResponse.t) (later : string) : Msg.t :=
  match r with
  | Fulfilled data => AIChat.assistantMessage data
  | Rejected error => AIChat.errorMessage error later
  end.

(** Actions among which no request settles, and among which the chat is
    not cleared. *)
Definition none_settles (l : list AIChat.action) : bool :=
  forallb (fun a => negb (AIChat.settles a)) l.

Definition none_clears (l : list AIChat.action) : bool :=
  forallb (fun a => negb (AIChat.clears a)) l.

(** The first and the last character of a string. *)
Definition first_char (s : string) : option ascii :=
  match s with
  | EmptyString => None
  | String c _ => Some c
  end.

Fixpoint last_char (s : string) : option ascii :=
  match s with
  | EmptyString => None
  | String c EmptyString => Some c
  | String _ s' => last_char s'
  end.

(** A string made of white space only. *)
Fixpoint all_white (s : string) : bool :=
  match s with
  | EmptyString => true
  | String c s' => JS.isWhiteSpace c && all_white s'
  end.

(** The roles of a transcript alternate, beginning with the assistant
    ([true]) or with the user ([false]). *)
Fixpoint alternates (assistant : bool) (transcript : list Msg.t) : bool :=
  match transcript with
  | [] => true
  | m :: rest =>
      String.eqb (Msg.role m) (if assistant then "assistant" else "user")
      && alternates (negb assistant) rest
  end.

(* ===================================================================== *)
(** * Properties *)
(* ===================================================================== *)

(** ** Sorting with a comparator *)

Section SortFacts.
Context {A : Type} (comparefn : A -> A -> Z).

Lemma insert_Permutation (x : A) (l : list A) :
  Permutation (x :: l) (JS.insert comparefn x l).
Proof.
  induction l as [|y l IH]; simpl.
  - reflexivity.
  - destruct (comparefn x y <=? 0).
    + reflexivity.
    + rewrite perm_swap. now apply perm_skip.
Qed.

Lemma sort_Permutation (l : list A) : Permutation l (JS.sort comparefn l).
Proof.
  induction l as [|x l IH]; simpl.
  - reflexivity.
  - rewrite <- insert_Permutation. now apply perm_skip.
Qed.

Hypothesis total : forall a b, not_after comparefn a b \/ not_after comparefn b a.
Hypothesis trans :
  forall a b c, not_after comparefn a b -> not_after comparefn b c -> not_after comparefn a c.

Lemma insert_StronglySorted (x : A) (l : list A) :
  StronglySorted (not_after comparefn) l ->
  StronglySorted (not_after comparefn) (JS.insert comparefn x l).
Proof.
  induction 1 as [|y l Hl IH Hy]; simpl.
  - repeat constructor.
  - destruct (Z.leb_spec (comparefn x y) 0) as [Hxy|Hxy].
    + constructor; [now constructor|].
      constructor; [exact Hxy|].
      eapply List.Forall_impl; [|exact Hy].
      intros z Hz. now apply trans with y.
    + constructor; [exact IH|].
      eapply Permutation_Forall; [apply insert_Permutation|].
      constructor; [|exact Hy].
      destruct (total y x) as [H|H]; [exact H|unfold not_after in H; lia].
Qed.

Lemma sort_StronglySorted (l : list A) :
  StronglySorted (not_after comparefn) (JS.sort comparefn l).
Proof.
  induction l as [|x l IH]; simpl.
  - constructor.
  - now apply insert_StronglySorted.
Qed.
End SortFacts.

(** In a list sorted for a relation, the first element is related to every
    other one. *)
Lemma StronglySorted_head {A} (R : A -> A -> Prop) (x : A) (l : list A) :
  StronglySorted R (x :: l) -> forall y, In y l -> R x y.
Proof.
  intros H y Hy. apply StronglySorted_inv in H as [_ H].
  rewrite List.Forall_forall in H. now apply H.
Qed.

Lemma StronglySorted_weaken {A} (R R' : A -> A -> Prop) (l : list A) :
  (forall a b, R a b -> R' a b) -> StronglySorted R l -> StronglySorted R' l.
Proof.
  intros HR. induction 1 as [|x l Hl IH Hx]; constructor; [exact IH|].
  eapply List.Forall_impl; [|exact Hx]. intros y. apply HR.
Qed.

(** ** The comparator of the document manager *)

Section CompareFacts.
Context `{ConsistentCollation}.

Lemma compareDocuments_total (sortBy : string) (a b : Doc.t) :
  not_after (DocumentManager.compareDocuments sortBy) a b \/
  not_after (DocumentManager.compareDocuments sortBy) b a.
Proof.
  unfold not_after, DocumentManager.compareDocuments.
  destruct (String.eqb sortBy "filename"); [|destruct (String.eqb sortBy "size")].
  - pose proof (localeCompare_flip (Doc.filename a) (Doc.filename b)). lia.
  - lia.
  - lia.
Qed.

Lemma compareDocuments_trans (sortBy : string) (a b c : Doc.t) :
  not_after (DocumentManager.compareDocuments sortBy) a b ->
  not_after (DocumentManager.compareDocuments sortBy) b c ->
  not_after (DocumentManager.compareDocuments sortBy) a c.
Proof.
  unfold not_after, DocumentManager.compareDocuments.
  destruct (String.eqb sortBy "filename"); [|destruct (String.eqb sortBy "size")].
  - apply localeCompare_trans.
  - lia.
  - lia.
Qed.

Lemma filteredDocuments_sorted (documents : list Doc.t) (searchTerm sortBy : string) :
  StronglySorted (not_after (DocumentManager.compareDocuments sortBy))
    (DocumentManager.filteredDocuments documents searchTerm sortBy).
Proof.
  apply sort_StronglySorted.
  - apply compareDocuments_total.
  - apply compareDocuments_trans.
Qed.
End CompareFacts.

Lemma filteredDocuments_Permutation `{Host}
    (documents : list Doc.t) (searchTerm sortBy : string) :
  Permutation (List.filter (DocumentManager.matches searchTerm) documents)
              (DocumentManager.filteredDocuments documents searchTerm sortBy).
Proof. apply sort_Permutation. Qed.

(** The code-unit collation of the demonstration host is consistent. *)
Lemma ascii_compare_trans (a b c : ascii) :
  Ascii.compare a b <> Gt -> Ascii.compare b c <> Gt -> Ascii.compare a c <> Gt.
Proof.
  unfold Ascii.compare. rewrite !N.compare_le_iff. lia.
Qed.

Lemma string_compare_trans (a b c : string) :
  String.compare a b <> Gt -> String.compare b c <> Gt -> String.compare a c <> Gt.
Proof.
  revert b c. induction a as [|x a IH]; intros [|y b] [|z c]; simpl; try congruence.
  destruct (Ascii.compare x y) eqn:Exy; try congruence;
    destruct (Ascii.compare y z) eqn:Eyz; try congruence; intros Hab Hbc.
  - apply Ascii.compare_eq_iff in Exy, Eyz. subst.
    unfold Ascii.compare. rewrite N.compare_refl. now apply IH with b.
  - apply Ascii.compare_eq_iff in Exy. subst. now rewrite Eyz.
  - apply Ascii.compare_eq_iff in Eyz. subst. now rewrite Exy.
  - assert (Hxz : Ascii.compare x z = Lt).
    { unfold Ascii.compare in *. rewrite N.compare_lt_iff in *. lia. }
    now rewrite Hxz.
Qed.

Lemma demo_collation : @ConsistentCollation Demo.host.
Proof.
  split; simpl; unfold Demo.codeUnitCompare.
  - intros a b. rewrite (String.compare_antisym a b).
    now destruct (String.compare b a).
  - intros a b c Hab Hbc.
    pose proof (string_compare_trans a b c) as T.
    destruct (String.compare a b); try lia;
      destruct (String.compare b c); try lia;
      destruct (String.compare a c); try lia; exfalso; apply T; congruence.
Qed.

(** C1. For every document list, search term and sort selector, the list
    shown is the filtered list rearranged in the order of the selected key:
    with ['filename'] every document stands before those whose filename
    the locale's comparison does not put before its own, with ['size'] the
    sizes never increase, and with any other selector (['upload_date'] is
    the default of the component) the upload dates never increase, so that
    the first document shown is the newest.  The selector offers these
    three keys. *)
Theorem C1_sorted_by_selected_key `{ConsistentCollation}
    (documents : list Doc.t) (searchTerm : string) :
  (forall sortBy,
      Permutation (List.filter (DocumentManager.matches searchTerm) documents)
                  (DocumentManager.filteredDocuments documents searchTerm sortBy)) /\
  StronglySorted
    (fun a b => localeCompare (Doc.filename a) (Doc.filename b) <= 0)
    (DocumentManager.filteredDocuments documents searchTerm "filename") /\
  StronglySorted
    (fun a b => Doc.size a >= Doc.size b)
    (DocumentManager.filteredDocuments documents searchTerm "size") /\
  (forall sortBy, sortBy <> "filename" -> sortBy <> "size" ->
      StronglySorted
        (fun a b => Date_time (Doc.upload_date a) >= Date_time (Doc.upload_date b))
        (DocumentManager.filteredDocuments documents searchTerm sortBy) /\
      (forall newest rest,
          DocumentManager.filteredDocuments documents searchTerm sortBy = newest :: rest ->
          forall d, In d rest ->
                    Date_time (Doc.upload_date d) <= Date_time (Doc.upload_date newest))) /\
  DocumentManager.sortBy DocumentManager.initial = "upload_date" /\
  DocumentManager.sortBy_options = ["upload_date"; "filename"; "size"].
Proof.
  assert (by_date : forall sortBy, sortBy <> "filename" -> sortBy <> "size" ->
            StronglySorted
              (fun a b => Date_time (Doc.upload_date a) >= Date_time (Doc.upload_date b))
              (DocumentManager.filteredDocuments documents searchTerm sortBy)).
  { intros sortBy Hf Hs.
    eapply StronglySorted_weaken; [|apply filteredDocuments_sorted].
    intros a b. unfold not_after, DocumentManager.compareDocuments.
    apply String.eqb_neq in Hf, Hs. rewrite Hf, Hs. lia. }
  repeat split.
  - intros sortBy. apply filteredDocuments_Permutation.
  - eapply StronglySorted_weaken; [|apply filteredDocuments_sorted].
    intros a b. unfold not_after, DocumentManager.compareDocuments. simpl. tauto.
  - eapply StronglySorted_weaken; [|apply filteredDocuments_sorted].
    intros a b. unfold not_after, DocumentManager.compareDocuments. simpl. lia.
  - now apply by_date.
  - intros newest rest E d Hd.
    pose proof (by_date sortBy H1 H2) as S. rewrite E in S.
    pose proof (StronglySorted_head _ _ _ S d Hd). simpl in *. lia.
Qed.

(** The three orders on the demonstration library. *)
Lemma C1_sorted_by_selected_key_witness :
  map Doc.id (@DocumentManager.filteredDocuments Demo.host Demo.library "" "filename") = ["d1"; "d3"; "d2"] /\
  map Doc.id (@DocumentManager.filteredDocuments Demo.host Demo.library "" "size") = ["d3"; "d1"; "d2"] /\
  map Doc.id (@DocumentManager.filteredDocuments Demo.host Demo.library "" "upload_date") = ["d2"; "d1"; "d3"] /\
  StronglySorted
    (fun a b => @Date_time Demo.host (Doc.upload_date a) >= @Date_time Demo.host (Doc.upload_date b))
    (@DocumentManager.filteredDocuments Demo.host Demo.library "" "upload_date").
Proof.
  repeat split; try reflexivity.
  apply (@C1_sorted_by_selected_key Demo.host demo_collation Demo.library "");
    discriminate.
Defined.

(** ** Searching *)

Lemma prefix_spec (t s : string) :
  String.prefix t s = true <-> exists after, s = t ++ after.
Proof.
  revert s. induction t as [|c t IH]; intros s.
  - split; [intros _; now exists s|intros _; now destruct s].
  - destruct s as [|c' s]; simpl.
    + split; [discriminate|intros [after E]; discriminate].
    + destruct (Ascii.ascii_dec c c') as [->|Hne].
      * rewrite IH. split; intros [after E]; exists after; [now rewrite E|now injection E].
      * split; [discriminate|intros [after E]; injection E; congruence].
Qed.

Lemma includes_spec (s t : string) :
  JS.includes s t = true <-> substring_of t s.
Proof.
  unfold substring_of. split.
  - induction s as [|c s IH]; cbn [JS.includes]; rewrite orb_true_iff; intros [P|R].
    + apply prefix_spec in P as [after E]. now exists "", after.
    + discriminate.
    + apply prefix_spec in P as [after E]. now exists "", after.
    + destruct (IH R) as (before & after & E).
      exists (String c before), after. simpl. now rewrite E.
  - intros (before & after & E). revert s E.
    induction before as [|c before IH]; intros s E.
    + assert (P : String.prefix t s = true) by (apply prefix_spec; now exists after).
      destruct s; cbn [JS.includes]; rewrite P; reflexivity.
    + subst s. change (String c before ++ t ++ after) with (String c (before ++ t ++ after)).
      cbn [JS.includes]. rewrite (IH _ eq_refl). apply orb_true_r.
Qed.

Lemma includes_empty (s : string) : JS.includes s "" = true.
Proof. apply includes_spec. now exists "", s. Qed.

Lemma matches_spec `{Host} (searchTerm : string) (doc : Doc.t) :
  DocumentManager.matches searchTerm doc = true <->
  ci_substring_of searchTerm (Doc.filename doc) \/
  exists desc, Doc.description doc = Some desc /\ ci_substring_of searchTerm desc.
Proof.
  unfold DocumentManager.matches, ci_substring_of, JS.lor, JS.ToBoolean.
  rewrite <- includes_spec.
  destruct (JS.includes (JS.toLowerCase (Doc.filename doc)) (JS.toLowerCase searchTerm)).
  - split; [now left|reflexivity].
  - destruct (Doc.description doc) as [desc|]; simpl.
    + rewrite includes_spec. split.
      * intros Hd. right. now exists desc.
      * intros [Hf|(desc' & E & Hd)]; [discriminate|congruence].
    + split; [discriminate|].
      intros [Hf|(desc' & E & Hd)]; discriminate.
Qed.

Lemma filter_all {A} (f : A -> bool) (l : list A) :
  (forall x, f x = true) -> List.filter f l = l.
Proof.
  intros Hf. induction l as [|x l IH]; simpl; [reflexivity|].
  now rewrite Hf, IH.
Qed.

(** C2. For every document list, search term and sort selector, a
    document is in the list shown exactly when it is one of the documents
    and the search term is a case-insensitive substring of its filename, or
    it has a description of which the term is a case-insensitive substring;
    with the empty search term the list shown is the whole document list
    rearranged. *)
Theorem C2_search_keeps_matching_documents `{Host}
    (documents : list Doc.t) (searchTerm sortBy : string) :
  (forall d,
      In d (DocumentManager.filteredDocuments documents searchTerm sortBy) <->
      In d documents /\
      (ci_substring_of searchTerm (Doc.filename d) \/
       exists desc, Doc.description d = Some desc /\ ci_substring_of searchTerm desc)) /\
  Permutation documents (DocumentManager.filteredDocuments documents "" sortBy).
Proof.
  split.
  - intros d. rewrite <- matches_spec, <- filter_In. split; apply Permutation_in.
    + symmetry. apply filteredDocuments_Permutation.
    + apply filteredDocuments_Permutation.
  - rewrite <- filteredDocuments_Permutation.
    rewrite filter_all; [reflexivity|].
    intros d. apply matches_spec. left. apply includes_spec, includes_empty.
Qed.

(** The search on the demonstration library: the term is matched against
    the filename and, where there is one, the description. *)
Example search_by_description :
  map Doc.id (@DocumentManager.filteredDocuments Demo.host Demo.library "QUARTER" "size")
  = ["d1"].
Proof. reflexivity. Qed.

Example search_by_filename :
  map Doc.id (@DocumentManager.filteredDocuments Demo.host Demo.library "INVOICE" "size")
  = ["d2"].
Proof. reflexivity. Qed.

(** ** Formatting of sizes *)

Lemma append_assoc (a b c : string) : (a ++ b) ++ c = a ++ b ++ c.
Proof.
  induction a as [|x a IH]; [reflexivity|].
  change (String x ((a ++ b) ++ c) = String x (a ++ b ++ c)). now rewrite IH.
Qed.

Lemma length_append (a b : string) :
  String.length (a ++ b) = (String.length a + String.length b)%nat.
Proof.
  induction a as [|x a IH]; [reflexivity|].
  change (S (String.length (a ++ b)) = S (String.length a + String.length b)).
  now rewrite IH.
Qed.

(** Two splittings of one string with tails of the same length have the
    same tail. *)
Lemma same_tail (a x b y : string) :
  String.length x = String.length y -> a ++ x = b ++ y -> x = y.
Proof.
  intros L. revert b. induction a as [|c a IH]; intros [|c' b] E.
  - exact E.
  - change (x = String c' (b ++ y)) in E. subst x.
    cbn [String.length] in L. rewrite length_append in L. lia.
  - change (String c (a ++ x) = y) in E. subst y.
    cbn [String.length] in L. rewrite length_append in L. lia.
  - change (String c (a ++ x) = String c' (b ++ y)) in E.
    injection E as _ E. now apply IH with b.
Qed.

Lemma is_digits_append (a b : string) :
  is_digits (a ++ b) = is_digits a && is_digits b.
Proof.
  induction a as [|c a IH]; [reflexivity|].
  change (is_digits (String c (a ++ b)) = is_digits (String c a) && is_digits b).
  cbn [is_digits]. rewrite IH. now rewrite andb_assoc.
Qed.

Lemma string_of_uint_is_digits (d : Decimal.uint) :
  is_digits (NilEmpty.string_of_uint d) = true.
Proof. induction d; simpl; auto. Qed.

Lemma digits_is_digits (n : Z) : is_digits (JS.digits n) = true.
Proof.
  unfold JS.digits, NilZero.string_of_uint.
  destruct (N.to_uint (Z.to_N n)) eqn:E; try reflexivity;
    rewrite <- E; apply string_of_uint_is_digits.
Qed.

Lemma digits_nonempty (n : Z) : JS.digits n <> "".
Proof.
  unfold JS.digits, NilZero.string_of_uint.
  destruct (N.to_uint (Z.to_N n)); discriminate.
Qed.

Lemma digits_one (n : Z) : 0 <= n < 10 -> String.length (JS.digits n) = 1%nat.
Proof.
  intros Hn.
  assert (A : List.Forall (fun k => String.length (JS.digits (Z.of_nat k)) = 1%nat)
                          (seq 0 10)) by (repeat constructor).
  rewrite List.Forall_forall in A.
  specialize (A (Z.to_nat n)). rewrite Z2Nat.id in A by lia.
  apply A, in_seq. lia.
Qed.

Lemma shortest2_numeral (h : Z) : 0 <= h -> numeral (JS.shortest2 h).
Proof.
  intros Hh. unfold JS.shortest2, JS.fixed2, numeral.
  exists (JS.digits (h / 100)).
  split; [apply digits_nonempty|]. split; [apply digits_is_digits|].
  destruct (h mod 100 =? 0); [now left|]. right.
  destruct (h mod 10 =? 0).
  - exists (JS.digits (h mod 100 / 10)).
    split; [apply digits_is_digits|]. split; [|reflexivity].
    rewrite digits_one; [lia|].
    pose proof (Z.mod_pos_bound h 100). split; [apply Z.div_pos; lia|].
    apply Z.div_lt_upper_bound; lia.
  - exists (JS.digits (h mod 100 / 10) ++ JS.digits (h mod 10)).
    split; [|split; [|reflexivity]].
    + now rewrite is_digits_append, !digits_is_digits.
    + rewrite length_append, !digits_one; [lia| |].
      * apply Z.mod_pos_bound. lia.
      * pose proof (Z.mod_pos_bound h 100). split; [apply Z.div_pos; lia|].
        apply Z.div_lt_upper_bound; lia.
Qed.

Lemma digits_value_digits (n : Z) : 0 <= n -> digits_value (JS.digits n) = Some n.
Proof.
  intros Hn. unfold digits_value, JS.digits.
  rewrite NilZero.usu.
  - cbn [option_map]. rewrite DecimalN.Unsigned.of_to. f_equal. lia.
  - destruct (Z.to_N n) as [|p]; [discriminate|].
    apply DecimalPos.Unsigned.to_uint_nonnil.
Qed.

Lemma two_digits_value (d1 d0 : Z) :
  0 <= d1 < 10 -> 0 <= d0 < 10 ->
  digits_value (JS.digits d1 ++ JS.digits d0) = Some (10 * d1 + d0).
Proof.
  intros H1 H0.
  assert (A : forallb
                (fun a => forallb
                   (fun b =>
                      match digits_value (JS.digits (Z.of_nat a) ++ JS.digits (Z.of_nat b)) with
                      | Some v => v =? 10 * Z.of_nat a + Z.of_nat b
                      | None => false
                      end) (seq 0 10)) (seq 0 10) = true) by (vm_compute; reflexivity).
  rewrite forallb_forall in A.
  specialize (A (Z.to_nat d1) ltac:(apply in_seq; lia)).
  rewrite forallb_forall in A.
  specialize (A (Z.to_nat d0) ltac:(apply in_seq; lia)).
  rewrite !Z2Nat.id in A by lia.
  destruct (digits_value (JS.digits d1 ++ JS.digits d0)) as [v|]; [|discriminate].
  apply Z.eqb_eq in A. now subst.
Qed.

Lemma split_point_digits (a : string) :
  is_digits a = true -> split_point a = (a, None).
Proof.
  induction a as [|c a IH]; [reflexivity|]. cbn [is_digits split_point].
  rewrite !andb_true_iff. intros [[Hlo Hhi] Ha].
  destruct (Ascii.eqb_spec c "."%char) as [->|_]; [discriminate|].
  now rewrite (IH Ha).
Qed.

Lemma split_point_append (a b : string) :
  is_digits a = true -> split_point (a ++ "." ++ b) = (a, Some b).
Proof.
  induction a as [|c a IH]; [reflexivity|].
  change (String c a ++ "." ++ b) with (String c (a ++ "." ++ b)).
  cbn [is_digits split_point].
  rewrite !andb_true_iff. intros [[Hlo Hhi] Ha].
  destruct (Ascii.eqb_spec c "."%char) as [->|_]; [discriminate|].
  now rewrite (IH Ha).
Qed.

(** The numeral printed for [h] hundredths denotes [h] hundredths. *)
Lemma shortest2_value (h : Z) : 0 <= h -> hundredths_of (JS.shortest2 h) = Some h.
Proof.
  intros Hh. unfold JS.shortest2, JS.fixed2, hundredths_of.
  assert (Hq : 0 <= h / 100) by (apply Z.div_pos; lia).
  assert (H1 : 0 <= h mod 100 / 10 < 10).
  { pose proof (Z.mod_pos_bound h 100). split; [apply Z.div_pos; lia|].
    apply Z.div_lt_upper_bound; lia. }
  assert (H0 : 0 <= h mod 10 < 10) by (apply Z.mod_pos_bound; lia).
  pose proof (Z.div_mod h 100 ltac:(lia)) as D100.
  pose proof (Z.div_mod h 10 ltac:(lia)) as D10.
  pose proof (Z.div_mod (h mod 100) 10 ltac:(lia)) as D.
  pose proof (Z.mod_pos_bound (h mod 100) 10 ltac:(lia)) as B.
  destruct (Z.eqb_spec (h mod 100) 0) as [E100|_]; [|destruct (Z.eqb_spec (h mod 10) 0) as [E10|_]].
  - rewrite split_point_digits by apply digits_is_digits.
    rewrite digits_value_digits by exact Hq. cbn [option_map]. f_equal. lia.
  - rewrite split_point_append by apply digits_is_digits.
    rewrite !digits_value_digits by lia. rewrite digits_one by exact H1.
    f_equal. lia.
  - rewrite split_point_append by apply digits_is_digits.
    rewrite digits_value_digits by exact Hq.
    rewrite two_digits_value by assumption.
    rewrite length_append, !digits_one by assumption. cbn [Nat.add].
    f_equal. lia.
Qed.

(** The hundredths [toFixed(2)] chooses for a quotient of integers. *)
Lemma nearest_hundredth_div (b p : Z) :
  0 < p ->
  JS.nearest_hundredth (inject_Z b / inject_Z p) = (200 * b + p) / (2 * p).
Proof.
  intros Hp. destruct p as [|p|p]; try lia.
  unfold JS.nearest_hundredth, Qfloor, Qdiv, Qinv, Qmult, Qplus, inject_Z.
  cbn [Qnum Qden]. f_equal; lia.
Qed.

Lemma nearest_hundredth_rounds (b p : Z) :
  0 < p -> rounds_to_hundredths b p (JS.nearest_hundredth (inject_Z b / inject_Z p)).
Proof.
  intros Hp. rewrite nearest_hundredth_div by exact Hp.
  unfold rounds_to_hundredths.
  pose proof (Z.div_mod (200 * b + p) (2 * p)).
  pose proof (Z.mod_pos_bound (200 * b + p) (2 * p)). nia.
Qed.

Lemma nearest_hundredth_nonneg (b p : Z) :
  0 <= b -> 0 < p -> 0 <= JS.nearest_hundredth (inject_Z b / inject_Z p).
Proof.
  intros Hb Hp. rewrite nearest_hundredth_div by exact Hp.
  apply Z.div_pos; lia.
Qed.

(** The index [formatBytes] computes for a positive size. *)
Lemma floor_log1024_spec (b : Z) :
  1 <= b ->
  exists i, JS.floor_log1024 b = Some i /\ 0 <= i /\ 1024 ^ i <= b < 1024 ^ (i + 1).
Proof.
  intros Hb. exists (Z.log2 b / 10). unfold JS.floor_log1024.
  destruct (Z.leb_spec b 0); [lia|]. split; [reflexivity|].
  pose proof (Z.log2_nonneg b) as HL.
  pose proof (Z.log2_spec b ltac:(lia)) as [Hlo Hhi].
  pose proof (Z.div_mod (Z.log2 b) 10 ltac:(lia)) as D.
  pose proof (Z.mod_pos_bound (Z.log2 b) 10 ltac:(lia)) as M.
  set (i := Z.log2 b / 10) in *.
  assert (Hi : 0 <= i) by (apply Z.div_pos; lia).
  split; [exact Hi|].
  change 1024 with (2 ^ 10). rewrite <- !Z.pow_mul_r by lia.
  split.
  - eapply Z.le_trans; [|exact Hlo]. apply Z.pow_le_mono_r; lia.
  - eapply Z.lt_le_trans; [exact Hhi|]. apply Z.pow_le_mono_r; lia.
Qed.

Lemma formatBytes_positive (b i : Z) :
  1 <= b -> JS.floor_log1024 b = Some i ->
  formatBytes b =
    JS.shortest2 (JS.nearest_hundredth (inject_Z b / inject_Z (1024 ^ i)))
    ++ " " ++ JS.element sizes (Some i).
Proof.
  intros Hb Hi. unfold formatBytes.
  destruct (Z.eqb_spec b 0); [lia|]. now rewrite Hi.
Qed.

Lemma formatBytes_negative (b : Z) : b < 0 -> formatBytes b = "NaN undefined".
Proof.
  intros Hb. unfold formatBytes, JS.floor_log1024.
  destruct (Z.eqb_spec b 0); [lia|]. destruct (Z.leb_spec b 0); [reflexivity|lia].
Qed.

Lemma undefined_is_no_unit (pre num unit : string) :
  In unit sizes -> pre ++ " undefined" <> num ++ " " ++ unit.
Proof.
  intros Hu E. unfold sizes in Hu. simpl in Hu.
  destruct Hu as [<-|[<-|[<-|[<-|[]]]]].
  - change (pre ++ " und" ++ "efined" = num ++ " Bytes") in E.
    rewrite <- append_assoc in E. apply same_tail in E; [discriminate|reflexivity].
  - change (pre ++ " undefi" ++ "ned" = num ++ " KB") in E.
    rewrite <- append_assoc in E. apply same_tail in E; [discriminate|reflexivity].
  - change (pre ++ " undefi" ++ "ned" = num ++ " MB") in E.
    rewrite <- append_assoc in E. apply same_tail in E; [discriminate|reflexivity].
  - change (pre ++ " undefi" ++ "ned" = num ++ " GB") in E.
    rewrite <- append_assoc in E. apply same_tail in E; [discriminate|reflexivity].
Qed.

(** C9. [formatBytes 0] is ["0 Bytes"].  For an integer [1 <= b < 1024^4]
    the result is a numeral with at most two decimal places, a space and
    the unit [sizes[i]], where [i = floor(log_1024 b)] is below 4 and the
    numeral denotes [b / 1024^i] rounded to hundredths.  From [1024^4] on
    the index is at least 4, past the end of [sizes], and the unit reads
    "undefined"; for a negative [b] the logarithm is not a number and the
    result is "NaN undefined".  Hence the result is well formed exactly on
    [0 <= b < 1024^4]. *)
Theorem C9_formatBytes_domain (b : Z) :
  formatBytes 0 = "0 Bytes" /\
  (1 <= b < 1024 ^ 4 ->
     exists i h num unit,
       JS.floor_log1024 b = Some i /\ 0 <= i < 4 /\ 1024 ^ i <= b < 1024 ^ (i + 1) /\
       nth_error sizes (Z.to_nat i) = Some unit /\
       rounds_to_hundredths b (1024 ^ i) h /\
       numeral num /\ hundredths_of num = Some h /\
       formatBytes b = num ++ " " ++ unit) /\
  (1024 ^ 4 <= b ->
     exists i num,
       JS.floor_log1024 b = Some i /\ 4 <= i /\ nth_error sizes (Z.to_nat i) = None /\
       formatBytes b = num ++ " undefined") /\
  (b < 0 -> JS.floor_log1024 b = None /\ formatBytes b = "NaN undefined") /\
  (well_formed_size (formatBytes b) <-> 0 <= b < 1024 ^ 4).
Proof.
  assert (inside : 1 <= b < 1024 ^ 4 ->
     exists i h num unit,
       JS.floor_log1024 b = Some i /\ 0 <= i < 4 /\ 1024 ^ i <= b < 1024 ^ (i + 1) /\
       nth_error sizes (Z.to_nat i) = Some unit /\
       rounds_to_hundredths b (1024 ^ i) h /\
       numeral num /\ hundredths_of num = Some h /\
       formatBytes b = num ++ " " ++ unit).
  { intros [Hlo Hhi].
    destruct (floor_log1024_spec b Hlo) as (i & Ei & Hi & Hpow).
    assert (Hi4 : i < 4).
    { destruct (Z.lt_ge_cases i 4) as [|Hge]; [assumption|].
      assert (1024 ^ 4 <= 1024 ^ i) by (apply Z.pow_le_mono_r; lia). lia. }
    assert (Hp : 0 < 1024 ^ i) by (apply Z.pow_pos_nonneg; lia).
    set (h := JS.nearest_hundredth (inject_Z b / inject_Z (1024 ^ i))).
    assert (Hh : 0 <= h) by (apply nearest_hundredth_nonneg; lia).
    assert (Eunit : exists unit, nth_error sizes (Z.to_nat i) = Some unit /\
                                 JS.element sizes (Some i) = unit).
    { assert (C : i = 0 \/ i = 1 \/ i = 2 \/ i = 3) by lia.
      destruct C as [-> | [-> | [-> | ->]]]; eexists; split; reflexivity. }
    destruct Eunit as (unit & Eu & Ee).
    exists i, h, (JS.shortest2 h), unit.
    repeat apply conj; try assumption; try lia.
    - apply nearest_hundredth_rounds, Hp.
    - apply nearest_hundredth_rounds, Hp.
    - now apply shortest2_numeral.
    - now apply shortest2_value.
    - rewrite (formatBytes_positive b i Hlo Ei). now rewrite Ee. }
  assert (above : 1024 ^ 4 <= b ->
     exists i num,
       JS.floor_log1024 b = Some i /\ 4 <= i /\ nth_error sizes (Z.to_nat i) = None /\
       formatBytes b = num ++ " undefined").
  { intros Hb.
    assert (Hlo : 1 <= b) by (change (1024 ^ 4) with 1099511627776 in Hb; lia).
    destruct (floor_log1024_spec b Hlo) as (i & Ei & Hi & Hpow).
    assert (Hi4 : 4 <= i).
    { destruct (Z.lt_ge_cases i 4) as [Hlt|]; [|assumption].
      assert (1024 ^ (i + 1) <= 1024 ^ 4) by (apply Z.pow_le_mono_r; lia). lia. }
    assert (En : nth_error sizes (Z.to_nat i) = None).
    { apply nth_error_None. simpl. lia. }
    exists i, (JS.shortest2 (JS.nearest_hundredth (inject_Z b / inject_Z (1024 ^ i)))).
    repeat split; try assumption.
    rewrite (formatBytes_positive b i Hlo Ei). unfold JS.element.
    destruct (Z.ltb_spec i 0); [lia|]. now rewrite En. }
  split; [reflexivity|]. split; [exact inside|]. split; [exact above|].
  split.
  - intros Hb. split; [|now apply formatBytes_negative].
    unfold JS.floor_log1024. destruct (Z.leb_spec b 0); [reflexivity|lia].
  - split.
    + intros (num & unit & Hnum & Hunit & E).
      destruct (Z.lt_ge_cases b 0) as [Hneg|Hpos].
      * rewrite (formatBytes_negative b Hneg) in E.
        exfalso. now apply (undefined_is_no_unit "NaN" num unit).
      * destruct (Z.lt_ge_cases b (1024 ^ 4)) as [|Hbig]; [lia|].
        destruct (above Hbig) as (i & pre & _ & _ & _ & E').
        rewrite E' in E. exfalso. now apply (undefined_is_no_unit pre num unit).
    + intros [Hlo Hhi]. destruct (Z.eq_dec b 0) as [->|Hnz].
      * exists "0", "Bytes". split; [|split; [now left|reflexivity]].
        exists "0". split; [discriminate|]. split; [reflexivity|now left].
      * destruct (inside ltac:(lia)) as (i & h & num & unit & _ & _ & _ & Eu & _ & Hn & _ & E).
        exists num, unit. split; [exact Hn|].
        split; [now apply nth_error_In in Eu|exact E].
Qed.

(** One and a half kibibytes. *)
Lemma C9_formatBytes_domain_witness :
  formatBytes 1536 = "1.5 KB" /\ well_formed_size (formatBytes 1536) /\
  formatBytes (1024 ^ 4) = "1 undefined" /\ formatBytes (-5) = "NaN undefined".
Proof.
  split; [reflexivity|]. split; [|split; reflexivity].
  apply (C9_formatBytes_domain 1536). vm_compute. split; [discriminate|reflexivity].
Defined.

(** ** Running a handler *)

(** Unfolds the operations of [Eff] in the goal, down to the completion,
    the final state and the trace. *)
Ltac run_eff :=
  cbv beta iota zeta delta
    [mbind mret Eff_bind Eff_ret Eff.bind Eff.ret Eff.get Eff.modify Eff.emit
     Eff.throw Eff.try_catch Eff.finally Eff.axios Eff.final_state Eff.trace
     Eff.outcome fst snd].

(** ** The theme switch *)

Lemma toggleDarkMode_run (s : App.state) :
  App.toggleDarkMode s =
  (Normal tt,
   App.make (negb (App.darkMode s))
     (<["pdflux-theme" := if negb (App.darkMode s) then "dark" else "light"]>
        (App.localStorage s))
     (if negb (App.darkMode s)
      then {["dark"]} ∪ App.classList s
      else App.classList s ∖ {["dark"]}),
   []).
Proof. destruct s as [[|] storage classes]; reflexivity. Qed.

Lemma load_darkMode (storage : gmap string string) (prefers_dark : bool) :
  App.darkMode (App.load storage prefers_dark) =
  App.is_dark (storage !! "pdflux-theme")
  || (App.falsy (storage !! "pdflux-theme") && prefers_dark).
Proof.
  unfold App.load, App.mount, App.localStorage_getItem, App.initial,
    App.setDarkMode, App.classList_add.
  run_eff. cbn [App.localStorage].
  destruct (App.is_dark (storage !! "pdflux-theme")
            || App.falsy (storage !! "pdflux-theme") && prefers_dark); reflexivity.
Qed.

(** The claim C7 states that the page enters dark mode on mount exactly
    when the stored value is ['dark'], or no value is stored and the system
    prefers dark.  With the empty string stored under the key and a system
    that prefers dark, the page enters dark mode although a value other than
    ['dark'] is stored. *)
Lemma C7_empty_string_counterexample :
  let storage : gmap string string := <["pdflux-theme" := ""]> ∅ in
  ~ (App.darkMode (App.load storage true) = true <->
     storage !! "pdflux-theme" = Some "dark" \/
     (storage !! "pdflux-theme" = None /\ true = true)).
Proof.
  intros storage [to _].
  assert (D : App.darkMode (App.load storage true) = true) by reflexivity.
  destruct (to D) as [E|[E _]]; vm_compute in E; discriminate.
Qed.

(** C7 (amended). Toggling flips the mode and stores ['dark'] or ['light'],
    matching the new mode, under the key ['pdflux-theme'], leaving the other
    keys alone.  On mount the page enters dark mode exactly when the stored
    value is ['dark'], or the stored value is absent or the empty string and
    the system prefers a dark colour scheme.  Hence a reload after a toggle
    comes back in the toggled mode, whatever the system prefers. *)
Theorem C7_theme_round_trip
    (s : App.state) (storage : gmap string string) (prefers_dark : bool) :
  let toggled := Eff.final_state (App.toggleDarkMode s) in
  (App.darkMode toggled = negb (App.darkMode s) /\
   App.localStorage toggled =
     <["pdflux-theme" := if App.darkMode toggled then "dark" else "light"]>
       (App.localStorage s)) /\
  (App.darkMode (App.load storage prefers_dark) = true <->
     storage !! "pdflux-theme" = Some "dark" \/
     ((storage !! "pdflux-theme" = None \/ storage !! "pdflux-theme" = Some "") /\
      prefers_dark = true)) /\
  App.darkMode (App.reload toggled prefers_dark) = App.darkMode toggled.
Proof.
  cbv zeta. rewrite toggleDarkMode_run. unfold Eff.final_state. cbn [fst snd].
  cbn [App.darkMode App.localStorage].
  split; [split; reflexivity|]. split.
  - rewrite load_darkMode.
    destruct (storage !! "pdflux-theme") as [v|]; cbn [App.is_dark App.falsy].
    + destruct (String.eqb_spec v "dark") as [->|Hv].
      * split; [now left|reflexivity].
      * destruct v as [|c v]; cbn [JS.truthy negb orb andb].
        -- split; [intros ->; right; split; [now right|reflexivity]|].
           intros [E|[_ E]]; [discriminate|exact E].
        -- split; [discriminate|].
           intros [E|[[E|E] _]]; [congruence|discriminate|discriminate].
    + cbn [orb andb]. split.
      * intros ->. right. split; [now left|reflexivity].
      * intros [E|[_ E]]; [discriminate|exact E].
  - unfold App.reload. rewrite load_darkMode. cbn [App.localStorage].
    rewrite lookup_insert_eq.
    destruct (App.darkMode s); reflexivity.
Qed.

(** A page loaded in light mode on a system that prefers dark, switched to
    dark and back to light, stays light after a reload. *)
Example theme_survives_reload :
  let s0 := App.load (<["pdflux-theme" := "light"]> ∅) true in
  let s1 := Eff.final_state (App.toggleDarkMode s0) in
  let s2 := Eff.final_state (App.toggleDarkMode s1) in
  (App.darkMode s0, App.darkMode s1, App.darkMode s2,
   App.darkMode (App.reload s1 false), App.darkMode (App.reload s2 true),
   App.localStorage s2 !! "pdflux-theme")
  = (false, true, false, true, false, Some "light").
Proof. reflexivity. Qed.

(** ** Dropping files on the upload zone *)

Lemma onDrop_first `{Host} (file : File.t) (rest : list File.t)
    (uploaded : reply unit) (listed : reply (list Doc.t)) (s : DocumentManager.state) :
  DocumentManager.onDrop (file :: rest) uploaded listed s =
  DocumentManager.onDrop [file] uploaded listed s.
Proof. reflexivity. Qed.

Lemma onDrop_none `{Host}
    (uploaded : reply unit) (listed : reply (list Doc.t)) (s : DocumentManager.state) :
  DocumentManager.onDrop [] uploaded listed s = (Normal tt, s, []).
Proof. reflexivity. Qed.

Lemma onDrop_not_pdf `{Host} (file : File.t) (rest : list File.t)
    (uploaded : reply unit) (listed : reply (list Doc.t)) (s : DocumentManager.state) :
  File.type file <> "application/pdf" ->
  DocumentManager.onDrop (file :: rest) uploaded listed s =
  (Normal tt, s, [ToastError "Only PDF files are supported"]).
Proof.
  intros Ht. apply String.eqb_neq in Ht.
  unfold DocumentManager.onDrop. cbn [head]. rewrite Ht. reflexivity.
Qed.

Lemma onDrop_pdf_trace `{Host} (file : File.t) (rest : list File.t)
    (uploaded : reply unit) (listed : reply (list Doc.t)) (s : DocumentManager.state) :
  File.type file = "application/pdf" ->
  Eff.trace (DocumentManager.onDrop (file :: rest) uploaded listed s) =
  Request "POST" (API ++ "/documents/upload") (FormData "file" file) ::
  match uploaded with
  | Fulfilled _ =>
      ToastSuccess ("Successfully uploaded " ++ File.name file) ::
      Request "GET" (API ++ "/documents") NoBody ::
      match listed with
      | Fulfilled _ => []
      | Rejected _ =>
          [ConsoleError "Failed to fetch documents:"; ToastError "Failed to load documents"]
      end
  | Rejected error =>
      [ConsoleError "Upload error:"; ToastError ("Upload failed: " ++ Exn.text error)]
  end.
Proof.
  intros Ht. apply String.eqb_eq in Ht.
  unfold DocumentManager.onDrop. cbn [head]. rewrite Ht. cbn [negb].
  destruct uploaded as [[]|error]; [destruct listed as [docs|error]|]; reflexivity.
Qed.

(** C8. Of the accepted files only the first is considered.  When its type
    is not ['application/pdf'] the handler shows the error toast and does
    nothing else: no request, no change of state.  When no file is accepted
    it does nothing at all.  A PDF is posted to the upload endpoint
    whatever its size: the size is never read. *)
Theorem C8_onDrop_type_check_only `{Host}
    (file : File.t) (rest : list File.t)
    (uploaded : reply unit) (listed : reply (list Doc.t)) (s : DocumentManager.state) :
  DocumentManager.onDrop (file :: rest) uploaded listed s =
    DocumentManager.onDrop [file] uploaded listed s /\
  (File.type file <> "application/pdf" ->
     DocumentManager.onDrop (file :: rest) uploaded listed s =
       (Normal tt, s, [ToastError "Only PDF files are supported"]) /\
     requests (Eff.trace (DocumentManager.onDrop (file :: rest) uploaded listed s)) = []) /\
  DocumentManager.onDrop [] uploaded listed s = (Normal tt, s, []) /\
  (forall (name : string) (size : Z),
     let pdf := File.make name "application/pdf" size in
     head (Eff.trace (DocumentManager.onDrop (pdf :: rest) uploaded listed s)) =
       Some (Request "POST" (API ++ "/documents/upload") (FormData "file" pdf))).
Proof.
  split; [apply onDrop_first|]. split; [|split; [apply onDrop_none|]].
  - intros Ht. rewrite (onDrop_not_pdf file rest uploaded listed s Ht).
    split; reflexivity.
  - intros name size pdf. unfold pdf. now rewrite onDrop_pdf_trace.
Qed.

(** A picture is turned away with a toast; a PDF of 200 MB is posted. *)
Lemma C8_onDrop_type_check_only_witness :
  @DocumentManager.onDrop Demo.host [Demo.photo; Demo.paper]
     (Fulfilled tt) (Fulfilled Demo.library) DocumentManager.initial =
    (Normal tt, DocumentManager.initial, [ToastError "Only PDF files are supported"]) /\
  Eff.trace (@DocumentManager.onDrop Demo.host [Demo.paper; Demo.photo]
               (Fulfilled tt) (Fulfilled Demo.library) DocumentManager.initial) =
    [Request "POST" "http://localhost:8001/api/documents/upload" (FormData "file" Demo.paper);
     ToastSuccess "Successfully uploaded paper.pdf";
     Request "GET" "http://localhost:8001/api/documents" NoBody].
Proof.
  split; [|reflexivity].
  apply (@C8_onDrop_type_check_only Demo.host Demo.photo [Demo.paper]).
  discriminate.
Defined.

(** ** Failed requests *)

Section Failures.
Context `{Host} (error : Exn.t).

Lemma DocumentManager_fetchDocuments_rejected (s : DocumentManager.state) :
  Eff.trace (DocumentManager.fetchDocuments (Rejected error) s) =
  [Request "GET" (API ++ "/documents") NoBody;
   ConsoleError "Failed to fetch documents:";
   ToastError "Failed to load documents"].
Proof. reflexivity. Qed.

Lemma DocumentManager_fetchAiProviders_rejected (s : DocumentManager.state) :
  DocumentManager.fetchAiProviders (Rejected error) s =
  (Normal tt, s,
   [Request "GET" (API ++ "/ai/providers") NoBody;
    ConsoleError "Failed to fetch AI providers:"]).
Proof. reflexivity. Qed.

Lemma downloadDocument_rejected (docId filename : string) (s : DocumentManager.state) :
  Eff.trace (DocumentManager.downloadDocument docId filename (Rejected error) s) =
  [Request "GET" (API ++ "/documents/" ++ docId ++ "/download") NoBody;
   ConsoleError "Download error:";
   ToastError "Download failed"].
Proof. reflexivity. Qed.

Lemma deleteDocument_rejected (docId filename : string) (listed : reply (list Doc.t))
    (s : DocumentManager.state) :
  Eff.trace (DocumentManager.deleteDocument docId filename true (Rejected error) listed s) =
  [WindowConfirm ("Are you sure you want to delete " ++ dq ++ filename ++ dq ++ "?");
   Request "DELETE" (API ++ "/documents/" ++ docId) NoBody;
   ConsoleError "Delete error:";
   ToastError "Failed to delete document"].
Proof. reflexivity. Qed.

Lemma performAiTask_rejected (doc : Doc.t) (opened : bool) (s : DocumentManager.state) :
  DocumentManager.selectedDocument s = Some doc ->
  error_toasts (Eff.trace (DocumentManager.performAiTask (Rejected error) opened s)) =
  [ToastError ("AI task failed: " ++ Exn.text error)].
Proof.
  intros Hd. unfold DocumentManager.performAiTask. run_eff. rewrite Hd. reflexivity.
Qed.

Lemma Dashboard_fetch_rejected (random1 random2 : Q) (s : Dashboard.state) :
  Eff.trace (Dashboard.fetchDashboardData (Rejected error) random1 random2 s) =
  [Request "GET" (API ++ "/documents") NoBody;
   ConsoleError "Failed to fetch dashboard data:";
   ToastError "Failed to load dashboard data"].
Proof. reflexivity. Qed.

Lemma AIChat_fetchDocuments_rejected (s : AIChat.state) :
  Eff.trace (AIChat.fetchDocuments (Rejected error) s) =
  [Request "GET" (API ++ "/documents") NoBody;
   ConsoleError "Failed to fetch documents:";
   ToastError "Failed to load documents"].
Proof. reflexivity. Qed.

Lemma AIChat_fetchAiProviders_rejected (s : AIChat.state) :
  AIChat.fetchAiProviders (Rejected error) s =
  (Normal tt, s,
   [Request "GET" (API ++ "/ai/providers") NoBody;
    ConsoleError "Failed to fetch AI providers:"]).
Proof. reflexivity. Qed.

End Failures.

(** ** Sending a chat message *)

Section Sending.
Context `{Host} (now later : string).

Lemma sendMessage_blocked (r : reply ChatResponse.t) (s : AIChat.state) :
  JS.trim (AIChat.inputMessage s) = "" \/ AIChat.isLoading s = true ->
  AIChat.sendMessage now r later s = (Normal tt, s, []).
Proof.
  intros G. unfold AIChat.sendMessage. run_eff.
  destruct G as [-> | ->]; [reflexivity|].
  now rewrite orb_true_r.
Qed.

Lemma sendMessage_fulfilled (data : ChatResponse.t) (s : AIChat.state) :
  JS.trim (AIChat.inputMessage s) <> "" -> AIChat.isLoading s = false ->
  let run := AIChat.sendMessage now (Fulfilled data) later s in
  let newMessages := (AIChat.messages s ++ [AIChat.userMessage (AIChat.inputMessage s) now])%list in
  Eff.trace run =
    [Request "POST" (API ++ "/ai/chat") (ChatBody (AIChat.chatRequest s newMessages)); Focus] /\
  AIChat.messages (Eff.final_state run) =
    (newMessages ++ [AIChat.assistantMessage data])%list.
Proof.
  intros Hin Hl. cbv zeta. unfold AIChat.sendMessage. run_eff. rewrite Hl.
  destruct (JS.trim (AIChat.inputMessage s)) eqn:E; [congruence|].
  split; reflexivity.
Qed.

Lemma sendMessage_rejected (error : Exn.t) (s : AIChat.state) :
  JS.trim (AIChat.inputMessage s) <> "" -> AIChat.isLoading s = false ->
  let run := AIChat.sendMessage now (Rejected error) later s in
  let newMessages := (AIChat.messages s ++ [AIChat.userMessage (AIChat.inputMessage s) now])%list in
  Eff.trace run =
    [Request "POST" (API ++ "/ai/chat") (ChatBody (AIChat.chatRequest s newMessages));
     ConsoleError "Chat error:"; ToastError "Chat request failed"; Focus] /\
  AIChat.messages (Eff.final_state run) =
    (newMessages ++ [AIChat.errorMessage error later])%list.
Proof.
  intros Hin Hl. cbv zeta. unfold AIChat.sendMessage. run_eff. rewrite Hl.
  destruct (JS.trim (AIChat.inputMessage s)) eqn:E; [congruence|].
  split; reflexivity.
Qed.

End Sending.

(** The claim C3 states that every failed request raises an error toast.
    A failed fetch of the AI providers, in the document manager and in the
    chat, is a failed request after which no toast is shown. *)
Lemma C3_provider_fetch_counterexample :
  let dm := Eff.trace (@DocumentManager.fetchAiProviders Demo.host
                         (Rejected Demo.offline) DocumentManager.initial) in
  let chat := Eff.trace (@AIChat.fetchAiProviders Demo.host
                           (Rejected Demo.offline) AIChat.initial) in
  ~ (requests dm <> [] -> error_toasts dm <> []) /\
  ~ (requests chat <> [] -> error_toasts chat <> []).
Proof.
  split; intros C; apply C; try discriminate; reflexivity.
Qed.

(** C3 (amended). A request that fails raises exactly one error toast when
    it is the document list fetch (document manager, chat and dashboard), an
    upload, a download, a delete, an AI task or a chat message.  The fetch
    of the AI providers is the exception, in both components that make it:
    its failure is written to the console and nothing else happens. *)
Theorem C3_failed_requests_toast `{Host} (error : Exn.t) :
  (forall s,
     error_toasts (Eff.trace (DocumentManager.fetchDocuments (Rejected error) s)) =
       [ToastError "Failed to load documents"]) /\
  (forall name size rest listed s,
     error_toasts
       (Eff.trace (DocumentManager.onDrop (File.make name "application/pdf" size :: rest)
                     (Rejected error) listed s)) =
       [ToastError ("Upload failed: " ++ Exn.text error)]) /\
  (forall docId filename s,
     error_toasts
       (Eff.trace (DocumentManager.downloadDocument docId filename (Rejected error) s)) =
       [ToastError "Download failed"]) /\
  (forall docId filename listed s,
     error_toasts
       (Eff.trace (DocumentManager.deleteDocument docId filename true
                     (Rejected error) listed s)) =
       [ToastError "Failed to delete document"]) /\
  (forall doc opened s,
     DocumentManager.selectedDocument s = Some doc ->
     error_toasts (Eff.trace (DocumentManager.performAiTask (Rejected error) opened s)) =
       [ToastError ("AI task failed: " ++ Exn.text error)]) /\
  (forall now later s,
     JS.trim (AIChat.inputMessage s) <> "" -> AIChat.isLoading s = false ->
     error_toasts (Eff.trace (AIChat.sendMessage now (Rejected error) later s)) =
       [ToastError "Chat request failed"]) /\
  (forall s,
     error_toasts (Eff.trace (AIChat.fetchDocuments (Rejected error) s)) =
       [ToastError "Failed to load documents"]) /\
  (forall random1 random2 s,
     error_toasts
       (Eff.trace (Dashboard.fetchDashboardData (Rejected error) random1 random2 s)) =
       [ToastError "Failed to load dashboard data"]) /\
  (forall s,
     DocumentManager.fetchAiProviders (Rejected error) s =
       (Normal tt, s,
        [Request "GET" (API ++ "/ai/providers") NoBody;
         ConsoleError "Failed to fetch AI providers:"])) /\
  (forall s,
     AIChat.fetchAiProviders (Rejected error) s =
       (Normal tt, s,
        [Request "GET" (API ++ "/ai/providers") NoBody;
         ConsoleError "Failed to fetch AI providers:"])).
Proof.
  repeat apply conj; try reflexivity.
  - intros. now apply performAiTask_rejected with doc.
  - intros now later s Hin Hl.
    destruct (sendMessage_rejected now later error s Hin Hl) as [-> _]. reflexivity.
Qed.

(** A chat message and an AI task that the backend refuses. *)
Lemma C3_failed_requests_toast_witness :
  error_toasts
    (Eff.trace (@AIChat.sendMessage Demo.host "2024-06-01T12:00:00.000Z"
                  (Rejected Demo.refused) "2024-06-01T12:00:03.000Z"
                  (Eff.final_state (AIChat.setInputMessage " summarise this " AIChat.initial))))
  = [ToastError "Chat request failed"] /\
  error_toasts
    (Eff.trace (@DocumentManager.performAiTask Demo.host (Rejected Demo.refused) true
       (DocumentManager.make Demo.library false false "" (Some Demo.report) "grid"
          "upload_date" [] true "summarize" "" "openai" "gpt-4o-mini" false)))
  = [ToastError "AI task failed: Quota exceeded"].
Proof.
  split.
  - apply (@C3_failed_requests_toast Demo.host Demo.refused); [discriminate|reflexivity].
  - apply (@C3_failed_requests_toast Demo.host Demo.refused) with (doc := Demo.report).
    reflexivity.
Defined.

(** ** The dashboard *)

Lemma reduce_sizes (documents : list Doc.t) (start : Z) :
  JS.reduce (fun total doc => total + Doc.size doc) start documents
  = start + total_size documents.
Proof.
  unfold JS.reduce, total_size. revert start.
  induction documents as [|d documents IH]; intros start; simpl; [lia|].
  rewrite IH. lia.
Qed.

(** C4. On mount the dashboard makes one request, the fetch of the
    document list, and from a response [documents] it shows: under "Total
    Documents" the number of documents; under "Storage Used" the sum of
    their sizes (formatted); under "AI Conversations" and "AI Tasks
    Completed" the floors of a random draw times 50 and times 100, which
    are the same whatever the response; and as recent documents the first
    five documents of the response, all of them when there are fewer. *)
Theorem C4_dashboard_statistics `{Host}
    (documents : list Doc.t) (random1 random2 : Q) :
  let run := Dashboard.mount (Fulfilled documents) random1 random2 Dashboard.initial in
  let s := Eff.final_state run in
  Eff.trace run = [Request "GET" (API ++ "/documents") NoBody] /\
  Dashboard.cards s =
    [ ("Total Documents", Dashboard.Count (Z.of_nat (length documents)));
      ("AI Conversations", Dashboard.Count (Qfloor (random1 * 50)));
      ("AI Tasks Completed", Dashboard.Count (Qfloor (random2 * 100)));
      ("Storage Used", Dashboard.Text (formatBytes (total_size documents))) ] /\
  (forall other : list Doc.t,
     let s' := Eff.final_state
                 (Dashboard.mount (Fulfilled other) random1 random2 Dashboard.initial) in
     Dashboard.totalChats (Dashboard.stats s') = Dashboard.totalChats (Dashboard.stats s) /\
     Dashboard.aiTasks (Dashboard.stats s') = Dashboard.aiTasks (Dashboard.stats s)) /\
  Dashboard.recentRows s = firstn 5 documents /\
  (length (Dashboard.recentRows s) <= 5)%nat.
Proof.
  cbv zeta. repeat apply conj; try reflexivity.
  - unfold Dashboard.cards, Dashboard.mount, Dashboard.fetchDashboardData,
      Dashboard.setStats, Dashboard.setRecentDocuments, Dashboard.setLoading.
    run_eff. cbn [Dashboard.stats Dashboard.totalDocuments Dashboard.totalChats
                  Dashboard.aiTasks Dashboard.storageUsed].
    now rewrite reduce_sizes.
  - intros other. split; reflexivity.
  - change (length (firstn 5 documents) <= 5)%nat. apply firstn_le_length.
Qed.

(** Three documents: all three are recent, and the storage is their sum. *)
Example dashboard_of_library :
  let s := Eff.final_state
             (@Dashboard.mount Demo.host (Fulfilled Demo.library) (37 # 100) (4 # 5)
                Dashboard.initial) in
  (Dashboard.cards s, map Doc.id (Dashboard.recentRows s)) =
  ([ ("Total Documents", Dashboard.Count 3);
     ("AI Conversations", Dashboard.Count 18);
     ("AI Tasks Completed", Dashboard.Count 80);
     ("Storage Used", Dashboard.Text "1 MB") ],
   ["d1"; "d2"; "d3"]).
Proof. reflexivity. Qed.

(** ** AI tasks *)







(** The body the handler posts for a state in which [doc] is selected. *)
Lemma performAiTask_requests `{Host}
    (r : reply TaskResponse.t) (opened : bool) (doc : Doc.t) (s : DocumentManager.state) :
  DocumentManager.selectedDocument s = Some doc ->
  requests (Eff.trace (DocumentManager.performAiTask r opened s)) =
  [Request "POST" (API ++ "/ai/tasks")
     (TaskBody
        (TaskRequest.make (Doc.id doc) (DocumentManager.aiTaskType s)
           match DocumentManager.aiTaskInstructions s with
           | EmptyString => None
           | instructions => Some instructions
           end
           (DocumentManager.aiTaskProvider s) (DocumentManager.aiTaskModel s)))].
Proof.
  intros Hd. unfold DocumentManager.performAiTask, DocumentManager.window_open_write.
  run_eff. rewrite Hd.
  destruct (DocumentManager.aiTaskInstructions s); destruct r; destruct opened; reflexivity.
Qed.





(** ** While a request is pending *)

Section Pending.
Context `{Host}.

(** The first turn of a send that goes out. *)
Lemma sendMessage_begin_run (now : string) (s : AIChat.state) :
  JS.trim (AIChat.inputMessage s) <> "" -> AIChat.isLoading s = false ->
  let run := AIChat.sendMessage_begin now s in
  let newMessages := (AIChat.messages s ++ [AIChat.userMessage (AIChat.inputMessage s) now])%list in
  Eff.trace run =
    [Request "POST" (API ++ "/ai/chat") (ChatBody (AIChat.chatRequest s newMessages))] /\
  AIChat.messages (Eff.final_state run) = newMessages /\
  AIChat.isLoading (Eff.final_state run) = true.
Proof.
  intros Hin Hl. cbv zeta. unfold AIChat.sendMessage_begin. run_eff. rewrite Hl.
  destruct (JS.trim (AIChat.inputMessage s)) eqn:E; [congruence|].
  repeat split.
Qed.

(** The second turn appends to the transcript it finds. *)
Lemma sendMessage_settle_run (r : reply ChatResponse.t) (later : string) (t : AIChat.state) :
  let t' := Eff.final_state (AIChat.sendMessage_settle r later t) in
  AIChat.messages t' = (AIChat.messages t ++ [replyMessage r later])%list /\
  AIChat.isLoading t' = false /\
  AIChat.inputMessage t' = AIChat.inputMessage t /\
  AIChat.selectedDocument t' = AIChat.selectedDocument t.
Proof. destruct r; repeat split. Qed.

(** One action while a request is pending: the request stays pending, and
    the transcript changes only by a confirmed clear of more than one
    message. *)
Lemma pending_step (a : AIChat.action) (t : AIChat.state) :
  AIChat.settles a = false -> AIChat.isLoading t = true ->
  AIChat.isLoading (AIChat.step t a) = true /\
  (AIChat.messages (AIChat.step t a) = AIChat.messages t \/
   exists cleared,
     a = AIChat.Clear true cleared /\ (1 < length (AIChat.messages t))%nat /\
     AIChat.messages (AIChat.step t a) = [AIChat.welcomeMessage cleared]).
Proof.
  intros Hs Hl. unfold AIChat.step.
  destruct a as [now r later|now|r later|confirmed now|text|d|p|m|q|b|[docs|error]];
    try discriminate Hs; cbn [AIChat.perform];
    try (split; [exact Hl|left; reflexivity]).
  - rewrite sendMessage_blocked by now right. split; [exact Hl|left; reflexivity].
  - unfold AIChat.sendMessage_begin. run_eff. rewrite Hl, orb_true_r.
    split; [exact Hl|left; reflexivity].
  - unfold AIChat.clearChat. run_eff.
    destruct (Nat.leb_spec (length (AIChat.messages t)) 1) as [Hn|Hn];
      [split; [exact Hl|left; reflexivity]|].
    destruct confirmed; (split; [exact Hl|]); [right|left; reflexivity].
    exists now. repeat split. exact Hn.
Qed.

Lemma pending_quiet (between : list AIChat.action) (t : AIChat.state) :
  none_settles between = true -> none_clears between = true ->
  AIChat.isLoading t = true ->
  AIChat.isLoading (fold_left AIChat.step between t) = true /\
  AIChat.messages (fold_left AIChat.step between t) = AIChat.messages t.
Proof.
  revert t. induction between as [|a between IH]; intros t Hs Hc Hl; [now split|].
  cbn [none_settles none_clears forallb] in Hs, Hc.
  apply andb_true_iff in Hs as [Hs Hs']. apply andb_true_iff in Hc as [Hc Hc'].
  apply negb_true_iff in Hs, Hc.
  destruct (pending_step a t Hs Hl) as [Hl' [Em|(cleared & -> & _)]];
    [|discriminate Hc].
  cbn [fold_left]. destruct (IH (AIChat.step t a) Hs' Hc' Hl') as [Hl'' Em'].
  split; [exact Hl''|]. now rewrite Em'.
Qed.

Lemma pending_short (between : list AIChat.action) (t : AIChat.state) :
  none_settles between = true -> AIChat.isLoading t = true ->
  (length (AIChat.messages t) <= 1)%nat ->
  AIChat.messages (fold_left AIChat.step between t) = AIChat.messages t.
Proof.
  revert t. induction between as [|a between IH]; intros t Hs Hl Hn; [reflexivity|].
  cbn [none_settles forallb] in Hs. apply andb_true_iff in Hs as [Hs Hs'].
  apply negb_true_iff in Hs.
  destruct (pending_step a t Hs Hl) as [Hl' [Em|(cleared & _ & Hlt & _)]]; [|lia].
  cbn [fold_left]. rewrite IH; [exact Em|exact Hs'|exact Hl'|now rewrite Em].
Qed.

(** The first confirmed clear decides: later ones find one message. *)
Lemma pending_cleared (before after : list AIChat.action) (cleared : string)
    (t : AIChat.state) :
  none_settles (before ++ AIChat.Clear true cleared :: after) = true ->
  none_clears before = true ->
  AIChat.isLoading t = true -> (1 < length (AIChat.messages t))%nat ->
  AIChat.messages (fold_left AIChat.step (before ++ AIChat.Clear true cleared :: after) t) =
  [AIChat.welcomeMessage cleared].
Proof.
  intros Hs Hc Hl Hn. unfold none_settles in Hs. rewrite forallb_app in Hs.
  apply andb_true_iff in Hs as [Hsb Hsa]. cbn [forallb] in Hsa.
  apply andb_true_iff in Hsa as [_ Hsa].
  rewrite fold_left_app. cbn [fold_left].
  destruct (pending_quiet before t Hsb Hc Hl) as [Hl' Em].
  set (t' := fold_left AIChat.step before t) in *.
  destruct (pending_step (AIChat.Clear true cleared) t' eq_refl Hl')
    as [Hl'' [Ek|(c & [= <-] & _ & Ew)]].
  - exfalso. revert Ek. unfold AIChat.step. cbn [AIChat.perform].
    unfold AIChat.clearChat. run_eff.
    destruct (Nat.leb_spec (length (AIChat.messages t')) 1) as [Hn'|Hn'];
      [rewrite Em in Hn'; lia|].
    cbn. intros Ek. rewrite <- Ek in Hn'. cbn in Hn'. lia.
  - rewrite pending_short; [exact Ew|exact Hsa|exact Hl''|now rewrite Ew].
Qed.

Lemma pending_run (between : list AIChat.action) (t : AIChat.state) :
  none_settles between = true -> AIChat.isLoading t = true ->
  AIChat.isLoading (fold_left AIChat.step between t) = true /\
  (AIChat.messages (fold_left AIChat.step between t) = AIChat.messages t \/
   exists cleared,
     AIChat.messages (fold_left AIChat.step between t) = [AIChat.welcomeMessage cleared]).
Proof.
  revert t. induction between as [|a between IH]; intros t Hs Hl; [split; [exact Hl|now left]|].
  cbn [none_settles forallb] in Hs. apply andb_true_iff in Hs as [Hs Hs'].
  apply negb_true_iff in Hs.
  destruct (pending_step a t Hs Hl) as [Hl' Hm]. cbn [fold_left].
  destruct (IH (AIChat.step t a) Hs' Hl') as [Hl'' [Em|(c & Ec)]].
  - split; [exact Hl''|]. rewrite Em.
    destruct Hm as [Ek|(c & _ & _ & Ew)]; [now left|right; now exists c].
  - split; [exact Hl''|]. right. now exists c.
Qed.

End Pending.

(** The claim C5 states that every send of a non-blank input grows the
    transcript by two messages.  While a request is in flight the handler
    returns at once: the transcript keeps its length. *)
Lemma C5_in_flight_counterexample :
  let run := @AIChat.sendMessage Demo.host "2024-06-01T12:00:00.000Z"
               (Fulfilled Demo.answer) "2024-06-01T12:00:03.000Z" Demo.waiting in
  ~ (JS.trim (AIChat.inputMessage Demo.waiting) <> "" ->
     length (AIChat.messages (Eff.final_state run)) =
       (length (AIChat.messages Demo.waiting) + 2)%nat).
Proof.
  intros run C. assert (N : JS.trim (AIChat.inputMessage Demo.waiting) <> "") by discriminate.
  specialize (C N). vm_compute in C. discriminate.
Qed.

(** C5 (amended). For a non-blank input and no request in flight,
    [sendMessage] appends one user message with the trimmed input and posts
    one request to the chat endpoint with the whole transcript including
    that message (role, content and timestamp of each entry), the provider,
    the model, the temperature and the id of the selected document if there
    is one.  Until the request settles the chat stays in the loading
    state, so that no other request goes out and none settles in between.
    When the request settles, whatever the user did in between, it appends
    one message to the transcript it finds: the assistant message of the
    response, or, when the request fails, an assistant message flagged as
    an error.  If the chat was not cleared in between,
    the transcript is then the old one followed by these two messages, and
    has grown by exactly two; in particular so when nothing runs in
    between, which is [sendMessage] run as a whole (the two turns one
    after the other give the state the whole handler gives).  If a clear was
    confirmed in between (of a chat whose transcript was not empty), the
    transcript is the welcome message of the first such clear followed by
    the reply.  While a request is in flight
    the handler does nothing. *)
Theorem C5_sendMessage_round `{Host}
    (now later : string) (r : reply ChatResponse.t) (s : AIChat.state)
    (between : list AIChat.action) :
  let run := AIChat.sendMessage now r later s in
  let userMessage :=
    Msg.make "user" (JS.trim (AIChat.inputMessage s)) now None None false in
  let transcript := (AIChat.messages s ++ [userMessage])%list in
  let answer :=
    match r with
    | Fulfilled data =>
        Msg.make "assistant"
          (ChatResponse.message_content data) (ChatResponse.message_timestamp data)
          (Some (ChatResponse.model_used data))
          (Some (ChatResponse.processing_time data)) false
    | Rejected error =>
        Msg.make "assistant"
          ("Sorry, I encountered an error: " ++ Exn.text error
           ++ ". Please try again or check your settings.")
          later None None true
    end in
  let request :=
    Request "POST" (API ++ "/ai/chat")
      (ChatBody
         (ChatRequest.make (map Turn.of_msg transcript)
            (AIChat.currentProvider s) (AIChat.currentModel s) (AIChat.temperature s)
            (option_map Doc.id (AIChat.selectedDocument s)))) in
  let posted := AIChat.sendMessage_begin now s in
  let pending := fold_left AIChat.step between (Eff.final_state posted) in
  let done := Eff.final_state (AIChat.sendMessage_settle r later pending) in
  (JS.trim (AIChat.inputMessage s) <> "" -> AIChat.isLoading s = false ->
     requests (Eff.trace run) = [request] /\
     (forall data, r = Fulfilled data ->
        AIChat.messages (Eff.final_state run) =
          (transcript ++
           [Msg.make "assistant"
              (ChatResponse.message_content data) (ChatResponse.message_timestamp data)
              (Some (ChatResponse.model_used data))
              (Some (ChatResponse.processing_time data)) false])%list) /\
     (forall error, r = Rejected error ->
        exists failure,
          AIChat.messages (Eff.final_state run) = (transcript ++ [failure])%list /\
          Msg.role failure = "assistant" /\ Msg.isError failure = true) /\
     length (AIChat.messages (Eff.final_state run)) =
       (length (AIChat.messages s) + 2)%nat /\
     Eff.trace posted = [request] /\
     AIChat.messages (Eff.final_state posted) = transcript /\
     (between = [] -> Eff.final_state run = done) /\
     (none_settles between = true ->
        AIChat.isLoading pending = true /\
        AIChat.messages done = (AIChat.messages pending ++ [answer])%list /\
        AIChat.isLoading done = false /\
        (none_clears between = true ->
           AIChat.messages done = (transcript ++ [answer])%list /\
           length (AIChat.messages done) = (length (AIChat.messages s) + 2)%nat) /\
        (forall before cleared after,
           between = (before ++ AIChat.Clear true cleared :: after)%list ->
           none_clears before = true -> AIChat.messages s <> [] ->
           AIChat.messages done = [AIChat.welcomeMessage cleared; answer]))) /\
  (AIChat.isLoading s = true -> run = (Normal tt, s, [])).
Proof.
  cbv zeta. split; [|intros Hl; apply sendMessage_blocked; now right].
  intros Hin Hl.
  assert (Hreq : forall newMessages,
            AIChat.chatRequest s newMessages =
            ChatRequest.make (map Turn.of_msg newMessages)
              (AIChat.currentProvider s) (AIChat.currentModel s) (AIChat.temperature s)
              (option_map Doc.id (AIChat.selectedDocument s))).
  { intros. unfold AIChat.chatRequest. now destruct (AIChat.selectedDocument s). }
  destruct (sendMessage_begin_run now s Hin Hl) as (Pt & Pm & Pl).
  assert (whole :
            requests (Eff.trace (AIChat.sendMessage now r later s)) =
              [Request "POST" (API ++ "/ai/chat")
                 (ChatBody
                    (AIChat.chatRequest s
                       (AIChat.messages s ++
                        [AIChat.userMessage (AIChat.inputMessage s) now])%list))] /\
            AIChat.messages (Eff.final_state (AIChat.sendMessage now r later s)) =
              ((AIChat.messages s ++ [AIChat.userMessage (AIChat.inputMessage s) now]) ++
               [replyMessage r later])%list).
  { destruct r as [data|error].
    - destruct (sendMessage_fulfilled now later data s Hin Hl) as [-> ->]. now split.
    - destruct (sendMessage_rejected now later error s Hin Hl) as [-> ->]. now split. }
  assert (turns : between = [] ->
            Eff.final_state (AIChat.sendMessage now r later s) =
            Eff.final_state
              (AIChat.sendMessage_settle r later
                 (fold_left AIChat.step between
                    (Eff.final_state (AIChat.sendMessage_begin now s))))).
  { intros ->. cbn [fold_left].
    unfold AIChat.sendMessage, AIChat.sendMessage_begin, AIChat.sendMessage_settle.
    run_eff. rewrite Hl.
    destruct (JS.trim (AIChat.inputMessage s)) eqn:E; [congruence|].
    destruct r; reflexivity. }
  destruct whole as [Wt Wm]. rewrite Wt, Wm, Pt, Pm, Hreq.
  repeat apply conj; try reflexivity.
  - now intros data ->.
  - intros error ->. eexists. repeat split.
  - rewrite !length_app. simpl. lia.
  - exact turns.
  - intros Hs.
    set (pending := fold_left AIChat.step between
                      (Eff.final_state (AIChat.sendMessage_begin now s))).
    destruct (sendMessage_settle_run r later pending) as (Sm & Sl & _).
    assert (Ea : replyMessage r later =
                 match r with
                 | Fulfilled data => AIChat.assistantMessage data
                 | Rejected error => AIChat.errorMessage error later
                 end) by reflexivity.
    rewrite Sm. repeat apply conj.
    + apply (pending_run between _ Hs Pl).
    + now destruct r.
    + exact Sl.
    + intros Hc. destruct (pending_quiet between _ Hs Hc Pl) as [_ Eq].
      fold pending in Eq. rewrite Eq, Pm. split; [now destruct r|].
      rewrite !length_app. simpl. lia.
    + intros before cleared after -> Hc Hne.
      unfold pending. rewrite pending_cleared; [now destruct r|exact Hs|exact Hc|exact Pl|].
      rewrite Pm, length_app. cbn [length].
      destruct (AIChat.messages s); [congruence|cbn [length]; lia].
Qed.

(** A question about the report, typed with white space around it; while
    the request is pending the user types the next question and picks
    another document. *)
Lemma C5_sendMessage_round_witness :
  let s := AIChat.make [AIChat.welcomeMessage "2024-06-01T11:59:00.000Z"]
             "  What is this about? " false (Some Demo.report) Demo.library []
             "openai" "gpt-4o-mini" (7 # 10) false false in
  let run := @AIChat.sendMessage Demo.host "2024-06-01T12:00:00.000Z"
               (Fulfilled Demo.answer) "2024-06-01T12:00:03.000Z" s in
  let between := [AIChat.Type_ "And the second quarter?";
                  AIChat.SelectDocument (Some Demo.invoice)] in
  let pending := fold_left (@AIChat.step Demo.host) between
                   (Eff.final_state
                      (@AIChat.sendMessage_begin Demo.host "2024-06-01T12:00:00.000Z" s)) in
  let done := Eff.final_state
                (AIChat.sendMessage_settle (Fulfilled Demo.answer)
                   "2024-06-01T12:00:03.000Z" pending) in
  length (AIChat.messages (Eff.final_state run)) = 3%nat /\
  length (AIChat.messages done) = 3%nat /\
  map Msg.content (AIChat.messages (Eff.final_state run)) =
    [AIChat.welcomeContent; "What is this about?"; "It covers the first quarter."].
Proof.
  intros s run between pending done.
  destruct (@C5_sendMessage_round Demo.host "2024-06-01T12:00:00.000Z"
              "2024-06-01T12:00:03.000Z" (Fulfilled Demo.answer) s between)
    as [round _].
  destruct (round ltac:(discriminate) eq_refl) as (_ & _ & _ & grown & _ & _ & _ & turns).
  destruct (turns eq_refl) as (_ & _ & _ & quiet & _).
  destruct (quiet eq_refl) as [_ grown'].
  split; [exact grown|]. split; [exact grown'|reflexivity].
Defined.

(** ** The transcript *)

Section Transcript.
Context `{Host}.

Lemma sendMessage_appends (now later : string) (r : reply ChatResponse.t) (s : AIChat.state) :
  exists added,
    AIChat.messages (Eff.final_state (AIChat.sendMessage now r later s)) =
    (AIChat.messages s ++ added)%list.
Proof.
  destruct (AIChat.isLoading s) eqn:Hl.
  - exists []. rewrite sendMessage_blocked by now right.
    unfold Eff.final_state. simpl. now rewrite app_nil_r.
  - destruct (string_dec (JS.trim (AIChat.inputMessage s)) "") as [Hin|Hin].
    + exists []. rewrite sendMessage_blocked by now left.
      unfold Eff.final_state. simpl. now rewrite app_nil_r.
    + destruct r as [data|error].
      * destruct (sendMessage_fulfilled now later data s Hin Hl) as [_ ->].
        rewrite <- app_assoc. now eexists.
      * destruct (sendMessage_rejected now later error s Hin Hl) as [_ ->].
        rewrite <- app_assoc. now eexists.
Qed.

(** [sendMessage] is its two turns, one after the other. *)
Lemma sendMessage_turns (now later : string) (r : reply ChatResponse.t) (s : AIChat.state) :
  AIChat.sendMessage now r later s =
  Eff.bind (AIChat.sendMessage_begin now)
    (fun issued : bool =>
       if issued then AIChat.sendMessage_settle r later else Eff.ret tt) s.
Proof.
  unfold AIChat.sendMessage, AIChat.sendMessage_begin, AIChat.sendMessage_settle.
  run_eff.
  destruct (negb (JS.truthy (JS.trim (AIChat.inputMessage s))) || AIChat.isLoading s);
    [reflexivity|].
  destruct r; reflexivity.
Qed.

Lemma sendMessage_begin_appends (now : string) (s : AIChat.state) :
  exists added,
    AIChat.messages (Eff.final_state (AIChat.sendMessage_begin now s)) =
    (AIChat.messages s ++ added)%list.
Proof.
  unfold AIChat.sendMessage_begin. run_eff.
  destruct (negb (JS.truthy (JS.trim (AIChat.inputMessage s))) || AIChat.isLoading s).
  - exists []. simpl. now rewrite app_nil_r.
  - now eexists.
Qed.

Lemma sendMessage_settle_appends (r : reply ChatResponse.t) (later : string)
    (s : AIChat.state) :
  exists added,
    AIChat.messages (Eff.final_state (AIChat.sendMessage_settle r later s)) =
    (AIChat.messages s ++ added)%list.
Proof. destruct r; now eexists. Qed.

Lemma clearChat_short (confirmed : bool) (now : string) (s : AIChat.state) :
  (length (AIChat.messages s) <= 1)%nat ->
  AIChat.clearChat confirmed now s = (Normal tt, s, []).
Proof.
  intros Hn. unfold AIChat.clearChat. run_eff.
  destruct (Nat.leb_spec (length (AIChat.messages s)) 1); [reflexivity|lia].
Qed.

Lemma clearChat_confirmed (now : string) (s : AIChat.state) :
  (1 < length (AIChat.messages s))%nat ->
  let s' := Eff.final_state (AIChat.clearChat true now s) in
  AIChat.messages s' = [AIChat.welcomeMessage now] /\
  AIChat.selectedDocument s' = None.
Proof.
  intros Hn. cbv zeta. unfold AIChat.clearChat. run_eff.
  destruct (Nat.leb_spec (length (AIChat.messages s)) 1); [lia|].
  split; reflexivity.
Qed.

Lemma clearChat_declined (now : string) (s : AIChat.state) :
  Eff.final_state (AIChat.clearChat false now s) = s.
Proof.
  unfold AIChat.clearChat. run_eff.
  destruct (length (AIChat.messages s) <=? 1)%nat; reflexivity.
Qed.

Lemma step_keeps_welcome (s : AIChat.state) (a : AIChat.action) :
  opens_with_welcome (AIChat.messages s) ->
  opens_with_welcome (AIChat.messages (AIChat.step s a)).
Proof.
  intros (t0 & rest & E). unfold AIChat.step.
  destruct a as [now r later|now|r later|confirmed now| | | | | | |[docs|error]];
    try (exists t0, rest; exact E).
  - cbn [AIChat.perform].
    destruct (sendMessage_appends now later r s) as (added & ->).
    rewrite E. now exists t0, (rest ++ added)%list.
  - assert (Em : AIChat.messages (Eff.final_state (AIChat.perform (AIChat.Begin now) s)) =
                 AIChat.messages (Eff.final_state (AIChat.sendMessage_begin now s))).
    { cbn [AIChat.perform]. unfold AIChat.sendMessage_begin. run_eff.
      now destruct (negb (JS.truthy (JS.trim (AIChat.inputMessage s)))
                    || AIChat.isLoading s). }
    rewrite Em. destruct (sendMessage_begin_appends now s) as (added & ->).
    rewrite E. now exists t0, (rest ++ added)%list.
  - cbn [AIChat.perform].
    destruct (sendMessage_settle_appends r later s) as (added & ->).
    rewrite E. now exists t0, (rest ++ added)%list.
  - cbn [AIChat.perform]. destruct confirmed.
    + destruct (Nat.leb_spec (length (AIChat.messages s)) 1) as [Hn|Hn].
      * rewrite clearChat_short by exact Hn. now exists t0, rest.
      * destruct (clearChat_confirmed now s Hn) as [-> _]. now exists now, [].
    + rewrite clearChat_declined. now exists t0, rest.
Qed.

Lemma reachable_opens_with_welcome (s : AIChat.state) :
  AIChat.reachable s -> opens_with_welcome (AIChat.messages s).
Proof.
  induction 1 as [docs provs now|s a _ IH].
  - exists now, []. destruct docs, provs; reflexivity.
  - now apply step_keeps_welcome.
Qed.

End Transcript.

(** C10. In every state of a mounted chat the transcript is not empty and
    its first message is the welcome message of the assistant.
    [initializeChat] sets the transcript to the welcome message alone.
    [sendMessage] changes nothing when the input is blank or a request is in
    flight, and in every case the old transcript is a prefix of the new one.
    [clearChat] changes nothing when the transcript has at most one message;
    otherwise, once confirmed, it leaves the welcome message alone in the
    transcript and no document selected, and when declined it leaves the
    state as it was. *)
Theorem C10_transcript_invariant `{Host} :
  (forall s, AIChat.reachable s ->
     AIChat.messages s <> [] /\
     exists now rest,
       AIChat.messages s = Msg.make "assistant" AIChat.welcomeContent now None None false :: rest) /\
  (forall now s,
     AIChat.messages (Eff.final_state (AIChat.initializeChat now s)) =
       [AIChat.welcomeMessage now]) /\
  (forall now r later s,
     JS.trim (AIChat.inputMessage s) = "" \/ AIChat.isLoading s = true ->
     AIChat.sendMessage now r later s = (Normal tt, s, [])) /\
  (forall now r later s,
     exists added,
       AIChat.messages (Eff.final_state (AIChat.sendMessage now r later s)) =
       (AIChat.messages s ++ added)%list) /\
  (forall confirmed now s,
     (length (AIChat.messages s) <= 1)%nat ->
     AIChat.clearChat confirmed now s = (Normal tt, s, [])) /\
  (forall now s,
     (1 < length (AIChat.messages s))%nat ->
     AIChat.messages (Eff.final_state (AIChat.clearChat true now s)) =
       [AIChat.welcomeMessage now] /\
     AIChat.selectedDocument (Eff.final_state (AIChat.clearChat true now s)) = None) /\
  (forall now s, Eff.final_state (AIChat.clearChat false now s) = s).
Proof.
  repeat apply conj.
  - intros s R. destruct (reachable_opens_with_welcome s R) as (now & rest & E).
    split; [rewrite E; discriminate|now exists now, rest].
  - reflexivity.
  - intros. now apply sendMessage_blocked.
  - intros. apply sendMessage_appends.
  - intros. now apply clearChat_short.
  - intros now s Hn. apply (clearChat_confirmed now s Hn).
  - intros. apply clearChat_declined.
Qed.

(** A clear confirmed while a request is in flight: the answer lands after
    the fresh welcome message. *)
Example clear_while_in_flight :
  let s0 := Eff.final_state
              (@AIChat.mount Demo.host (Fulfilled Demo.library) (Fulfilled [])
                 "2024-06-01T11:59:00.000Z" AIChat.initial) in
  let s1 := @AIChat.step Demo.host s0 (AIChat.Type_ "What is this about?") in
  let s2 := @AIChat.step Demo.host s1 (AIChat.Begin "2024-06-01T12:00:00.000Z") in
  let s3 := @AIChat.step Demo.host s2 (AIChat.Clear true "2024-06-01T12:00:01.000Z") in
  let s4 := @AIChat.step Demo.host s3
              (AIChat.Settle (Fulfilled Demo.answer) "2024-06-01T12:00:03.000Z") in
  (map (fun s => length (AIChat.messages s)) [s0; s1; s2; s3; s4],
   AIChat.isLoading s2, map Msg.content (AIChat.messages s4))
  = ([1; 1; 2; 1; 2]%nat, true,
     [AIChat.welcomeContent; "It covers the first quarter."]).
Proof. reflexivity. Qed.

(** A session: mount with both fetches failing, a question, its answer, a
    second question that fails, and a confirmed clear. *)
Lemma C10_transcript_invariant_witness :
  let s0 := Eff.final_state
              (@AIChat.mount Demo.host (Rejected Demo.offline) (Rejected Demo.offline)
                 "2024-06-01T11:59:00.000Z" AIChat.initial) in
  let s1 := @AIChat.step Demo.host s0 (AIChat.Type_ "What is this about?") in
  let s2 := @AIChat.step Demo.host s1
              (AIChat.Send "2024-06-01T12:00:00.000Z" (Fulfilled Demo.answer)
                 "2024-06-01T12:00:03.000Z") in
  let s3 := @AIChat.step Demo.host s2 (AIChat.Type_ "And the second quarter?") in
  let s4 := @AIChat.step Demo.host s3
              (AIChat.Send "2024-06-01T12:01:00.000Z" (Rejected Demo.refused)
                 "2024-06-01T12:01:01.000Z") in
  let s5 := @AIChat.step Demo.host s4 (AIChat.Clear true "2024-06-01T12:02:00.000Z") in
  map (fun s => length (AIChat.messages s)) [s0; s1; s2; s3; s4; s5]
    = [1; 1; 3; 3; 5; 1]%nat /\
  AIChat.messages s4 <> [] /\
  AIChat.messages s5 = [AIChat.welcomeMessage "2024-06-01T12:02:00.000Z"].
Proof.
  intros s0 s1 s2 s3 s4 s5. split; [reflexivity|]. split.
  - apply (@C10_transcript_invariant Demo.host).
    unfold s4, s3, s2, s1, s0. repeat apply AIChat.reachable_step.
    apply AIChat.reachable_mount.
  - apply (@C10_transcript_invariant Demo.host). vm_compute. lia.
Defined.

(* ===================================================================== *)
(** * Further properties of the code *)
(* ===================================================================== *)

(** ** Search and order of the document list *)

Lemma substring_of_trans (a b c : string) :
  substring_of a b -> substring_of b c -> substring_of a c.
Proof.
  intros (p & q & ->) (p' & q' & ->).
  exists (p' ++ p), (q ++ q'). now rewrite !append_assoc.
Qed.

Lemma matches_narrows `{Host} (shorter longer : string) (doc : Doc.t) :
  ci_substring_of shorter longer ->
  DocumentManager.matches longer doc = true ->
  DocumentManager.matches shorter doc = true.
Proof.
  intros Hsub. rewrite !matches_spec. unfold ci_substring_of in *.
  intros [Hf|(desc & E & Hd)].
  - left. now apply substring_of_trans with (JS.toLowerCase longer).
  - right. exists desc. split; [exact E|].
    now apply substring_of_trans with (JS.toLowerCase longer).
Qed.

Lemma filter_length_le {A} (f g : A -> bool) (l : list A) :
  (forall x, f x = true -> g x = true) ->
  (length (List.filter f l) <= length (List.filter g l))%nat.
Proof.
  intros Hfg. induction l as [|x l IH]; simpl; [lia|].
  destruct (f x) eqn:Ef.
  - rewrite (Hfg x Ef). simpl. lia.
  - destruct (g x); simpl; lia.
Qed.

(** X1. Typing more of a term narrows the search: when a term occurs in a
    longer one (case ignored), every document shown for the longer term is
    shown for the shorter one, and the list for the longer term is not the
    longer list. *)
Theorem search_narrows `{Host}
    (documents : list Doc.t) (shorter longer sortBy : string) :
  ci_substring_of shorter longer ->
  (forall d,
     In d (DocumentManager.filteredDocuments documents longer sortBy) ->
     In d (DocumentManager.filteredDocuments documents shorter sortBy)) /\
  (length (DocumentManager.filteredDocuments documents longer sortBy) <=
   length (DocumentManager.filteredDocuments documents shorter sortBy))%nat.
Proof.
  intros Hsub. split.
  - intros d Hd.
    apply (Permutation_in _ (filteredDocuments_Permutation documents shorter sortBy)).
    apply (Permutation_in _ (Permutation_sym
             (filteredDocuments_Permutation documents longer sortBy))) in Hd.
    apply filter_In in Hd as [Hin Hm]. apply filter_In. split; [exact Hin|].
    now apply matches_narrows with longer.
  - rewrite <- (Permutation_length (filteredDocuments_Permutation documents longer sortBy)).
    rewrite <- (Permutation_length (filteredDocuments_Permutation documents shorter sortBy)).
    apply filter_length_le. intros d. now apply matches_narrows.
Qed.

Lemma search_narrows_witness :
  (length (@DocumentManager.filteredDocuments Demo.host Demo.library "REPORT.PDF" "size") <=
   length (@DocumentManager.filteredDocuments Demo.host Demo.library "pdf" "size"))%nat.
Proof.
  apply (@search_narrows Demo.host Demo.library "pdf" "REPORT.PDF" "size").
  exists "report.", "". reflexivity.
Defined.

Lemma lower_char_idempotent (c : ascii) : JS.lower_char (JS.lower_char c) = JS.lower_char c.
Proof. destruct c as [[] [] [] [] [] [] [] []]; reflexivity. Qed.

Lemma toLowerCase_idempotent (s : string) :
  JS.toLowerCase (JS.toLowerCase s) = JS.toLowerCase s.
Proof.
  induction s as [|c s IH]; [reflexivity|].
  cbn [JS.toLowerCase]. now rewrite lower_char_idempotent, IH.
Qed.

Lemma filter_ext_all {A} (f g : A -> bool) (l : list A) :
  (forall x, f x = g x) -> List.filter f l = List.filter g l.
Proof.
  intros E. induction l as [|x l IH]; simpl; [reflexivity|].
  now rewrite E, IH.
Qed.

(** X2. The case of the letters of the search term does not matter: two
    terms with the same lower-case form give the same list, in the same
    order, and so does a term and its lower-case form. *)
Theorem search_ignores_case_of_term `{Host}
    (documents : list Doc.t) (term term' sortBy : string) :
  JS.toLowerCase term = JS.toLowerCase term' ->
  DocumentManager.filteredDocuments documents term sortBy =
    DocumentManager.filteredDocuments documents term' sortBy /\
  DocumentManager.filteredDocuments documents (JS.toLowerCase term) sortBy =
    DocumentManager.filteredDocuments documents term sortBy.
Proof.
  intros E. unfold DocumentManager.filteredDocuments. split; f_equal; apply filter_ext_all;
    intros d; unfold DocumentManager.matches.
  - now rewrite E.
  - now rewrite toLowerCase_idempotent.
Qed.

Lemma search_ignores_case_of_term_witness :
  @DocumentManager.filteredDocuments Demo.host Demo.library "Quarterly FIGURES" "filename" =
  @DocumentManager.filteredDocuments Demo.host Demo.library "quarterly figures" "filename".
Proof.
  apply (@search_ignores_case_of_term Demo.host Demo.library
           "Quarterly FIGURES" "quarterly figures" "filename").
  reflexivity.
Defined.

(** Sorting a list that is in order already. *)
Lemma sort_of_sorted {A} (comparefn : A -> A -> Z) (l : list A) :
  StronglySorted (not_after comparefn) l -> JS.sort comparefn l = l.
Proof.
  induction 1 as [|x l Hl IH Hx]; [reflexivity|].
  cbn [JS.sort]. rewrite IH. destruct l as [|y l]; [reflexivity|].
  cbn [JS.insert]. apply Forall_inv in Hx. unfold not_after in Hx.
  destruct (Z.leb_spec (comparefn x y) 0); [reflexivity|lia].
Qed.

Lemma StronglySorted_filter {A} (R : A -> A -> Prop) (f : A -> bool) (l : list A) :
  StronglySorted R l -> StronglySorted R (List.filter f l).
Proof.
  induction 1 as [|x l Hl IH Hx]; simpl; [constructor|].
  destruct (f x); [|exact IH]. constructor; [exact IH|].
  rewrite List.Forall_forall in *. intros y Hy. apply Hx.
  now apply filter_In in Hy.
Qed.

(** X3. A list that the backend returns in the order of the selected key
    is shown in the order received: sorting only removes the documents the
    search excludes. *)
Theorem sorted_response_keeps_its_order `{Host}
    (documents : list Doc.t) (searchTerm sortBy : string) :
  StronglySorted (not_after (DocumentManager.compareDocuments sortBy)) documents ->
  DocumentManager.filteredDocuments documents searchTerm sortBy =
    List.filter (DocumentManager.matches searchTerm) documents.
Proof.
  intros S. apply sort_of_sorted. now apply StronglySorted_filter.
Qed.

Lemma sorted_response_keeps_its_order_witness :
  map Doc.id (@DocumentManager.filteredDocuments Demo.host
                [Demo.invoice; Demo.report; Demo.thesis] "pdf" "upload_date")
  = ["d2"; "d1"; "d3"].
Proof.
  rewrite (@sorted_response_keeps_its_order Demo.host
             [Demo.invoice; Demo.report; Demo.thesis] "pdf" "upload_date").
  - reflexivity.
  - repeat constructor; vm_compute; discriminate.
Defined.

(** The sort is stable: it does not reorder the elements of a class whose
    members the comparator does not tell apart. *)
Lemma insert_filter_class {A} (comparefn : A -> A -> Z) (p : A -> bool) (x : A) (l : list A) :
  (forall a b, p a = true -> p b = true -> comparefn a b <= 0) ->
  List.filter p (JS.insert comparefn x l) =
  if p x then x :: List.filter p l else List.filter p l.
Proof.
  intros Hp. induction l as [|y l IH]; [reflexivity|].
  cbn [JS.insert]. destruct (Z.leb_spec (comparefn x y) 0) as [Hxy|Hxy].
  - reflexivity.
  - cbn [List.filter]. rewrite IH.
    destruct (p x) eqn:Ex, (p y) eqn:Ey; try reflexivity.
    pose proof (Hp x y Ex Ey). lia.
Qed.

Lemma sort_filter_class {A} (comparefn : A -> A -> Z) (p : A -> bool) (l : list A) :
  (forall a b, p a = true -> p b = true -> comparefn a b <= 0) ->
  List.filter p (JS.sort comparefn l) = List.filter p l.
Proof.
  intros Hp. induction l as [|x l IH]; [reflexivity|].
  cbn [JS.sort List.filter]. rewrite insert_filter_class by exact Hp.
  now rewrite IH.
Qed.

(** X4. The order of the list is stable: under the ['size'] key the
    documents of one size, and under the date key the documents of one
    upload time, stand in the order in which the backend returned them. *)
Theorem equal_keys_keep_their_order `{Host}
    (documents : list Doc.t) (searchTerm : string) :
  (forall size,
     List.filter (fun d => Doc.size d =? size)
       (DocumentManager.filteredDocuments documents searchTerm "size") =
     List.filter (fun d => Doc.size d =? size)
       (List.filter (DocumentManager.matches searchTerm) documents)) /\
  (forall time,
     List.filter (fun d => Date_time (Doc.upload_date d) =? time)
       (DocumentManager.filteredDocuments documents searchTerm "upload_date") =
     List.filter (fun d => Date_time (Doc.upload_date d) =? time)
       (List.filter (DocumentManager.matches searchTerm) documents)).
Proof.
  split; intros k; apply sort_filter_class; intros a b Ha Hb;
    apply Z.eqb_eq in Ha, Hb; unfold DocumentManager.compareDocuments; simpl; lia.
Qed.

(** ** Sizes below one kibibyte, and the range of the number shown *)

Lemma floor_log1024_small (b : Z) : 1 <= b < 1024 -> JS.floor_log1024 b = Some 0.
Proof.
  intros [Hlo Hhi]. unfold JS.floor_log1024.
  destruct (Z.leb_spec b 0); [lia|]. f_equal.
  assert (L : Z.log2 b < 10) by (apply Z.log2_lt_pow2; [lia|exact Hhi]).
  pose proof (Z.log2_nonneg b). apply Z.div_small. lia.
Qed.

(** X5. Below 1024 the size is shown as it is: the decimal numeral of the
    byte count followed by "Bytes", with no rounding. *)
Theorem formatBytes_below_1024 (b : Z) :
  1 <= b < 1024 -> formatBytes b = JS.digits b ++ " Bytes".
Proof.
  intros Hb. rewrite (formatBytes_positive b 0) by (lia || now apply floor_log1024_small).
  change (1024 ^ 0) with 1. rewrite nearest_hundredth_div by lia.
  replace ((200 * b + 1) / (2 * 1)) with (100 * b)
    by (apply Z.div_unique with 1; lia).
  unfold JS.shortest2.
  replace (100 * b mod 100) with 0 by (symmetry; rewrite Z.mul_comm; apply Z.mod_mul; lia).
  replace (100 * b / 100) with b by (symmetry; rewrite Z.mul_comm; apply Z.div_mul; lia).
  reflexivity.
Qed.

Lemma formatBytes_below_1024_witness : formatBytes 1023 = "1023 Bytes".
Proof. apply (formatBytes_below_1024 1023). lia. Defined.

(** X6. For a size of at least one byte the number shown lies between 1
    and 1024, both included: rounding to hundredths can reach the next
    power, so that one byte less than a mebibyte reads "1024 KB" and one
    byte less than a gibibyte "1024 MB". *)
Theorem formatBytes_number_range (b : Z) :
  1 <= b ->
  (exists i h,
     JS.floor_log1024 b = Some i /\
     formatBytes b = JS.shortest2 h ++ " " ++ JS.element sizes (Some i) /\
     hundredths_of (JS.shortest2 h) = Some h /\
     100 <= h <= 102400) /\
  formatBytes (1024 ^ 2 - 1) = "1024 KB" /\
  formatBytes (1024 ^ 3 - 1) = "1024 MB".
Proof.
  intros Hb. split; [|split; reflexivity].
  destruct (floor_log1024_spec b Hb) as (i & Ei & Hi & Hlo & Hhi).
  assert (Hp : 0 < 1024 ^ i) by (apply Z.pow_pos_nonneg; lia).
  exists i, (JS.nearest_hundredth (inject_Z b / inject_Z (1024 ^ i))).
  pose proof (nearest_hundredth_rounds b (1024 ^ i) Hp) as R.
  pose proof (nearest_hundredth_nonneg b (1024 ^ i) ltac:(lia) Hp) as N.
  set (h := JS.nearest_hundredth (inject_Z b / inject_Z (1024 ^ i))) in *.
  rewrite Z.pow_add_r in Hhi by lia. change (1024 ^ 1) with 1024 in Hhi.
  unfold rounds_to_hundredths in R.
  repeat apply conj; try assumption.
  - now apply formatBytes_positive.
  - now apply shortest2_value.
  - nia.
  - nia.
Qed.

Lemma formatBytes_number_range_witness :
  exists i h,
    JS.floor_log1024 5000000 = Some i /\
    formatBytes 5000000 = JS.shortest2 h ++ " " ++ JS.element sizes (Some i) /\
    hundredths_of (JS.shortest2 h) = Some h /\
    100 <= h <= 102400.
Proof. apply (formatBytes_number_range 5000000). lia. Defined.

(** ** The theme: class of the root element and local storage *)

Lemma load_run (storage : gmap string string) (prefers_dark : bool) :
  App.load storage prefers_dark =
  let dark := App.is_dark (storage !! "pdflux-theme")
              || (App.falsy (storage !! "pdflux-theme") && prefers_dark) in
  App.make dark storage (if dark then {["dark"]} ∪ ∅ else ∅).
Proof.
  unfold App.load, App.mount, App.localStorage_getItem, App.initial,
    App.setDarkMode, App.classList_add.
  run_eff. cbn [App.localStorage App.darkMode App.classList].
  destruct (App.is_dark (storage !! "pdflux-theme")
            || App.falsy (storage !! "pdflux-theme") && prefers_dark); reflexivity.
Qed.

Lemma reachable_class_in_step (s : App.state) :
  App.reachable s -> ("dark" ∈ App.classList s <-> App.darkMode s = true).
Proof.
  induction 1 as [storage prefers_dark|s _ IH].
  - rewrite load_run. cbv zeta.
    destruct (App.is_dark (storage !! "pdflux-theme")
              || App.falsy (storage !! "pdflux-theme") && prefers_dark);
      cbn [App.classList App.darkMode].
    + split; [reflexivity|]. intros _. apply elem_of_union. left.
      now apply elem_of_singleton.
    + split; [|discriminate]. intros D. now apply elem_of_empty in D.
  - rewrite toggleDarkMode_run. unfold Eff.final_state. cbn [fst snd].
    cbn [App.classList App.darkMode].
    destruct (App.darkMode s); cbn [negb].
    + split; [|discriminate]. rewrite elem_of_difference, elem_of_singleton. tauto.
    + split; [reflexivity|]. intros _. apply elem_of_union. left.
      now apply elem_of_singleton.
Qed.

(** X7. At every moment of the running page, after the load and after any
    number of toggles, the root element carries the class ['dark'] exactly
    when the component is in dark mode, and the mode does not contradict
    the storage: with ['dark'] stored the page is in dark mode, with
    ['light'] stored it is not. *)
Theorem dark_class_follows_mode (s : App.state) :
  App.reachable s ->
  ("dark" ∈ App.classList s <-> App.darkMode s = true) /\
  (App.localStorage s !! "pdflux-theme" = Some "dark" -> App.darkMode s = true) /\
  (App.localStorage s !! "pdflux-theme" = Some "light" -> App.darkMode s = false).
Proof.
  intros R. split; [now apply reachable_class_in_step|].
  induction R as [storage prefers_dark|s _ _].
  - rewrite load_run. cbv zeta. cbn [App.localStorage App.darkMode].
    split; intros ->; reflexivity.
  - rewrite toggleDarkMode_run. unfold Eff.final_state. cbn [fst snd].
    cbn [App.localStorage App.darkMode]. rewrite lookup_insert_eq.
    destruct (App.darkMode s); cbn [negb]; split; intros E;
      (reflexivity || discriminate E).
Qed.

Lemma dark_class_follows_mode_witness :
  let s := Eff.final_state
             (App.toggleDarkMode (App.load (<["pdflux-theme" := "light"]> ∅) true)) in
  ("dark" ∈ App.classList s <-> App.darkMode s = true) /\
  (App.localStorage s !! "pdflux-theme" = Some "dark" -> App.darkMode s = true) /\
  (App.localStorage s !! "pdflux-theme" = Some "light" -> App.darkMode s = false).
Proof.
  intros s. apply (dark_class_follows_mode s).
  apply App.reachable_toggle, App.reachable_load.
Defined.

(** X8. Toggling twice brings the running page back: the mode and the
    classes of the root element are those before the two toggles, the
    storage holds the name of that mode under ['pdflux-theme'], and no other
    key of the storage is touched. *)
Theorem toggle_twice_restores (s : App.state) :
  App.reachable s ->
  let twice := Eff.final_state
                 (App.toggleDarkMode (Eff.final_state (App.toggleDarkMode s))) in
  App.darkMode twice = App.darkMode s /\
  App.classList twice = App.classList s /\
  App.localStorage twice !! "pdflux-theme" =
    Some (if App.darkMode s then "dark" else "light") /\
  (forall k, k <> "pdflux-theme" ->
             App.localStorage twice !! k = App.localStorage s !! k).
Proof.
  intros R. pose proof (reachable_class_in_step s R) as I.
  cbv zeta. rewrite !toggleDarkMode_run. unfold Eff.final_state. cbn [fst snd].
  cbn [App.classList App.darkMode App.localStorage]. rewrite negb_involutive.
  repeat apply conj.
  - reflexivity.
  - destruct (App.darkMode s); cbn [negb].
    + assert (D : "dark" ∈ App.classList s) by now apply I.
      apply set_eq. intros x.
      rewrite elem_of_union, elem_of_difference, elem_of_singleton.
      destruct (decide (x = "dark")) as [->|Hx]; tauto.
    + assert (D : "dark" ∉ App.classList s) by (intros D; apply I in D; discriminate).
      apply set_eq. intros x.
      rewrite elem_of_difference, elem_of_union, elem_of_singleton.
      destruct (decide (x = "dark")) as [->|Hx]; tauto.
  - now rewrite lookup_insert_eq.
  - intros k Hk. now rewrite !lookup_insert_ne by congruence.
Qed.

Lemma toggle_twice_restores_witness :
  let s := App.load (<["lang" := "en"]> ∅) true in
  let twice := Eff.final_state
                 (App.toggleDarkMode (Eff.final_state (App.toggleDarkMode s))) in
  App.darkMode twice = App.darkMode s /\
  App.classList twice = App.classList s /\
  App.localStorage twice !! "pdflux-theme" =
    Some (if App.darkMode s then "dark" else "light") /\
  (forall k, k <> "pdflux-theme" ->
             App.localStorage twice !! k = App.localStorage s !! k).
Proof.
  intros s. apply (toggle_twice_restores s). apply App.reachable_load.
Defined.

(** ** The dashboard: failure, placeholders and the storage card *)

(** X9. The dashboard leaves the loading state whatever the answer.  When
    the request fails it keeps the statistics and the recent documents it
    had, so that a dashboard that has just been mounted shows zeros and
    "0 Bytes", and it shows one error toast. *)
Theorem dashboard_failure_keeps_statistics `{Host}
    (r : reply (list Doc.t)) (error : Exn.t) (random1 random2 : Q) (s : Dashboard.state) :
  Dashboard.loading
    (Eff.final_state (Dashboard.fetchDashboardData r random1 random2 s)) = false /\
  (let failed := Dashboard.fetchDashboardData (Rejected error) random1 random2 s in
   Dashboard.stats (Eff.final_state failed) = Dashboard.stats s /\
   Dashboard.recentDocuments (Eff.final_state failed) = Dashboard.recentDocuments s /\
   error_toasts (Eff.trace failed) = [ToastError "Failed to load dashboard data"]) /\
  (let failed := Eff.final_state
                   (Dashboard.mount (Rejected error) random1 random2 Dashboard.initial) in
   Dashboard.cards failed =
     [ ("Total Documents", Dashboard.Count 0);
       ("AI Conversations", Dashboard.Count 0);
       ("AI Tasks Completed", Dashboard.Count 0);
       ("Storage Used", Dashboard.Text "0 Bytes") ] /\
   Dashboard.recentRows failed = []).
Proof.
  repeat apply conj; try reflexivity.
  destruct r; reflexivity.
Qed.

Lemma Qfloor_scaled_range (r : Q) (n : Z) :
  0 < n -> (0 <= r)%Q -> (r < 1)%Q -> 0 <= Qfloor (r * inject_Z n) < n.
Proof.
  intros Hn Hlo Hhi. destruct r as [a d].
  unfold Qle, Qlt in *. cbn [Qnum Qden] in *.
  unfold Qfloor, Qmult, inject_Z. cbn [Qnum Qden].
  rewrite Pos.mul_1_r. split.
  - apply Z.div_pos; nia.
  - apply Z.div_lt_upper_bound; nia.
Qed.

(** X10. For a draw of [Math.random()], a number from 0 up to but not
    including 1, the placeholder under "AI Conversations" is an integer
    from 0 to 49 and the one under "AI Tasks Completed" an integer from 0
    to 99. *)
Theorem dashboard_placeholders_range `{Host}
    (documents : list Doc.t) (random1 random2 : Q) (s : Dashboard.state) :
  (0 <= random1)%Q -> (random1 < 1)%Q -> (0 <= random2)%Q -> (random2 < 1)%Q ->
  let shown := Dashboard.stats
                 (Eff.final_state
                    (Dashboard.fetchDashboardData (Fulfilled documents) random1 random2 s)) in
  0 <= Dashboard.totalChats shown <= 49 /\ 0 <= Dashboard.aiTasks shown <= 99.
Proof.
  intros L1 H1 L2 H2. cbv zeta.
  unfold Dashboard.fetchDashboardData, Dashboard.setStats, Dashboard.setRecentDocuments,
    Dashboard.setLoading.
  run_eff. cbn [Dashboard.stats Dashboard.totalChats Dashboard.aiTasks].
  pose proof (Qfloor_scaled_range random1 50 ltac:(lia) L1 H1).
  pose proof (Qfloor_scaled_range random2 100 ltac:(lia) L2 H2).
  change (inject_Z 50) with 50%Q in *. change (inject_Z 100) with 100%Q in *. lia.
Qed.

Lemma dashboard_placeholders_range_witness :
  let shown := Dashboard.stats
                 (Eff.final_state
                    (@Dashboard.fetchDashboardData Demo.host (Fulfilled Demo.library)
                       (999 # 1000) (1 # 3) Dashboard.initial)) in
  0 <= Dashboard.totalChats shown <= 49 /\ 0 <= Dashboard.aiTasks shown <= 99.
Proof.
  apply (@dashboard_placeholders_range Demo.host Demo.library (999 # 1000) (1 # 3)
           Dashboard.initial); vm_compute; congruence.
Defined.

(** X11. The "Storage Used" card formats the sum of the sizes: an empty
    response reads "0 Bytes", and a library whose sizes add up to 1024^4
    bytes or more reads a number followed by "undefined", however small
    each document is. *)
Theorem dashboard_storage_card `{Host}
    (documents : list Doc.t) (random1 random2 : Q) :
  let card (docs : list Doc.t) :=
    nth_error
      (Dashboard.cards
         (Eff.final_state
            (Dashboard.mount (Fulfilled docs) random1 random2 Dashboard.initial))) 3 in
  card [] = Some ("Storage Used", Dashboard.Text "0 Bytes") /\
  (1024 ^ 4 <= total_size documents ->
   exists num,
     card documents = Some ("Storage Used", Dashboard.Text (num ++ " undefined"))).
Proof.
  cbv zeta. split; [reflexivity|]. intros Hbig.
  assert (Hlo : 1 <= total_size documents)
    by (change (1024 ^ 4) with 1099511627776 in Hbig; lia).
  destruct (floor_log1024_spec _ Hlo) as (i & Ei & Hi & Hpow & Hup).
  assert (Hi4 : 4 <= i).
  { destruct (Z.lt_ge_cases i 4) as [Hlt|]; [|assumption].
    assert (1024 ^ (i + 1) <= 1024 ^ 4) by (apply Z.pow_le_mono_r; lia). lia. }
  exists (JS.shortest2
            (JS.nearest_hundredth (inject_Z (total_size documents) / inject_Z (1024 ^ i)))).
  unfold Dashboard.cards, Dashboard.mount, Dashboard.fetchDashboardData,
    Dashboard.setStats, Dashboard.setRecentDocuments, Dashboard.setLoading.
  run_eff. cbn [Dashboard.stats Dashboard.storageUsed nth_error].
  rewrite reduce_sizes, Z.add_0_l.
  rewrite (formatBytes_positive _ i Hlo Ei). unfold JS.element.
  destruct (Z.ltb_spec i 0); [lia|].
  assert (En : nth_error sizes (Z.to_nat i) = None) by (apply nth_error_None; simpl; lia).
  now rewrite En.
Qed.

Lemma dashboard_storage_card_witness :
  let big (n : string) := Doc.make n "scan.pdf" (600 * 1024 ^ 3) 900 "2024-01-01T00:00:00Z" None in
  exists num,
    nth_error
      (Dashboard.cards
         (Eff.final_state
            (@Dashboard.mount Demo.host (Fulfilled [big "a"; big "b"]) (1 # 2) (1 # 2)
               Dashboard.initial))) 3
    = Some ("Storage Used", Dashboard.Text (num ++ " undefined")).
Proof.
  intros big.
  apply (@dashboard_storage_card Demo.host [big "a"; big "b"] (1 # 2) (1 # 2)).
  vm_compute. discriminate.
Defined.

(** ** The handlers of the document manager *)

(** X13. After a PDF is dropped the uploading state is over whatever the
    answers.  The list is fetched again only after a fulfilled upload, and
    the documents change only when that fetch is fulfilled too. *)
Theorem upload_then_refresh `{Host}
    (name : string) (size : Z) (rest : list File.t)
    (uploaded : reply unit) (listed : reply (list Doc.t)) (s : DocumentManager.state) :
  let pdf := File.make name "application/pdf" size in
  let run := DocumentManager.onDrop (pdf :: rest) uploaded listed s in
  DocumentManager.uploading (Eff.final_state run) = false /\
  requests (Eff.trace run) =
    Request "POST" (API ++ "/documents/upload") (FormData "file" pdf) ::
    match uploaded with
    | Fulfilled _ => [Request "GET" (API ++ "/documents") NoBody]
    | Rejected _ => []
    end /\
  DocumentManager.documents (Eff.final_state run) =
    match uploaded, listed with
    | Fulfilled _, Fulfilled docs => docs
    | _, _ => DocumentManager.documents s
    end.
Proof.
  cbv zeta. destruct uploaded as [[]|e]; [destruct listed as [docs|e]|];
    repeat apply conj; reflexivity.
Qed.

(** X14. Deleting asks for confirmation first.  When the user declines, no
    request is made and the state is as before.  When the user confirms,
    the DELETE request goes out and the list is fetched again only if it is
    fulfilled; if that fetch fails the success toast has been shown and the
    deleted document is still in the list. *)
Theorem delete_needs_confirmation `{Host}
    (docId filename : string) (r : reply unit) (listed : reply (list Doc.t))
    (error : Exn.t) (s : DocumentManager.state) :
  let question :=
    WindowConfirm ("Are you sure you want to delete " ++ dq ++ filename ++ dq ++ "?") in
  DocumentManager.deleteDocument docId filename false r listed s =
    (Normal tt, s, [question]) /\
  (let run := DocumentManager.deleteDocument docId filename true r listed s in
   requests (Eff.trace run) =
     Request "DELETE" (API ++ "/documents/" ++ docId) NoBody ::
     match r with
     | Fulfilled _ => [Request "GET" (API ++ "/documents") NoBody]
     | Rejected _ => []
     end /\
   DocumentManager.documents (Eff.final_state run) =
     match r, listed with
     | Fulfilled _, Fulfilled docs => docs
     | _, _ => DocumentManager.documents s
     end) /\
  (let run := DocumentManager.deleteDocument docId filename true
                (Fulfilled tt) (Rejected error) s in
   Eff.trace run =
     [question;
      Request "DELETE" (API ++ "/documents/" ++ docId) NoBody;
      ToastSuccess "Document deleted successfully";
      Request "GET" (API ++ "/documents") NoBody;
      ConsoleError "Failed to fetch documents:";
      ToastError "Failed to load documents"] /\
   DocumentManager.documents (Eff.final_state run) = DocumentManager.documents s).
Proof.
  cbv zeta. repeat apply conj; try reflexivity;
    destruct r as [[]|e]; try reflexivity; destruct listed; reflexivity.
Qed.

(** X15. With a document selected, a task ends with the loading state
    over, whatever the answer.  The dialog is closed and the instructions
    are cleared only when the request is fulfilled and the result tab
    opens; in every other case the dialog stays as it was, instructions
    included, and the document stays selected. *)
Theorem task_dialog_after_run `{Host}
    (r : reply TaskResponse.t) (opened : bool) (doc : Doc.t) (s : DocumentManager.state) :
  DocumentManager.selectedDocument s = Some doc ->
  let s' := Eff.final_state (DocumentManager.performAiTask r opened s) in
  let done := match r with Fulfilled _ => opened | Rejected _ => false end in
  DocumentManager.aiTaskLoading s' = false /\
  DocumentManager.aiTaskDialogOpen s' =
    (if done then false else DocumentManager.aiTaskDialogOpen s) /\
  DocumentManager.aiTaskInstructions s' =
    (if done then "" else DocumentManager.aiTaskInstructions s) /\
  DocumentManager.selectedDocument s' = Some doc.
Proof.
  intros Hd. cbv zeta.
  unfold DocumentManager.performAiTask, DocumentManager.window_open_write.
  run_eff. rewrite Hd.
  destruct r as [data|e]; [destruct opened|]; repeat apply conj; try reflexivity;
    cbn; exact Hd.
Qed.

Lemma task_dialog_after_run_witness :
  let s := DocumentManager.make Demo.library false false "" (Some Demo.report) "grid"
             "upload_date" [] true "translate" "Into French." "openai" "gpt-4o-mini"
             false in
  let s' := Eff.final_state
              (@DocumentManager.performAiTask Demo.host (Rejected Demo.refused) true s) in
  DocumentManager.aiTaskLoading s' = false /\
  DocumentManager.aiTaskDialogOpen s' = true /\
  DocumentManager.aiTaskInstructions s' = "Into French." /\
  DocumentManager.selectedDocument s' = Some Demo.report.
Proof.
  intros s.
  apply (@task_dialog_after_run Demo.host (Rejected Demo.refused) true Demo.report s).
  reflexivity.
Defined.

(** X16. When the request is fulfilled but the browser does not open the
    tab, the success toast has been shown already, nothing is written, and
    the failure to reach the tab is reported in an error toast as a failed
    task. *)
Theorem task_with_blocked_tab `{Host}
    (data : TaskResponse.t) (doc : Doc.t) (s : DocumentManager.state) :
  DocumentManager.selectedDocument s = Some doc ->
  exists posted message,
    Eff.trace (DocumentManager.performAiTask (Fulfilled data) false s) =
    [Request "POST" (API ++ "/ai/tasks") posted;
     ToastSuccess (DocumentManager.aiTaskType s ++ " completed successfully!");
     WindowOpen "" "_blank";
     ConsoleError "AI task error:";
     ToastError ("AI task failed: " ++ message)].
Proof.
  intros Hd. unfold DocumentManager.performAiTask, DocumentManager.window_open_write.
  run_eff. rewrite Hd. eexists. eexists. reflexivity.
Qed.

Lemma task_with_blocked_tab_witness :
  let s := DocumentManager.make Demo.library false false "" (Some Demo.report) "grid"
             "upload_date" [] true "analyze" "" "openai" "gpt-4o-mini" false in
  exists posted message,
    Eff.trace (@DocumentManager.performAiTask Demo.host
                 (Fulfilled (TaskResponse.make "Sound." (1 # 2))) false s) =
    [Request "POST" "http://localhost:8001/api/ai/tasks" posted;
     ToastSuccess "analyze completed successfully!";
     WindowOpen "" "_blank";
     ConsoleError "AI task error:";
     ToastError ("AI task failed: " ++ message)].
Proof.
  intros s.
  apply (@task_with_blocked_tab Demo.host (TaskResponse.make "Sound." (1 # 2))
           Demo.report s).
  reflexivity.
Defined.

(** X17. The task button of a card selects the document of that card and
    opens the dialog; a task run from there is posted for that document,
    whichever document was selected before. *)
Theorem task_runs_on_clicked_card `{Host}
    (doc : Doc.t) (r : reply TaskResponse.t) (opened : bool) (s : DocumentManager.state) :
  let opened_dialog := Eff.final_state (DocumentManager.onAiTask doc s) in
  DocumentManager.aiTaskDialogOpen opened_dialog = true /\
  DocumentManager.selectedDocument opened_dialog = Some doc /\
  requests (Eff.trace (DocumentManager.performAiTask r opened opened_dialog)) =
    [Request "POST" (API ++ "/ai/tasks")
       (TaskBody
          (TaskRequest.make (Doc.id doc) (DocumentManager.aiTaskType s)
             match DocumentManager.aiTaskInstructions s with
             | EmptyString => None
             | instructions => Some instructions
             end
             (DocumentManager.aiTaskProvider s) (DocumentManager.aiTaskModel s)))].
Proof.
  cbv zeta. split; [reflexivity|]. split; [reflexivity|].
  now rewrite (performAiTask_requests r opened doc).
Qed.

(** ** The model selectors *)

Lemma find_first {A} (f : A -> bool) (before after : list A) (x : A) :
  (forall y, In y before -> f y = false) -> f x = true ->
  find f (before ++ x :: after)%list = Some x.
Proof.
  intros Hb Hx. induction before as [|y before IH]; simpl.
  - now rewrite Hx.
  - rewrite (Hb y) by now left. apply IH. intros z Hz. apply Hb. now right.
Qed.

Lemma find_nothing {A} (f : A -> bool) (l : list A) :
  (forall y, In y l -> f y = false) -> find f l = None.
Proof.
  intros Hl. induction l as [|y l IH]; simpl; [reflexivity|].
  rewrite (Hl y) by now left. apply IH. intros z Hz. apply Hl. now right.
Qed.

(** X18. The model selector of the task dialog lists the models of the
    first provider that bears the selected name, and nothing when no
    provider bears it.  After a mount on which the provider fetch failed
    the selector is empty, while the provider and the model of the state
    are still ['openai'] and ['gpt-4o-mini']. *)
Theorem task_model_options `{Host}
    (s : DocumentManager.state) (before after : list Provider.t) (p : Provider.t)
    (docs : reply (list Doc.t)) (error : Exn.t) :
  ((forall q, In q (DocumentManager.aiProviders s) ->
              Provider.name q <> DocumentManager.aiTaskProvider s) ->
   DocumentManager.modelOptions s = []) /\
  (DocumentManager.aiProviders s = (before ++ p :: after)%list ->
   (forall q, In q before -> Provider.name q <> DocumentManager.aiTaskProvider s) ->
   Provider.name p = DocumentManager.aiTaskProvider s ->
   DocumentManager.modelOptions s = Provider.available_models p) /\
  (let mounted := Eff.final_state
                    (DocumentManager.mount docs (Rejected error) DocumentManager.initial) in
   DocumentManager.modelOptions mounted = [] /\
   DocumentManager.aiTaskProvider mounted = "openai" /\
   DocumentManager.aiTaskModel mounted = "gpt-4o-mini").
Proof.
  repeat apply conj.
  - intros Hn. unfold DocumentManager.modelOptions. rewrite find_nothing; [reflexivity|].
    intros q Hq. apply String.eqb_neq. now apply Hn.
  - intros E Hb Hp. unfold DocumentManager.modelOptions. rewrite E.
    rewrite (find_first _ before after p); [reflexivity| |now apply String.eqb_eq].
    intros q Hq. apply String.eqb_neq. now apply Hb.
  - destruct docs; reflexivity.
  - destruct docs; reflexivity.
  - destruct docs; reflexivity.
Qed.

Lemma task_model_options_witness :
  let openai := Provider.make "openai" ["gpt-4o-mini"; "gpt-4o"] "available" in
  let other := Provider.make "local" ["llama"] "offline" in
  let s := DocumentManager.make [] false false "" None "grid" "upload_date"
             [other; openai] false "summarize" "" "openai" "gpt-4o-mini" false in
  DocumentManager.modelOptions s = ["gpt-4o-mini"; "gpt-4o"].
Proof.
  intros openai other s.
  apply (@task_model_options Demo.host s [other] [] openai (Fulfilled []) Demo.offline).
  - reflexivity.
  - intros q [<-|[]]. discriminate.
  - reflexivity.
Defined.

(** ** White space around the message *)

Lemma trimStart_first (s : string) (c : ascii) :
  first_char (JS.trimStart s) = Some c -> JS.isWhiteSpace c = false.
Proof.
  induction s as [|x s IH]; cbn [JS.trimStart]; [discriminate|].
  destruct (JS.isWhiteSpace x) eqn:Ex; [exact IH|].
  cbn [first_char]. now intros [= <-].
Qed.

Lemma trimStart_fixed (s : string) :
  (forall c, first_char s = Some c -> JS.isWhiteSpace c = false) -> JS.trimStart s = s.
Proof.
  destruct s as [|x s]; [reflexivity|]. intros Hf. cbn [JS.trimStart].
  now rewrite (Hf x eq_refl).
Qed.

Lemma trimStart_empty (s : string) : JS.trimStart s = "" <-> all_white s = true.
Proof.
  induction s as [|x s IH]; cbn [JS.trimStart all_white]; [tauto|].
  destruct (JS.isWhiteSpace x); cbn [andb]; [exact IH|].
  split; discriminate.
Qed.

Lemma trimEnd_cons (x : ascii) (s : string) :
  JS.trimEnd (String x s) =
  match JS.trimEnd s with
  | EmptyString => if JS.isWhiteSpace x then EmptyString else String x EmptyString
  | String y t => String x (String y t)
  end.
Proof. reflexivity. Qed.

Lemma trimEnd_last (s : string) (c : ascii) :
  last_char (JS.trimEnd s) = Some c -> JS.isWhiteSpace c = false.
Proof.
  induction s as [|x s IH]; [discriminate|]. rewrite trimEnd_cons.
  destruct (JS.trimEnd s) as [|y t].
  - destruct (JS.isWhiteSpace x) eqn:Ex; [discriminate|].
    cbn [last_char]. now intros [= <-].
  - exact IH.
Qed.

Lemma trimEnd_first (s : string) (c : ascii) :
  first_char (JS.trimEnd s) = Some c -> first_char s = Some c.
Proof.
  destruct s as [|x s]; [discriminate|]. rewrite trimEnd_cons.
  destruct (JS.trimEnd s); [destruct (JS.isWhiteSpace x); [discriminate|]|]; exact id.
Qed.

Lemma trimEnd_keeps_head (x : ascii) (s : string) :
  JS.isWhiteSpace x = false -> JS.trimEnd (String x s) <> "".
Proof.
  intros Hx. rewrite trimEnd_cons.
  destruct (JS.trimEnd s); [rewrite Hx|]; discriminate.
Qed.

Lemma trimEnd_fixed (s : string) :
  (forall c, last_char s = Some c -> JS.isWhiteSpace c = false) -> JS.trimEnd s = s.
Proof.
  induction s as [|x s IH]; [reflexivity|]. intros Hl. rewrite trimEnd_cons.
  destruct s as [|y s].
  - cbn [JS.trimEnd]. now rewrite (Hl x eq_refl).
  - rewrite IH by (intros c Hc; apply Hl; exact Hc). reflexivity.
Qed.

Lemma trim_idempotent (s : string) : JS.trim (JS.trim s) = JS.trim s.
Proof.
  unfold JS.trim. rewrite (trimStart_fixed (JS.trimEnd (JS.trimStart s))).
  - apply trimEnd_fixed. intros c. apply trimEnd_last.
  - intros c Hc. apply trimEnd_first in Hc. now apply trimStart_first in Hc.
Qed.

Lemma trim_empty (s : string) : JS.trim s = "" <-> all_white s = true.
Proof.
  rewrite <- trimStart_empty. unfold JS.trim. split.
  - intros E. destruct (JS.trimStart s) as [|x t] eqn:Et; [reflexivity|].
    exfalso. revert E. apply trimEnd_keeps_head.
    apply (trimStart_first s). now rewrite Et.
  - now intros ->.
Qed.

(** X19. The content of the user message is the input without the white
    space around it: it neither begins nor ends with a white-space
    character, trimming it again changes nothing, and it is empty exactly
    when the input is made of white space only, which is when the handler
    sends nothing. *)
Theorem user_message_is_trimmed `{Host}
    (now later : string) (r : reply ChatResponse.t) (s : AIChat.state) :
  let content := Msg.content (AIChat.userMessage (AIChat.inputMessage s) now) in
  JS.trim content = content /\
  (forall c, first_char content = Some c -> JS.isWhiteSpace c = false) /\
  (forall c, last_char content = Some c -> JS.isWhiteSpace c = false) /\
  (content = "" <-> all_white (AIChat.inputMessage s) = true) /\
  (all_white (AIChat.inputMessage s) = true ->
   AIChat.sendMessage now r later s = (Normal tt, s, [])).
Proof.
  cbv zeta. cbn [AIChat.userMessage Msg.content]. repeat apply conj.
  - apply trim_idempotent.
  - intros c Hc. apply trimEnd_first in Hc. now apply trimStart_first in Hc.
  - intros c. apply trimEnd_last.
  - apply trim_empty.
  - apply trim_empty.
  - intros W. apply sendMessage_blocked. left. now apply trim_empty.
Qed.

Lemma user_message_is_trimmed_witness :
  let tab := String (ascii_of_nat 9) EmptyString in
  @AIChat.sendMessage Demo.host "2024-06-01T12:00:00.000Z" (Fulfilled Demo.answer)
     "2024-06-01T12:00:03.000Z"
     (Eff.final_state (AIChat.setInputMessage (" " ++ tab ++ nl ++ " ") AIChat.initial))
  = (Normal tt,
     Eff.final_state (AIChat.setInputMessage (" " ++ tab ++ nl ++ " ") AIChat.initial),
     []).
Proof.
  intros tab. apply (@user_message_is_trimmed Demo.host). reflexivity.
Defined.

(** ** Keys and buttons of the chat *)

(** X20. In the text area only Enter without Shift is handled: any other
    key leaves the default action, the state and the trace alone.  Enter
    without Shift suppresses the default action, the line break, and then
    does what [sendMessage] does; on a blank input or while a request is in
    flight that is nothing, so the key press has no effect at all. *)
Theorem enter_sends `{Host}
    (e : KeyboardEvent.t) (now later : string) (r : reply ChatResponse.t) (s : AIChat.state) :
  (KeyboardEvent.key e <> "Enter" \/ KeyboardEvent.shiftKey e = true ->
   AIChat.handleKeyPress e now r later s = (Normal false, s, [])) /\
  (KeyboardEvent.key e = "Enter" -> KeyboardEvent.shiftKey e = false ->
   let pressed := AIChat.handleKeyPress e now r later s in
   let sent := AIChat.sendMessage now r later s in
   Eff.outcome pressed = Normal true /\
   Eff.final_state pressed = Eff.final_state sent /\
   Eff.trace pressed = Eff.trace sent) /\
  (KeyboardEvent.key e = "Enter" -> KeyboardEvent.shiftKey e = false ->
   JS.trim (AIChat.inputMessage s) = "" \/ AIChat.isLoading s = true ->
   AIChat.handleKeyPress e now r later s = (Normal true, s, [])).
Proof.
  assert (sends : KeyboardEvent.key e = "Enter" -> KeyboardEvent.shiftKey e = false ->
            AIChat.handleKeyPress e now r later s =
            Eff.bind (AIChat.sendMessage now r later) (fun _ => Eff.ret true) s).
  { intros Ek Es. unfold AIChat.handleKeyPress. rewrite Ek, Es. reflexivity. }
  repeat apply conj.
  - intros G. unfold AIChat.handleKeyPress.
    destruct G as [Hk| ->].
    + apply String.eqb_neq in Hk. now rewrite Hk.
    + now rewrite andb_false_r.
  - intros Ek Es. cbv zeta. rewrite (sends Ek Es). unfold Eff.bind, Eff.ret.
    destruct (AIChat.sendMessage now r later s) as [[[[]|error] s'] t] eqn:E.
    + repeat split. unfold Eff.trace. cbn [snd]. now rewrite app_nil_r.
    + exfalso. destruct (AIChat.isLoading s) eqn:Hl.
      * rewrite sendMessage_blocked in E by now right. discriminate.
      * destruct (string_dec (JS.trim (AIChat.inputMessage s)) "") as [Hin|Hin].
        -- rewrite sendMessage_blocked in E by now left. discriminate.
        -- revert E. unfold AIChat.sendMessage. run_eff. rewrite Hl.
           destruct (JS.trim (AIChat.inputMessage s)); [congruence|].
           destruct r; discriminate.
  - intros Ek Es G. rewrite (sends Ek Es). unfold Eff.bind.
    now rewrite sendMessage_blocked.
Qed.

Lemma enter_sends_witness :
  @AIChat.handleKeyPress Demo.host (KeyboardEvent.make "Enter" true)
    "2024-06-01T12:00:00.000Z" (Fulfilled Demo.answer) "2024-06-01T12:00:03.000Z"
    Demo.waiting = (Normal false, Demo.waiting, []) /\
  @AIChat.handleKeyPress Demo.host (KeyboardEvent.make "Enter" false)
    "2024-06-01T12:00:00.000Z" (Fulfilled Demo.answer) "2024-06-01T12:00:03.000Z"
    Demo.waiting = (Normal true, Demo.waiting, []).
Proof.
  split.
  - apply (@enter_sends Demo.host). now right.
  - apply (@enter_sends Demo.host); [reflexivity|reflexivity|now right].
Defined.

(** X21. The buttons are offered exactly when their handlers act.  The
    clear button is disabled exactly in the states in which [clearChat]
    returns at once, and otherwise [clearChat] asks for confirmation.  The
    send button is rendered and enabled exactly in the states in which
    [sendMessage] posts a request. *)
Theorem buttons_agree_with_handlers `{Host}
    (confirmed : bool) (now later : string) (r : reply ChatResponse.t) (s : AIChat.state) :
  (AIChat.clearButtonDisabled s = true <->
   AIChat.clearChat confirmed now s = (Normal tt, s, [])) /\
  (AIChat.clearButtonDisabled s = false <->
   head (Eff.trace (AIChat.clearChat confirmed now s)) =
     Some (WindowConfirm "Are you sure you want to clear the chat history?")) /\
  (AIChat.sendButtonShown s && negb (AIChat.sendButtonDisabled s) = true <->
   requests (Eff.trace (AIChat.sendMessage now r later s)) <> []).
Proof.
  unfold AIChat.clearButtonDisabled, AIChat.sendButtonShown, AIChat.sendButtonDisabled.
  assert (asks : (length (AIChat.messages s) <=? 1)%nat = false ->
            head (Eff.trace (AIChat.clearChat confirmed now s)) =
            Some (WindowConfirm "Are you sure you want to clear the chat history?")).
  { intros E. unfold AIChat.clearChat. run_eff. rewrite E. now destruct confirmed. }
  repeat apply conj.
  - intros E. apply clearChat_short. now apply Nat.leb_le.
  - intros E. destruct (length (AIChat.messages s) <=? 1)%nat eqn:G; [reflexivity|].
    specialize (asks eq_refl). rewrite E in asks. discriminate.
  - exact asks.
  - intros E. destruct (length (AIChat.messages s) <=? 1)%nat eqn:G; [|reflexivity].
    rewrite clearChat_short in E by now apply Nat.leb_le. discriminate.
  - rewrite andb_true_iff, negb_true_iff. intros [Hin Hl].
    assert (Hne : JS.trim (AIChat.inputMessage s) <> "")
      by (intros E; rewrite E in Hin; discriminate).
    destruct r as [data|error].
    + destruct (sendMessage_fulfilled now later data s Hne Hl) as [-> _]. discriminate.
    + destruct (sendMessage_rejected now later error s Hne Hl) as [-> _]. discriminate.
  - intros Hreq. rewrite andb_true_iff, negb_true_iff.
    destruct (AIChat.isLoading s) eqn:Hl.
    + exfalso. apply Hreq. now rewrite sendMessage_blocked by now right.
    + split; [|reflexivity].
      destruct (JS.trim (AIChat.inputMessage s)) eqn:Hin; [|reflexivity].
      exfalso. apply Hreq. rewrite sendMessage_blocked; [reflexivity|].
      left. exact Hin.
Qed.

(** ** How the messages of a send are displayed *)

(** X22. A send that goes out adds a user bubble at once.  When the
    request settles, whatever the user did in between, one bubble is added
    to those on display: a bot bubble when the request is fulfilled, an
    error bubble when it fails.  If the chat was not cleared in between,
    the bubbles of the earlier messages are as they were and the two new
    ones follow them; otherwise the display may also be the bot bubble of a
    fresh welcome message followed by the bubble of the reply.  The welcome
    message is a bot bubble. *)
Theorem bubbles_of_a_send `{Host}
    (now later : string) (r : reply ChatResponse.t) (s : AIChat.state)
    (between : list AIChat.action) :
  JS.trim (AIChat.inputMessage s) <> "" -> AIChat.isLoading s = false ->
  none_settles between = true ->
  let bubbles t := map AIChat.MessageBubble (AIChat.messages t) in
  let posted := Eff.final_state (AIChat.sendMessage_begin now s) in
  let pending := fold_left AIChat.step between posted in
  let done := Eff.final_state (AIChat.sendMessage_settle r later pending) in
  let reply_bubble :=
    match r with
    | Fulfilled _ => AIChat.BotBubble
    | Rejected _ => AIChat.ErrorBubble
    end in
  bubbles posted = (bubbles s ++ [AIChat.UserBubble])%list /\
  bubbles done = (bubbles pending ++ [reply_bubble])%list /\
  (bubbles done = (bubbles s ++ [AIChat.UserBubble; reply_bubble])%list \/
   bubbles done = [AIChat.BotBubble; reply_bubble]) /\
  (none_clears between = true ->
   bubbles done = (bubbles s ++ [AIChat.UserBubble; reply_bubble])%list) /\
  AIChat.MessageBubble (AIChat.welcomeMessage now) = AIChat.BotBubble.
Proof.
  intros Hin Hl Hs. cbv zeta.
  destruct (sendMessage_begin_run now s Hin Hl) as (_ & Pm & Pl).
  set (pending := fold_left AIChat.step between
                    (Eff.final_state (AIChat.sendMessage_begin now s))).
  destruct (sendMessage_settle_run r later pending) as (Sm & _).
  assert (Eb : AIChat.MessageBubble (replyMessage r later) =
               match r with
               | Fulfilled _ => AIChat.BotBubble
               | Rejected _ => AIChat.ErrorBubble
               end) by now destruct r.
  rewrite Sm, Pm, !map_app. cbn [map]. rewrite Eb.
  repeat apply conj; try reflexivity.
  - destruct (pending_run between _ Hs Pl) as [_ [Em|(cleared & Em)]]; fold pending in Em.
    + left. rewrite Em, Pm, map_app, <- app_assoc. reflexivity.
    + right. rewrite Em. reflexivity.
  - intros Hc. destruct (pending_quiet between _ Hs Hc Pl) as [_ Em]. fold pending in Em.
    rewrite Em, Pm, map_app, <- app_assoc. reflexivity.
Qed.

(** A request that fails after the chat was cleared. *)
Lemma bubbles_of_a_send_witness :
  let s := Eff.final_state (AIChat.setInputMessage "Hello" Demo.waiting) in
  let s := Eff.final_state (AIChat.setIsLoading false s) in
  let s := Eff.final_state
             (AIChat.setMessages
                (fun prev => prev ++ [AIChat.assistantMessage Demo.answer])%list s) in
  let posted := Eff.final_state
                  (@AIChat.sendMessage_begin Demo.host "2024-06-01T12:00:00.000Z" s) in
  let pending := fold_left (@AIChat.step Demo.host)
                   [AIChat.Clear true "2024-06-01T12:00:01.000Z"] posted in
  let done := Eff.final_state
                (AIChat.sendMessage_settle (Rejected Demo.offline)
                   "2024-06-01T12:00:03.000Z" pending) in
  map AIChat.MessageBubble (AIChat.messages posted) =
    [AIChat.BotBubble; AIChat.BotBubble; AIChat.UserBubble] /\
  map AIChat.MessageBubble (AIChat.messages done) =
    [AIChat.BotBubble; AIChat.ErrorBubble].
Proof.
  intros s s0 s1 posted pending done.
  destruct (@bubbles_of_a_send Demo.host "2024-06-01T12:00:00.000Z"
              "2024-06-01T12:00:03.000Z" (Rejected Demo.offline) s1
              [AIChat.Clear true "2024-06-01T12:00:01.000Z"]
              ltac:(discriminate) eq_refl eq_refl)
    as (first & second & _).
  split; [exact first|exact second].
Defined.

(** X23. Under the bubble of an answer the model name is shown unless it
    is empty, and the processing time is shown with two decimals and the
    unit "s", except that a processing time of zero is shown as the bare
    text "0".  User, error and welcome messages carry neither item. *)
Theorem items_under_a_bubble
    (data : ChatResponse.t) (input now later : string) (error : Exn.t) :
  AIChat.modelBadge (AIChat.assistantMessage data) =
    match ChatResponse.model_used data with
    | EmptyString => None
    | name => Some name
    end /\
  AIChat.processingLabel (AIChat.assistantMessage data) =
    Some (if Qeq_bool (ChatResponse.processing_time data) 0 then "0"
          else JS.toFixed2 (ChatResponse.processing_time data) ++ "s") /\
  (forall m,
     In m [AIChat.userMessage input now; AIChat.errorMessage error later;
           AIChat.welcomeMessage now] ->
     AIChat.modelBadge m = None /\ AIChat.processingLabel m = None).
Proof.
  repeat apply conj.
  - unfold AIChat.modelBadge, AIChat.assistantMessage. cbn [Msg.model_used].
    now destruct (ChatResponse.model_used data).
  - unfold AIChat.processingLabel, AIChat.assistantMessage. cbn [Msg.processing_time].
    now destruct (Qeq_bool (ChatResponse.processing_time data) 0).
  - intros m [<-|[<-|[<-|[]]]]; split; reflexivity.
Qed.

(** ** What a send posts, and the shape of the transcript *)

Section Posting.
Context `{Host}.

Lemma sendMessage_posts (now later : string) (r : reply ChatResponse.t) (s : AIChat.state) :
  JS.trim (AIChat.inputMessage s) <> "" -> AIChat.isLoading s = false ->
  requests (Eff.trace (AIChat.sendMessage now r later s)) =
  [Request "POST" (API ++ "/ai/chat")
     (ChatBody
        (AIChat.chatRequest s
           (AIChat.messages s ++ [AIChat.userMessage (AIChat.inputMessage s) now])%list))].
Proof.
  intros Hin Hl. destruct r as [data|error].
  - now destruct (sendMessage_fulfilled now later data s Hin Hl) as [-> _].
  - now destruct (sendMessage_rejected now later error s Hin Hl) as [-> _].
Qed.

Lemma sendMessage_flags (now later : string) (r : reply ChatResponse.t) (s : AIChat.state) :
  JS.trim (AIChat.inputMessage s) <> "" -> AIChat.isLoading s = false ->
  let s' := Eff.final_state (AIChat.sendMessage now r later s) in
  AIChat.isLoading s' = false /\ AIChat.inputMessage s' = "" /\
  AIChat.selectedDocument s' = AIChat.selectedDocument s.
Proof.
  intros Hin Hl. cbv zeta. unfold AIChat.sendMessage. run_eff. rewrite Hl.
  destruct (JS.trim (AIChat.inputMessage s)); [congruence|].
  destruct r; repeat split.
Qed.

Lemma chatRequest_messages (s : AIChat.state) (newMessages : list Msg.t) :
  ChatRequest.messages (AIChat.chatRequest s newMessages) = map Turn.of_msg newMessages.
Proof. unfold AIChat.chatRequest. now destruct (AIChat.selectedDocument s). Qed.

Lemma clearChat_isLoading (confirmed : bool) (now : string) (s : AIChat.state) :
  AIChat.isLoading (Eff.final_state (AIChat.clearChat confirmed now s)) = AIChat.isLoading s.
Proof.
  unfold AIChat.clearChat. run_eff.
  destruct (length (AIChat.messages s) <=? 1)%nat; [reflexivity|].
  now destruct confirmed.
Qed.

Lemma alternates_app (assistant : bool) (l l' : list Msg.t) :
  alternates assistant (l ++ l') =
  alternates assistant l
  && alternates (if Nat.even (length l) then assistant else negb assistant) l'.
Proof.
  revert assistant. induction l as [|m l IH]; intros assistant; [reflexivity|].
  cbn [app alternates length]. rewrite IH, Nat.even_succ, <- Nat.negb_even.
  rewrite andb_assoc. f_equal.
  destruct (Nat.even (length l)), assistant; reflexivity.
Qed.

End Posting.

(** X24. The model selector of the chat lists the models of the first
    provider that bears the current name, and nothing when no provider
    bears it.  When the provider fetch fails on mount the selector is
    empty, and a message is still posted, for the provider ['openai'] and
    the model ['gpt-4o-mini']. *)
Theorem chat_model_options `{Host}
    (s : AIChat.state) (before after : list Provider.t) (p : Provider.t)
    (docs : reply (list Doc.t)) (error : Exn.t)
    (text start now later : string) (r : reply ChatResponse.t) :
  ((forall q, In q (AIChat.aiProviders s) -> Provider.name q <> AIChat.currentProvider s) ->
   AIChat.getAvailableModels s = []) /\
  (AIChat.aiProviders s = (before ++ p :: after)%list ->
   (forall q, In q before -> Provider.name q <> AIChat.currentProvider s) ->
   Provider.name p = AIChat.currentProvider s ->
   AIChat.getAvailableModels s = Provider.available_models p) /\
  (JS.trim text <> "" ->
   let typed := AIChat.step
                  (Eff.final_state (AIChat.mount docs (Rejected error) start AIChat.initial))
                  (AIChat.Type_ text) in
   AIChat.getAvailableModels typed = [] /\
   exists posted,
     requests (Eff.trace (AIChat.sendMessage now r later typed)) =
       [Request "POST" (API ++ "/ai/chat") (ChatBody posted)] /\
     ChatRequest.model_provider posted = "openai" /\
     ChatRequest.model_name posted = "gpt-4o-mini").
Proof.
  repeat apply conj.
  - intros Hn. unfold AIChat.getAvailableModels. rewrite find_nothing; [reflexivity|].
    intros q Hq. apply String.eqb_neq. now apply Hn.
  - intros E Hb Hp. unfold AIChat.getAvailableModels. rewrite E.
    rewrite (find_first _ before after p); [reflexivity| |now apply String.eqb_eq].
    intros q Hq. apply String.eqb_neq. now apply Hb.
  - intros Hin. cbv zeta. split; [destruct docs; reflexivity|].
    eexists. split.
    + apply sendMessage_posts; destruct docs; (exact Hin || reflexivity).
    + destruct docs; split; reflexivity.
Qed.

Lemma chat_model_options_witness :
  let typed := @AIChat.step Demo.host
                 (Eff.final_state
                    (@AIChat.mount Demo.host (Fulfilled Demo.library) (Rejected Demo.offline)
                       "2024-06-01T11:59:00.000Z" AIChat.initial))
                 (AIChat.Type_ "Hello") in
  AIChat.getAvailableModels typed = [] /\
  exists posted,
    requests (Eff.trace (@AIChat.sendMessage Demo.host "2024-06-01T12:00:00.000Z"
                           (Fulfilled Demo.answer) "2024-06-01T12:00:03.000Z" typed)) =
      [Request "POST" "http://localhost:8001/api/ai/chat" (ChatBody posted)] /\
    ChatRequest.model_provider posted = "openai" /\
    ChatRequest.model_name posted = "gpt-4o-mini".
Proof.
  apply (@chat_model_options Demo.host AIChat.initial [] []
           (Provider.make "openai" [] "available") (Fulfilled Demo.library) Demo.offline
           "Hello" "2024-06-01T11:59:00.000Z" "2024-06-01T12:00:00.000Z"
           "2024-06-01T12:00:03.000Z" (Fulfilled Demo.answer)).
  discriminate.
Defined.

(** X25. A message typed and sent after a confirmed clear is posted
    without a document id, even if a document was selected before the
    clear.  If no request was pending when the chat was cleared, it is
    posted with a transcript of two entries, the fresh welcome message and
    the user message.  If a request was pending, nothing goes out until
    that request has settled, and the message sent after that is posted
    with three entries: the fresh welcome message, the reply to the earlier
    request and the user message. *)
Theorem send_after_clear `{Host}
    (s : AIChat.state) (cleared text now later later0 : string)
    (r r0 : reply ChatResponse.t) :
  (1 < length (AIChat.messages s))%nat -> JS.trim text <> "" ->
  let fresh := AIChat.step s (AIChat.Clear true cleared) in
  let welcome := Turn.make "assistant" AIChat.welcomeContent cleared in
  let question := Turn.make "user" (JS.trim text) now in
  let post turns :=
    [Request "POST" (API ++ "/ai/chat")
       (ChatBody
          (ChatRequest.make turns
             (AIChat.currentProvider s) (AIChat.currentModel s) (AIChat.temperature s)
             None))] in
  (AIChat.isLoading s = false ->
   requests (Eff.trace (AIChat.sendMessage now r later
                          (AIChat.step fresh (AIChat.Type_ text)))) =
     post [welcome; question]) /\
  (AIChat.isLoading s = true ->
   AIChat.sendMessage now r later (AIChat.step fresh (AIChat.Type_ text)) =
     (Normal tt, AIChat.step fresh (AIChat.Type_ text), []) /\
   requests (Eff.trace (AIChat.sendMessage now r later
                          (AIChat.step (AIChat.step fresh (AIChat.Settle r0 later0))
                             (AIChat.Type_ text)))) =
     post [welcome; Turn.of_msg (replyMessage r0 later0); question]).
Proof.
  intros Hn Hin. cbv zeta.
  assert (Ecl : AIChat.step s (AIChat.Clear true cleared) =
                AIChat.make [AIChat.welcomeMessage cleared] (AIChat.inputMessage s)
                  (AIChat.isLoading s) None (AIChat.documents s) (AIChat.aiProviders s)
                  (AIChat.currentProvider s) (AIChat.currentModel s) (AIChat.temperature s)
                  (AIChat.settingsOpen s) (AIChat.documentSelectorOpen s)).
  { unfold AIChat.step. cbn [AIChat.perform]. unfold AIChat.clearChat. run_eff.
    destruct (Nat.leb_spec (length (AIChat.messages s)) 1); [lia|reflexivity]. }
  rewrite Ecl. split; intros Hl.
  - rewrite sendMessage_posts; [|exact Hin|exact Hl]. reflexivity.
  - split.
    + apply sendMessage_blocked. right. exact Hl.
    + rewrite sendMessage_posts; [|exact Hin|now destruct r0].
      destruct r0; reflexivity.
Qed.

Lemma send_after_clear_witness :
  let s := Eff.final_state
             (AIChat.setMessages
                (fun prev => prev ++ [AIChat.assistantMessage Demo.answer])%list
                (Eff.final_state
                   (AIChat.setSelectedDocument (Some Demo.report)
                      (Eff.final_state (AIChat.setIsLoading false Demo.waiting))))) in
  let typed := @AIChat.step Demo.host
                 (@AIChat.step Demo.host s (AIChat.Clear true "2024-06-01T12:05:00.000Z"))
                 (AIChat.Type_ "Start over") in
  requests (Eff.trace (@AIChat.sendMessage Demo.host "2024-06-01T12:06:00.000Z"
                         (Fulfilled Demo.answer) "2024-06-01T12:06:03.000Z" typed)) =
    [Request "POST" "http://localhost:8001/api/ai/chat"
       (ChatBody
          (ChatRequest.make
             [Turn.make "assistant" AIChat.welcomeContent "2024-06-01T12:05:00.000Z";
              Turn.make "user" "Start over" "2024-06-01T12:06:00.000Z"]
             "openai" "gpt-4o-mini" (7 # 10) None))].
Proof.
  intros s.
  destruct (@send_after_clear Demo.host s "2024-06-01T12:05:00.000Z" "Start over"
              "2024-06-01T12:06:00.000Z" "2024-06-01T12:06:03.000Z"
              "2024-06-01T12:05:30.000Z" (Fulfilled Demo.answer) (Rejected Demo.offline))
    as [idle _].
  - vm_compute. lia.
  - discriminate.
  - apply idle. reflexivity.
Defined.

(** X26. As long as every request is settled before the next action, no
    request is pending between two actions, the transcript has an odd
    number of messages, and its roles alternate: assistant, user,
    assistant, and so on, the last one being the assistant's. *)
Theorem settled_transcript_alternates `{Host} (s : AIChat.state) :
  AIChat.settled s ->
  AIChat.isLoading s = false /\
  Nat.odd (length (AIChat.messages s)) = true /\
  alternates true (AIChat.messages s) = true.
Proof.
  induction 1 as [docs provs now|s a _ (Il & Io & Ia) W].
  - destruct docs, provs; repeat split.
  - unfold AIChat.step.
    destruct a as [now r later|now|r later|confirmed now| | | | | | |[docs|error]];
      try discriminate W; try (repeat split; assumption); cbn [AIChat.perform].
    + destruct (string_dec (JS.trim (AIChat.inputMessage s)) "") as [Hin|Hin].
      * rewrite sendMessage_blocked by now left. repeat split; assumption.
      * destruct (sendMessage_flags now later r s Hin Il) as (Fl & _ & _).
        split; [exact Fl|].
        assert (E : exists reply,
                  Msg.role reply = "assistant" /\
                  AIChat.messages (Eff.final_state (AIChat.sendMessage now r later s)) =
                  (AIChat.messages s ++
                   [AIChat.userMessage (AIChat.inputMessage s) now; reply])%list).
        { destruct r as [data|error].
          - destruct (sendMessage_fulfilled now later data s Hin Il) as [_ ->].
            eexists. split; [|now rewrite <- app_assoc]. reflexivity.
          - destruct (sendMessage_rejected now later error s Hin Il) as [_ ->].
            eexists. split; [|now rewrite <- app_assoc]. reflexivity. }
        destruct E as (reply & Er & ->). split.
        -- rewrite length_app. cbn [length].
           rewrite Nat.add_comm. cbn [Nat.add]. now rewrite Nat.odd_succ_succ.
        -- rewrite alternates_app, Ia, <- Nat.negb_odd, Io. cbn. now rewrite Er.
    + rewrite clearChat_isLoading. split; [exact Il|].
      destruct confirmed.
      * destruct (Nat.leb_spec (length (AIChat.messages s)) 1) as [Hn|Hn].
        -- rewrite clearChat_short by exact Hn. split; assumption.
        -- destruct (clearChat_confirmed now s Hn) as [-> _]. split; reflexivity.
      * rewrite clearChat_declined. split; assumption.
Qed.

Lemma settled_transcript_alternates_witness :
  let s0 := Eff.final_state
              (@AIChat.mount Demo.host (Fulfilled Demo.library) (Fulfilled [])
                 "2024-06-01T11:59:00.000Z" AIChat.initial) in
  let s1 := @AIChat.step Demo.host s0 (AIChat.Type_ "What is this about?") in
  let s2 := @AIChat.step Demo.host s1
              (AIChat.Send "2024-06-01T12:00:00.000Z" (Rejected Demo.refused)
                 "2024-06-01T12:00:03.000Z") in
  AIChat.isLoading s2 = false /\
  Nat.odd (length (AIChat.messages s2)) = true /\
  alternates true (AIChat.messages s2) = true.
Proof.
  intros s0 s1 s2. apply (@settled_transcript_alternates Demo.host s2).
  unfold s2, s1, s0. repeat (apply AIChat.settled_step; [|reflexivity]).
  apply AIChat.settled_mount.
Defined.

(** X27. Whatever happened in a mounted chat, a message that goes out is
    posted with a transcript whose first entry is the welcome message of
    the assistant: the welcome text is part of every request. *)
Theorem welcome_is_posted `{Host}
    (s : AIChat.state) (now later : string) (r : reply ChatResponse.t) :
  AIChat.reachable s ->
  JS.trim (AIChat.inputMessage s) <> "" -> AIChat.isLoading s = false ->
  exists posted since rest,
    requests (Eff.trace (AIChat.sendMessage now r later s)) =
      [Request "POST" (API ++ "/ai/chat") (ChatBody posted)] /\
    ChatRequest.messages posted =
      Turn.make "assistant" AIChat.welcomeContent since :: rest.
Proof.
  intros R Hin Hl.
  destruct (reachable_opens_with_welcome s R) as (since & rest & E).
  eexists. exists since. eexists. split; [now apply sendMessage_posts|].
  rewrite chatRequest_messages, E. cbn [app map]. reflexivity.
Qed.

Lemma welcome_is_posted_witness :
  let s := @AIChat.step Demo.host
             (Eff.final_state
                (@AIChat.mount Demo.host (Fulfilled Demo.library) (Fulfilled [])
                   "2024-06-01T11:59:00.000Z" AIChat.initial))
             (AIChat.Type_ "Hello") in
  exists posted since rest,
    requests (Eff.trace (@AIChat.sendMessage Demo.host "2024-06-01T12:00:00.000Z"
                           (Fulfilled Demo.answer) "2024-06-01T12:00:03.000Z" s)) =
      [Request "POST" "http://localhost:8001/api/ai/chat" (ChatBody posted)] /\
    ChatRequest.messages posted =
      Turn.make "assistant" AIChat.welcomeContent since :: rest.
Proof.
  intros s.
  apply (@welcome_is_posted Demo.host s "2024-06-01T12:00:00.000Z"
           "2024-06-01T12:00:03.000Z" (Fulfilled Demo.answer)).
  - unfold s. apply AIChat.reachable_step, AIChat.reachable_mount.
  - discriminate.
  - reflexivity.
Defined.

(** X28. The text of a failed exchange stays in the conversation: the
    message sent after a failure is posted with a transcript that contains
    the error text as a turn of the assistant, like any answer. *)
Theorem error_text_is_posted_back `{Host}
    (s : AIChat.state) (error : Exn.t) (now later text now' later' : string)
    (r : reply ChatResponse.t) :
  JS.trim (AIChat.inputMessage s) <> "" -> AIChat.isLoading s = false ->
  JS.trim text <> "" ->
  let failed := AIChat.step s (AIChat.Send now (Rejected error) later) in
  let typed := AIChat.step failed (AIChat.Type_ text) in
  exists posted,
    requests (Eff.trace (AIChat.sendMessage now' r later' typed)) =
      [Request "POST" (API ++ "/ai/chat") (ChatBody posted)] /\
    In (Turn.make "assistant"
          ("Sorry, I encountered an error: " ++ Exn.text error
           ++ ". Please try again or check your settings.") later)
       (ChatRequest.messages posted).
Proof.
  intros Hin Hl Hin'. cbv zeta.
  destruct (sendMessage_flags now later (Rejected error) s Hin Hl) as (Fl & _ & _).
  destruct (sendMessage_rejected now later error s Hin Hl) as [_ Em].
  set (failed := AIChat.step s (AIChat.Send now (Rejected error) later)) in *.
  set (typed := AIChat.step failed (AIChat.Type_ text)).
  assert (Et : AIChat.messages typed = AIChat.messages failed) by reflexivity.
  eexists. split.
  - apply sendMessage_posts; [exact Hin'|exact Fl].
  - rewrite chatRequest_messages, Et. unfold failed, AIChat.step. cbn [AIChat.perform].
    rewrite Em.
    change (Turn.make "assistant"
              ("Sorry, I encountered an error: " ++ Exn.text error
               ++ ". Please try again or check your settings.") later)
      with (Turn.of_msg (AIChat.errorMessage error later)).
    apply in_map, in_or_app. left. apply in_or_app. right. now left.
Qed.

Lemma error_text_is_posted_back_witness :
  let s := Eff.final_state (AIChat.setIsLoading false Demo.waiting) in
  let failed := @AIChat.step Demo.host s
                  (AIChat.Send "2024-06-01T12:00:00.000Z" (Rejected Demo.refused)
                     "2024-06-01T12:00:01.000Z") in
  let typed := @AIChat.step Demo.host failed (AIChat.Type_ "Again?") in
  exists posted,
    requests (Eff.trace (@AIChat.sendMessage Demo.host "2024-06-01T12:01:00.000Z"
                           (Fulfilled Demo.answer) "2024-06-01T12:01:03.000Z" typed)) =
      [Request "POST" "http://localhost:8001/api/ai/chat" (ChatBody posted)] /\
    In (Turn.make "assistant"
          "Sorry, I encountered an error: Quota exceeded. Please try again or check your settings."
          "2024-06-01T12:00:01.000Z")
       (ChatRequest.messages posted).
Proof.
  intros s.
  apply (@error_text_is_posted_back Demo.host s Demo.refused "2024-06-01T12:00:00.000Z"
           "2024-06-01T12:00:01.000Z" "Again?" "2024-06-01T12:01:00.000Z"
           "2024-06-01T12:01:03.000Z" (Fulfilled Demo.answer));
    (discriminate || reflexivity).
Defined.

(** ** What stands in the place of the document list *)

Lemma shown_length `{Host} (s : DocumentManager.state) :
  length (DocumentManager.shown s) =
  length (List.filter (DocumentManager.matches (DocumentManager.searchTerm s))
            (DocumentManager.documents s)).
Proof.
  unfold DocumentManager.shown. symmetry.
  apply Permutation_length, filteredDocuments_Permutation.
Qed.

Lemma filter_none {A} (f : A -> bool) (l : list A) :
  (forall x, In x l -> f x = false) -> List.filter f l = [].
Proof.
  intros Hl. induction l as [|x l IH]; [reflexivity|].
  cbn [List.filter]. rewrite (Hl x) by now left.
  apply IH. intros y Hy. apply Hl. now right.
Qed.

(** X29. Until the first fetch of the list has settled the component
    shows the skeleton and nothing else; every fetch of the list ends the
    loading state, and no handler brings it back.  Once loading is over:
    without documents the page shows "No documents yet" with the upload
    button, and no search controls; with documents it shows the search
    controls, and either the cards, when some document matches the search
    term, or "No documents match your search" without an upload button,
    when none does; with an empty search term it always shows the cards,
    one for each document.  After a first fetch that failed the page shows
    "No documents yet". *)
Theorem documents_or_empty_state `{Host} (s : DocumentManager.state) :
  (DocumentManager.loading s = true ->
   DocumentManager.documentsDisplay s = DocumentManager.Skeleton /\
   DocumentManager.searchBarShown s = false) /\
  (DocumentManager.loading s = false ->
   (DocumentManager.documents s = [] ->
    DocumentManager.searchBarShown s = false /\
    DocumentManager.documentsDisplay s =
      DocumentManager.EmptyState "No documents yet"
        "Upload your first PDF document to get started" true) /\
   (DocumentManager.documents s <> [] ->
    DocumentManager.searchBarShown s = true /\
    ((exists d, In d (DocumentManager.documents s) /\
                DocumentManager.matches (DocumentManager.searchTerm s) d = true) ->
     DocumentManager.documentsDisplay s = DocumentManager.Cards (DocumentManager.shown s)) /\
    ((forall d, In d (DocumentManager.documents s) ->
                DocumentManager.matches (DocumentManager.searchTerm s) d = false) ->
     DocumentManager.documentsDisplay s =
       DocumentManager.EmptyState "No documents match your search"
         "Try adjusting your search terms or filters" false) /\
    (DocumentManager.searchTerm s = "" ->
     DocumentManager.documentsDisplay s = DocumentManager.Cards (DocumentManager.shown s) /\
     length (DocumentManager.shown s) = length (DocumentManager.documents s)))) /\
  DocumentManager.documentsDisplay DocumentManager.initial = DocumentManager.Skeleton /\
  (forall r, DocumentManager.loading
               (Eff.final_state (DocumentManager.fetchDocuments r s)) = false) /\
  (forall a, DocumentManager.loading s = false ->
             DocumentManager.loading
               (Eff.final_state (DocumentManager.perform a s)) = false) /\
  (forall error provs,
     DocumentManager.documentsDisplay
       (Eff.final_state
          (DocumentManager.mount (Rejected error) provs DocumentManager.initial)) =
     DocumentManager.EmptyState "No documents yet"
       "Upload your first PDF document to get started" true).
Proof.
  repeat apply conj.
  - unfold DocumentManager.documentsDisplay, DocumentManager.searchBarShown.
    intros ->. split; reflexivity.
  - unfold DocumentManager.documentsDisplay, DocumentManager.searchBarShown.
    intros ->. rewrite shown_length. split.
    + intros E. rewrite E. split; reflexivity.
    + intros Hne.
      assert (Hlen : (length (DocumentManager.documents s) =? 0)%nat = false).
      { apply Nat.eqb_neq. destruct (DocumentManager.documents s); [congruence|discriminate]. }
      rewrite Hlen. repeat apply conj.
      * apply Nat.ltb_lt. apply Nat.eqb_neq in Hlen. lia.
      * intros (d & Hd & Hm).
        assert (Hin : In d (List.filter
                              (DocumentManager.matches (DocumentManager.searchTerm s))
                              (DocumentManager.documents s))) by now apply filter_In.
        destruct (List.filter _ _); [destruct Hin|reflexivity].
      * intros Hnone.
        assert (E : List.filter (DocumentManager.matches (DocumentManager.searchTerm s))
                      (DocumentManager.documents s) = []).
        { now apply filter_none. }
        now rewrite E.
      * intros Et. rewrite Et.
        rewrite filter_all
          by (intros d; apply matches_spec; left; apply includes_spec, includes_empty).
        rewrite Hlen. split; reflexivity.
  - reflexivity.
  - intros [docs|e]; reflexivity.
  - intros a Hl.
    destruct a as [r|r|files uploaded listed|docId filename r
                   |docId filename confirmed r listed|doc|r opened];
      cbn [DocumentManager.perform].
    + destruct r; reflexivity.
    + destruct r; exact Hl.
    + destruct files as [|file rest]; [exact Hl|].
      unfold DocumentManager.onDrop. cbn [head].
      destruct (String.eqb (File.type file) "application/pdf"); cbn [negb]; [|exact Hl].
      destruct uploaded as [[]|e]; [destruct listed; reflexivity|exact Hl].
    + destruct r; exact Hl.
    + destruct confirmed; [|exact Hl].
      destruct r as [[]|e]; [destruct listed; reflexivity|exact Hl].
    + exact Hl.
    + unfold DocumentManager.performAiTask, DocumentManager.window_open_write. run_eff.
      destruct (DocumentManager.selectedDocument s); [|exact Hl].
      destruct r as [data|e]; [destruct opened|]; exact Hl.
  - intros error [provs|e]; reflexivity.
Qed.

Lemma documents_or_empty_state_witness :
  let s := DocumentManager.make Demo.library false false "contract" None "grid"
             "upload_date" [] false "summarize" "" "openai" "gpt-4o-mini" false in
  @DocumentManager.documentsDisplay Demo.host s =
    DocumentManager.EmptyState "No documents match your search"
      "Try adjusting your search terms or filters" false.
Proof.
  intros s. apply (@documents_or_empty_state Demo.host s).
  - reflexivity.
  - discriminate.
  - intros d [<-|[<-|[<-|[]]]]; reflexivity.
Defined.

(** ** What the handlers of the document manager leave alone *)



